(** * Change detection and risk classification: a shallow embedding

    The development follows the three service modules of the repository:
    [gisService.js] (spatial predicates, risk scoring, district lookup),
    [mlModelService.js] (region extraction, detection filtering) and
    [changeDetectionService.js] / [api.js] (the detection pipeline and the
    site analysis entry point).

    Conventions.  A JavaScript number that holds a count or a pixel index is
    an integer of [Z]; any other number is the rational of [Q] it denotes
    (NaN and the infinities are outside the model, a decimal literal is read
    as the rational it spells).  A JavaScript string is a [string]; a field
    that may be [undefined] or [null] is an [option]. *)

From Stdlib Require Import ZArith QArith Qround Lia Lqa List String Ascii.
From stdpp Require Import base option list strings gmap.
From Equations Require Import Equations.

Local Open Scope string_scope.
Local Open Scope list_scope.
Local Open Scope Z_scope.

(** ** Numbers and strings of the host language *)

Module Js.

(** [a > b], [a >= b], [a < b], [a <= b] on numbers. *)
Definition gt (a b : Q) : bool := negb (Qle_bool a b).
Definition ge (a b : Q) : bool := Qle_bool b a.
Definition lt (a b : Q) : bool := negb (Qle_bool b a).
Definition le (a b : Q) : bool := Qle_bool a b.

(** [Math.max(a, b)] and [Math.min(a, b)]. *)
Definition max (a b : Q) : Q := if lt a b then b else a.
Definition min (a b : Q) : Q := if lt b a then b else a.

(** [Math.round(x)]: the nearest integer, a tie going up. *)
Definition round (x : Q) : Z := Qfloor (x + (1 # 2))%Q.

(** [Math.floor(x)]. *)
Definition floor (x : Q) : Z := Qfloor x.

(** The integer part of a time value, as [new Date(x)] keeps it. *)
Definition trunc (x : Q) : Z :=
  if lt x 0 then Qceiling x else Qfloor x.

(** The decimal digits of a natural number, as a template literal
    prints an integer. *)
Definition digit (n : Z) : ascii := ascii_of_nat (48 + Z.to_nat n)%nat.

Fixpoint digits (fuel : nat) (n : Z) (acc : string) : string :=
  match fuel with
  | O => acc
  | S fuel' =>
      let acc' := String (digit (n mod 10)) acc in
      if n / 10 =? 0 then acc' else digits fuel' (n / 10) acc'
  end.

Definition of_int (n : Z) : string :=
  if n <? 0
  then String "-" (digits (S (Z.to_nat (Z.log2 (- n)))) (- n) EmptyString)
  else digits (S (Z.to_nat (Z.log2 n))) n EmptyString.

(** [s || d] on strings: the empty string is falsy. *)
Definition str_or (s : option string) (d : string) : string :=
  match s with
  | Some (String c r) => String c r
  | _ => d
  end.

End Js.

(** ** Violations and the risk scorer ([gisService.js]) *)

Record Violation := mkViolation {
  v_type : string;
  v_feature : string;
  v_severity : string;
  v_distance : option string
}.

Record Risk := mkRisk {
  level : string;
  score : Z
}.

(** The body of the [forEach] callback: one violation added to the score. *)
Definition addSeverity (score : Z) (v : Violation) : Z :=
  if String.eqb (v_severity v) "HIGH" then score + 10
  else if String.eqb (v_severity v) "MEDIUM" then score + 5
  else score + 2.

Definition calculateRiskLevel (violations : list Violation) : Risk :=
  if (Z.of_nat (length violations) =? 0) then mkRisk "LOW" 0
  else
    let score := fold_left addSeverity violations 0 in
    if score >=? 10 then mkRisk "HIGH" score
    else if score >=? 5 then mkRisk "MEDIUM" score
    else mkRisk "LOW" score.

(** The weight table as the specification words it. *)
Definition weight (severity : string) : Z :=
  if String.eqb severity "HIGH" then 10
  else if String.eqb severity "MEDIUM" then 5
  else 2.

Definition weightSum (violations : list Violation) : Z :=
  foldr (fun v acc => weight (v_severity v) + acc) 0 violations.

Definition levelOf (score : Z) : string :=
  if 10 <=? score then "HIGH" else if 5 <=? score then "MEDIUM" else "LOW".


(** ** GeoJSON features and the turf predicates *)

Definition Position := list Q.

Inductive Geometry :=
| GPoint (coordinates : Position)
| GLineString (coordinates : list Position)
| GMultiLineString (coordinates : list (list Position))
| GPolygon (coordinates : list (list Position))
| GMultiPolygon (coordinates : list (list (list Position))).

Record Properties := mkProperties {
  name : option string
}.

Record Feature := mkFeature {
  properties : option Properties;
  geometry : Geometry
}.

Record FeatureCollection := mkFeatureCollection {
  features : option (list Feature)
}.

(** The three functions of the turf library that the engine calls, with
    the options the calls fix ([units: 'meters']).  The class gives what
    a call returns.  A call that throws, as turf does on a feature it
    cannot read, is not represented, and nothing in the engine or in its
    callers catches it: what is proved of them is about the results they
    return, not that they return. *)
Class Turf := {
  booleanPointInPolygon : Feature -> Feature -> bool;
  buffer : Feature -> Q -> Feature;
  pointToLineDistance : Feature -> Feature -> Q
}.

(** [turf.point(coordinates)]. *)
Definition point (coordinates : Position) : Feature :=
  mkFeature (Some (mkProperties None)) (GPoint coordinates).

(** [feature.properties?.name || fallback]. *)
Definition nameOr (feature : Feature) (fallback : string) : string :=
  Js.str_or (p ← properties feature; name p) fallback.

(** ** The spatial predicate engine ([checkProtectedZone]) *)

Record ZoneResults := mkZoneResults {
  inWaterbody : bool;
  inWaterway : bool;
  inVulnerableZone : bool;
  inGreenBelt : bool;
  nearChannel : bool;
  violations : list Violation
}.

(** [for (const feature of fs) { if (test feature) { ...; break; } }]:
    the feature at which the loop body runs, if any. *)
Fixpoint firstMatch (test : Feature -> bool) (fs : list Feature)
  : option Feature :=
  match fs with
  | [] => None
  | feature :: rest => if test feature then Some feature else firstMatch test rest
  end.

(** [layers.key.features || []], behind the guard [if (layers.key)]. *)
Definition layerFeatures (layers : gmap string FeatureCollection)
    (key : string) : list Feature :=
  match layers !! key with
  | Some collection => default [] (features collection)
  | None => []
  end.

Section Engine.
Context `{Turf}.

Definition checkWaterbodies (pt : Feature)
    (layers : gmap string FeatureCollection) (r : ZoneResults)
  : ZoneResults :=
  match firstMatch (fun feature => booleanPointInPolygon pt feature)
          (layerFeatures layers "waterbodies") with
  | Some feature =>
      mkZoneResults true (inWaterway r) (inVulnerableZone r)
        (inGreenBelt r) (nearChannel r)
        (violations r ++
         [mkViolation "Waterbody Encroachment"
            (nameOr feature "Unnamed Waterbody") "HIGH" None])
  | None => r
  end.

Definition checkWaterways (pt : Feature)
    (layers : gmap string FeatureCollection) (r : ZoneResults)
  : ZoneResults :=
  match firstMatch
          (fun feature => booleanPointInPolygon pt (buffer feature 50))
          (layerFeatures layers "waterways") with
  | Some feature =>
      mkZoneResults (inWaterbody r) true (inVulnerableZone r)
        (inGreenBelt r) (nearChannel r)
        (violations r ++
         [mkViolation "Waterway Buffer Violation"
            (nameOr feature "Waterway") "HIGH" (Some "within 50m buffer")])
  | None => r
  end.

Definition checkVulnerable (pt : Feature)
    (layers : gmap string FeatureCollection) (r : ZoneResults)
  : ZoneResults :=
  match firstMatch (fun feature => booleanPointInPolygon pt feature)
          (layerFeatures layers "vulnerableLocalities") with
  | Some feature =>
      mkZoneResults (inWaterbody r) (inWaterway r) true
        (inGreenBelt r) (nearChannel r)
        (violations r ++
         [mkViolation "Flood Risk Zone"
            (nameOr feature "Vulnerable Locality") "HIGH" None])
  | None => r
  end.

Definition checkGreenCover (pt : Feature)
    (layers : gmap string FeatureCollection) (r : ZoneResults)
  : ZoneResults :=
  match firstMatch (fun feature => booleanPointInPolygon pt feature)
          (layerFeatures layers "greenCover") with
  | Some feature =>
      mkZoneResults (inWaterbody r) (inWaterway r) (inVulnerableZone r)
        true (nearChannel r)
        (violations r ++
         [mkViolation "Green Belt Encroachment"
            (nameOr feature "Park/Green Space") "MEDIUM" None])
  | None => r
  end.

Definition checkChannels (pt : Feature)
    (layers : gmap string FeatureCollection) (r : ZoneResults)
  : ZoneResults :=
  match firstMatch
          (fun feature => Js.lt (pointToLineDistance pt feature) 100)
          (layerFeatures layers "channels") with
  | Some feature =>
      let distance := pointToLineDistance pt feature in
      mkZoneResults (inWaterbody r) (inWaterway r) (inVulnerableZone r)
        (inGreenBelt r) true
        (violations r ++
         [mkViolation "Channel Proximity" "Drainage Channel"
            (if Js.lt distance 50 then "HIGH" else "MEDIUM")
            (Some (Js.of_int (Js.round distance) ++ "m")%string)])
  | None => r
  end.

Definition checkProtectedZone (lat lng : Q)
    (layers : gmap string FeatureCollection) : ZoneResults :=
  let pt := point [lng; lat] in
  let results := mkZoneResults false false false false false [] in
  let results := checkWaterbodies pt layers results in
  let results := checkWaterways pt layers results in
  let results := checkVulnerable pt layers results in
  let results := checkGreenCover pt layers results in
  let results := checkChannels pt layers results in
  results.

End Engine.

(** ** District lookup and the service region *)

Definition getDistrict (lat lng : Q) : string :=
  if Js.ge lat 17.3 && Js.le lat 17.5 && Js.ge lng 78.4 && Js.le lng 78.6
  then "Hyderabad"
  else if Js.ge lat 17.5 && Js.le lat 18.0 && Js.ge lng 78.4 && Js.le lng 78.8
  then "Medchal"
  else if Js.ge lat 17.6 && Js.le lat 18.0 && Js.ge lng 77.8 && Js.le lng 78.2
  then "Sangareddy"
  else if Js.ge lat 17.2 && Js.le lat 17.8 && Js.ge lng 77.5 && Js.le lng 78.2
  then "Vikarabad"
  else if Js.ge lat 17.2 && Js.le lat 17.6 && Js.ge lng 78.2 && Js.le lng 78.8
  then "Rangareddy"
  else "Unknown".

(** The same rules as a table: a rectangle [south, north] x [west, east]
    and its label, in the order of the conditionals. *)
Record Rect := mkRect {
  south : Q; north : Q; west : Q; east : Q
}.

Definition inRect (r : Rect) (lat lng : Q) : bool :=
  Js.ge lat (south r) && Js.le lat (north r) &&
  Js.ge lng (west r) && Js.le lng (east r).

Definition districtRules : list (Rect * string) :=
  [ (mkRect 17.3 17.5 78.4 78.6, "Hyderabad");
    (mkRect 17.5 18.0 78.4 78.8, "Medchal");
    (mkRect 17.6 18.0 77.8 78.2, "Sangareddy");
    (mkRect 17.2 17.8 77.5 78.2, "Vikarabad");
    (mkRect 17.2 17.6 78.2 78.8, "Rangareddy") ].

Fixpoint firstRule (rules : list (Rect * string)) (lat lng : Q) : string :=
  match rules with
  | [] => "Unknown"
  | (r, label) :: rest =>
      if inRect r lat lng then label else firstRule rest lat lng
  end.

Definition bounds : Rect := mkRect 17.0 18.0 77.5 79.0.

Definition isWithinHyderabadRegion (lat lng : Q) : bool :=
  Js.ge lat (south bounds) && Js.le lat (north bounds) &&
  Js.ge lng (west bounds) && Js.le lng (east bounds).

(** ** Region extraction ([mlModelService.js]) *)

Record BBox := mkBBox {
  x : Z; y : Z; x2 : Z; y2 : Z
}.

Record Region := mkRegion {
  region_id : Z;
  pixels : list (Z * Z);
  bbox : BBox
}.

Definition maxPixels : nat := 1000.
Definition sampleRate : Z := 4.

(** [maskData[idx]] for an index that is not negative. *)
Definition maskAt (maskData : list Q) (idx : Z) : option Q :=
  maskData !! Z.to_nat idx.

(** The guard of the flood-fill loop body that skips a popped cell. *)
Definition skipCell (maskData : list Q) (visited : gset Z)
    (width height : Z) (px py : Z) : bool :=
  let idx := py * width + px in
  (px <? 0) || (px >=? width) || (py <? 0) || (py >=? height) ||
  (idx >=? Z.of_nat (length maskData)) ||
  bool_decide (idx ∈ visited) ||
  Js.lt (default 0%Q (maskAt maskData idx)) 0.5.

(** A popped cell that is kept: recorded in the region, whose bounding
    box grows to hold it. *)
Definition addPixel (region : Region) (px py : Z) : Region :=
  mkRegion (region_id region) (pixels region ++ [(px, py)])
    (mkBBox (Z.min (x (bbox region)) px) (Z.min (y (bbox region)) py)
            (Z.max (x2 (bbox region)) px) (Z.max (y2 (bbox region)) py)).

(** [stack.push(a, b, c, d)] leaves [d] on top; the head of the list is
    the top of the stack.  The two branches on [sampleRate === 1] push
    the same four cells, at distance [rate]. *)
Definition pushNeighbours (stack : list (Z * Z)) (px py rate : Z)
  : list (Z * Z) :=
  (px, py - rate) :: (px, py + rate) :: (px - rate, py) :: (px + rate, py)
  :: stack.

Definition fillMeasure (stack : list (Z * Z)) (region : Region) : nat :=
  (5 * (maxPixels - length (pixels region)) + length stack)%nat.

(** The [while] loop of [floodFill]: it runs while the stack is not empty
    and the region holds fewer than [maxPixels] entries. *)
#[local] Opaque maxPixels.

Equations? fillLoop (maskData : list Q) (width height rate : Z)
    (stack : list (Z * Z)) (visited : gset Z) (region : Region)
  : gset Z * Region by wf (fillMeasure stack region) lt :=
  fillLoop maskData width height rate [] visited region := (visited, region);
  fillLoop maskData width height rate ((px, py) :: rest) visited region
    with decide (length (pixels region) < maxPixels)%nat => {
    | right _ := (visited, region);
    | left _ with skipCell maskData visited width height px py => {
      | true := fillLoop maskData width height rate rest visited region;
      | false := fillLoop maskData width height rate
                   (pushNeighbours rest px py rate)
                   ({[ py * width + px ]} ∪ visited)
                   (addPixel region px py) } }.
Proof.
  - unfold fillMeasure; simpl; lia.
  - unfold fillMeasure, addPixel; simpl. rewrite length_app; simpl. lia.
Qed.

#[local] Transparent maxPixels.

Definition floodFill (maskData : list Q) (visited : gset Z)
    (startX startY width height : Z) (region : Region) (rate : Z)
  : gset Z * Region :=
  fillLoop maskData width height rate [(startX, startY)] visited region.

(** The values of the counter of [for (let i = 0; i < stop; i += step)]. *)
Definition rangeStep (stop step : Z) : list Z :=
  map (fun k => Z.of_nat k * step)
      (seq 0 (Z.to_nat ((stop + step - 1) / step))).

(** The body of the two nested scan loops of [findChangeRegions], on the
    accepted regions and the visited set. *)
Definition scanCell (maskData : list Q) (width height : Z)
    (st : list Region * gset Z) (px py : Z) : list Region * gset Z :=
  let idx := py * width + px in
  if (idx <? Z.of_nat (length maskData)) &&
     Js.gt (default 0%Q (maskAt maskData idx)) 0.5 &&
     negb (bool_decide (idx ∈ st.2))
  then
    let region := mkRegion (Z.of_nat (length st.1)) [(px, py)]
                    (mkBBox px py px py) in
    let filled := floodFill maskData st.2 px py width height region
                    sampleRate in
    if (10 <=? length (pixels filled.2))%nat
    then (st.1 ++ [filled.2], filled.1)
    else (st.1, filled.1)
  else st.

Definition scanRow (maskData : list Q) (width height : Z)
    (st : list Region * gset Z) (py : Z) : list Region * gset Z :=
  fold_left (fun st px => scanCell maskData width height st px py)
            (rangeStep width sampleRate) st.

Definition scanMask (maskData : list Q) (width height : Z)
  : list Region * gset Z :=
  fold_left (scanRow maskData width height) (rangeStep height sampleRate)
            ([], ∅).

Definition findChangeRegions (maskData : list Q) (width height : Z)
  : list Region :=
  take 20 (scanMask maskData width height).1.

(** ** Building detections and their filter ([mlModelService.js]) *)

Module Detection.
(** The pixel box of a detection: a corner and a size. *)
Record BBox := mkBBox {
  x : Q; y : Q; width : Q; height : Q
}.
End Detection.

Record Building := mkBuilding {
  building_id : option string;
  building_bbox : Detection.BBox;
  building_confidence : Q;
  building_class : Q
}.

Definition centerX (b : Detection.BBox) : Q :=
  (Detection.x b + Detection.width b / 2)%Q.

Definition centerY (b : Detection.BBox) : Q :=
  (Detection.y b + Detection.height b / 2)%Q.

(** The callback of [changeRegions.some]. *)
Definition centerInRegion (building : Building) (region : Region) : bool :=
  let cx := centerX (building_bbox building) in
  let cy := centerY (building_bbox building) in
  let r := bbox region in
  Js.ge cx (inject_Z (x r)) && Js.le cx (inject_Z (x2 r)) &&
  Js.ge cy (inject_Z (y r)) && Js.le cy (inject_Z (y2 r)).

Definition filterBuildingsInChangeRegions (buildings : list Building)
    (changeRegions : list Region) : list Building :=
  List.filter
    (fun building => existsb (centerInRegion building) changeRegions)
    buildings.

(** ** The change mask ([postprocessChangeMask]) *)

(** The output tensor of the change model: its values, unless reading
    them fails, and its shape. *)
Record Prediction := mkPrediction {
  predictionData : option (list Q);
  shape : list Z
}.

Record ChangeMask := mkChangeMask {
  mask : option (list Q);
  regions : list Region;
  mask_confidence : option (list Q)
}.

(** [shape[i] || 512]. *)
Definition dimOr512 (shape : list Z) (i : nat) : Z :=
  match shape !! i with
  | Some d => if d =? 0 then 512 else d
  | None => 512
  end.

(** [tf.greater(prediction, 0.5)], read back as zeros and ones. *)
Definition greater (data : list Q) (threshold : Q) : list Q :=
  map (fun p => if Js.gt p threshold then 1%Q else 0%Q) data.

Definition postprocessChangeMask (prediction : Prediction) : ChangeMask :=
  match predictionData prediction with
  | Some data =>
      let height := dimOr512 (shape prediction) 1 in
      let width := dimOr512 (shape prediction) 2 in
      let binaryMask := greater data 0.5 in
      let changeRegions := findChangeRegions binaryMask width height in
      mkChangeMask (Some binaryMask) changeRegions (Some data)
  | None => mkChangeMask None [] (Some [])
  end.

(** ** The world of a run: collaborators, clock, random source, storage *)

Record LatLng := mkLatLng {
  lat : Q;
  lng : Q
}.

(** What the imagery collaborator returns: [getHistoricalImagery] and
    [getCurrentImagery] always return an object, whose [url] may be null;
    [year] and [yearsBack] are set on historical imagery only. *)
Record Image := mkImage {
  url : option string;
  date : string;
  year : option Z;
  yearsBack : option Z
}.

Record Change := mkChange {
  change_id : string;
  coordinates : LatLng;
  area : Q;
  change_type : string;
  change_confidence : Q;
  detectedDate : Z;
  beforeImage : option string;
  afterImage : option string;
  change_bbox : option Detection.BBox;
  detectionMethod : string
}.

Record ChangeDetection := mkChangeDetection {
  hasChange : bool;
  confidence : Q;
  changes : list Change;
  analysisDate : Z;
  method : string;
  changeRegions : option Z;
  buildingsDetected : option Z
}.

Record Evidence := mkEvidence {
  evidence_beforeImage : option string;
  evidence_afterImage : option string;
  evidence_coordinates : LatLng
}.

Record Site := mkSite {
  site_change : Change;
  riskLevel : string;
  riskScore : Z;
  site_violations : list Violation;
  district : string;
  status : string;
  reportedDate : Z;
  evidence : Evidence
}.

Inductive Exn := Error (message : string).

(** A call that leaves the process: recorded in the order it is made. *)
Inductive Event :=
| Fetch (path : string)
| HistoricalImagery (lat lng : Q) (date : option string) (baselineYear : Z)
| CurrentImagery (lat lng : Q)
| ChangeModel (before after : Image)
| DetectionModel (image : Image)
| Delay (ms : Z)
| GetItem (key : string)
| SetItem (key : string).

(** The state threaded through a run.  A time stamp is the number of
    milliseconds a [Date] holds; [drawn] and [ticks] count the values
    taken from the random source and the clock. *)
Record World := mkWorld {
  drawn : nat;
  ticks : nat;
  events : list Event;
  stored : option (list Site)
}.

(** The collaborators of a run, and the two built-in functions the
    parser of coordinates calls.  [random n] is the n-th value of
    [Math.random()], [now n] the n-th reading of the clock; a model or
    an imagery request answers with a value or throws; [fetchJSON] is
    [None] when the file cannot be loaded, [parseFloat] when the text
    reads as NaN.

    An imagery request is what [getHistoricalImagery] or
    [getCurrentImagery] does after reading the clock, which is its first
    step: it takes that reading, [today], as its first argument.

    [detectionModel] is the prediction of the detection model read by
    [postprocessMaskRCNN], which finds buildings only in a prediction
    that is an array of tensors.  [disposable image] tells whether the
    prediction for [image] has a method [dispose]: a single tensor has
    one, an array or a map of tensors has none. *)
Class Collaborators := {
  random : nat -> Q;
  now : nat -> Z;
  fetchJSON : string -> option FeatureCollection;
  historicalImagery : Z -> Q -> Q -> option string -> Z -> Exn + Image;
  currentImagery : Z -> Q -> Q -> Exn + Image;
  changeModel : Image -> Image -> Exn + Prediction;
  detectionModel : Image -> Exn + list Building;
  disposable : Image -> bool;
  trim : string -> string;
  parseFloat : string -> option Q
}.

(** A computation that reads and writes the world and may throw. *)
Definition M (A : Type) : Type := World -> (Exn + A) * World.

Definition ret {A} (a : A) : M A := fun w => (inr a, w).

Definition throw {A} (e : Exn) : M A := fun w => (inl e, w).

Definition bind {A B} (m : M A) (k : A -> M B) : M B :=
  fun w =>
    match m w with
    | (inr a, w') => k a w'
    | (inl e, w') => (inl e, w')
    end.

(** [try { body } catch (error) { handler }]. *)
Definition tryCatch {A} (body : M A) (handler : Exn -> M A) : M A :=
  fun w =>
    match body w with
    | (inr a, w') => (inr a, w')
    | (inl e, w') => handler e w'
    end.

Declare Scope run_scope.
Delimit Scope run_scope with run.
Notation "'let*' a ':=' m 'in' k" := (bind m (fun a => k))
  (at level 10, a name, m at level 100, k at level 200) : run_scope.
Notation "m ';;' k" := (bind m (fun _ => k))
  (at level 100, k at level 200, right associativity) : run_scope.

Definition emit (e : Event) : M unit :=
  fun w => (inr tt, mkWorld (drawn w) (ticks w) (events w ++ [e]) (stored w)).

(** An answer of a collaborator that is a value or an exception. *)
Definition liftExn {A} (r : Exn + A) : M A :=
  match r with
  | inl e => throw e
  | inr a => ret a
  end.

(** [xs.map(f)] for a callback that runs in the world, with the index. *)
Fixpoint mapM {A B} (f : A -> nat -> M B) (xs : list A) (idx : nat)
  : M (list B) :=
  match xs with
  | [] => ret []
  | a :: rest =>
      (let* b := f a idx in
       let* bs := mapM f rest (S idx) in
       ret (b :: bs))%run
  end.

(** ** The detection pipeline ([changeDetectionService.js]) *)

Definition mlMethod : string := "UNet + Mask R-CNN".

(** The TypeError of a call of [dispose] on a value that has none. *)
Definition notAFunction : Exn :=
  Error "predictions.dispose is not a function".
Definition fallbackMethod : string := "Fallback (No ML models available)".

Definition structureTypes : list string :=
  ["Residential Building"; "Commercial Structure"; "Infrastructure"].

(** The approximate conversion of a pixel to a coordinate. *)
Definition pixelToLatLng (px py centerLat centerLng imageWidth imageHeight : Q)
    (zoom : Z) : LatLng :=
  let latOffset := ((py - imageHeight / 2) / (256 * 2 ^ zoom) * 180)%Q in
  let lngOffset := ((px - imageWidth / 2) / (256 * 2 ^ zoom) * 360)%Q in
  mkLatLng (centerLat + latOffset)%Q (centerLng + lngOffset)%Q.

(** [Math.max(area, 50)] of the rough area of a pixel box. *)
Definition clampedArea (b : Detection.BBox) : Q :=
  let area := ((Detection.width b * Detection.height b) * 0.5)%Q in
  Js.max area 50.

(** [building.class === 1 ? ... : building.class === 2 ? ... : ...]. *)
Definition structureType (cls : Q) : string :=
  if Qeq_bool cls 1 then "Residential Building"
  else if Qeq_bool cls 2 then "Commercial Structure"
  else "Infrastructure".

(** [changeMask.confidence ? reduce(max, 0) : 0.75]. *)
Definition overallConfidence (changeMask : ChangeMask) : Q :=
  match mask_confidence changeMask with
  | Some values => fold_left (fun a b => Js.max a b) values 0%Q
  | None => 0.75%Q
  end.

(** [`change_${stamp}_${idx}`]. *)
Definition changeIdOf (stamp : Z) (idx : nat) : string :=
  ("change_" ++ Js.of_int stamp ++ "_" ++ Js.of_int (Z.of_nat idx))%string.

Section Pipeline.
Context `{Collaborators}.

Local Open Scope run_scope.

Definition mathRandom : M Q :=
  fun w => (inr (random (drawn w)),
            mkWorld (S (drawn w)) (ticks w) (events w) (stored w)).

Definition dateNow : M Z :=
  fun w => (inr (now (ticks w)),
            mkWorld (drawn w) (S (ticks w)) (events w) (stored w)).

Definition detectChangesWithUNet (before after : Image) : M ChangeMask :=
  emit (ChangeModel before after) ;;
  let* prediction := liftExn (changeModel before after) in
  ret (postprocessChangeMask prediction).

(** [predictions.dispose()], the last step of the clean-up that
    [detectBuildingsWithMaskRCNN] runs when no region was passed.  When
    [postprocessMaskRCNN] found a building the prediction is an array,
    and an array has no such method: the call throws a TypeError. *)
Definition disposePredictions (image : Image) (buildings : list Building)
  : M unit :=
  match buildings with
  | _ :: _ => throw notAFunction
  | [] => if disposable image then ret tt else throw notAFunction
  end.

(** The [catch] of the stage throws the error again. *)
Definition detectBuildingsWithMaskRCNN (image : Image)
    (changeRegions : list Region) : M (list Building) :=
  emit (DetectionModel image) ;;
  let* buildings := liftExn (detectionModel image) in
  if Z.of_nat (length changeRegions) >? 0 then
    ret (filterBuildingsInChangeRegions buildings changeRegions)
  else
    disposePredictions image buildings ;;
    ret buildings.

(** The callback of [buildings.map] in [detectChanges]. *)
Definition toChange (before after : Image) (center : LatLng)
    (building : Building) (idx : nat) : M Change :=
  let bbox := building_bbox building in
  let position :=
    pixelToLatLng (centerX bbox) (centerY bbox)
      (lat center) (lng center) 800 800 14 in
  let* cid :=
    match building_id building with
    | Some (String c r) => ret (String c r)
    | _ => let* stamp := dateNow in ret (changeIdOf stamp idx)
    end in
  let* detected := dateNow in
  ret (mkChange cid position (clampedArea bbox)
         (structureType (building_class building))
         (if Qeq_bool (building_confidence building) 0 then 0.8%Q
          else building_confidence building)
         detected (url before) (url after) (Some bbox) mlMethod).

(** The body of the [try] block of [detectChanges].  The change mask of
    [postprocessChangeMask] is an object with a list of regions, so the
    guard of the early return comes down to the test of its length. *)
Definition mlDetection (before after : Image) (center : LatLng)
  : M ChangeDetection :=
  let* changeMask := detectChangesWithUNet before after in
  if Z.of_nat (length (regions changeMask)) =? 0 then
    let* stamp := dateNow in
    ret (mkChangeDetection false 0.95 [] stamp mlMethod None None)
  else
    let* buildings :=
      detectBuildingsWithMaskRCNN after (regions changeMask) in
    let* changes := mapM (toChange before after center) buildings 0 in
    let* stamp := dateNow in
    ret (mkChangeDetection true (overallConfidence changeMask) changes
           stamp mlMethod
           (Some (Z.of_nat (length (regions changeMask))))
           (Some (Z.of_nat (length buildings)))).

(** One round of the loop of [fallbackDetection]. *)
Definition fallbackChange (before after : Image) (center : LatLng)
    (i : nat) (_ : nat) : M Change :=
  let* r1 := mathRandom in
  let offsetLat := ((r1 - 0.5) * 0.01)%Q in
  let* r2 := mathRandom in
  let offsetLng := ((r2 - 0.5) * 0.01)%Q in
  let* stamp := dateNow in
  let* r3 := mathRandom in
  let* r4 := mathRandom in
  let* r5 := mathRandom in
  let* stamp' := dateNow in
  let* r6 := mathRandom in
  ret (mkChange (changeIdOf stamp i)
         (mkLatLng (lat center + offsetLat)%Q (lng center + offsetLng)%Q)
         (r3 * 500 + 100)%Q
         (default EmptyString
            (structureTypes !! Z.to_nat (Js.floor (r4 * 3))))
         (r5 * 0.3 + 0.7)%Q
         (Js.trunc (inject_Z stamp' - r6 * 90 * 24 * 60 * 60 * 1000)%Q)
         (url before) (url after) None "Fallback").

Definition fallbackDetection (before after : Image) (center : LatLng)
  : M ChangeDetection :=
  emit (Delay 2000) ;;
  let* changeProbability := mathRandom in
  let hasSignificantChange := Js.gt changeProbability 0.6 in
  if negb hasSignificantChange then
    let* stamp := dateNow in
    ret (mkChangeDetection false (1 - changeProbability)%Q [] stamp
           fallbackMethod None None)
  else
    let* r := mathRandom in
    let numChanges := Js.floor (r * 3) + 1 in
    let* changes :=
      mapM (fallbackChange before after center)
           (seq 0 (Z.to_nat numChanges)) 0 in
    let* stamp := dateNow in
    ret (mkChangeDetection true changeProbability changes stamp
           fallbackMethod None None).

Definition detectChanges (before after : Image) (center : LatLng)
  : M ChangeDetection :=
  tryCatch (mlDetection before after center)
           (fun _ => fallbackDetection before after center).

End Pipeline.

(** ** Site assembly and the analysis entry point ([api.js]) *)

Definition STORAGE_KEY : string := "detected_illegal_sites".

Definition basePaths : list string :=
  ["/hyderabad-open-gis-data-master"; "/GENERAL LAYERS";
   "./hyderabad-open-gis-data-master"].

(** [s.split(',')]. *)
Fixpoint split (s : string) : list string :=
  match s with
  | EmptyString => [EmptyString]
  | String c rest =>
      if Ascii.eqb c "," then EmptyString :: split rest
      else match split rest with
           | part :: parts => String c part :: parts
           | [] => [String c EmptyString]
           end
  end.

(** [!v] for a value that is a number or [null]. *)
Definition falsy (v : option Q) : bool :=
  match v with
  | Some q => Qeq_bool q 0
  | None => true
  end.

Record AnalysisResult := mkAnalysisResult {
  result_hasChange : bool;
  result_message : option string;
  result_confidence : option Q;
  result_sites : option (list Site);
  result_beforeImage : option string;
  result_afterImage : option string;
  beforeImageDate : string;
  beforeImageYear : option Z;
  result_yearsBack : option Z;
  result_analysisDate : Z
}.

Definition invalidFormat : Exn :=
  Error "Invalid coordinates format. Use: lat,lng".

Definition outsideRegion : Exn :=
  Error "Coordinates must be within Hyderabad region (Hyderabad, Rangareddy, Sangareddy, Vikarabad, Medchal)".

Section Api.
Context `{Collaborators} `{Turf}.

Local Open Scope run_scope.

Definition parseCoordinates (coordsString : option string)
  : option Q * option Q :=
  match coordsString with
  | None | Some EmptyString => (None, None)
  | Some s =>
      match map trim (split s) with
      | [first; second] =>
          match parseFloat first, parseFloat second with
          | Some lat, Some lng => (Some lat, Some lng)
          | _, _ => (None, None)
          end
      | _ => (None, None)
      end
  end.

Definition loadGeoJSON (filePath : string) : M (option FeatureCollection) :=
  emit (Fetch filePath) ;;
  ret (fetchJSON filePath).

Fixpoint loadWithFallback (paths : list string) (relativePath : string)
  : M FeatureCollection :=
  match paths with
  | [] => ret (mkFeatureCollection (Some []))
  | basePath :: rest =>
      let* data := loadGeoJSON (basePath ++ "/" ++ relativePath)%string in
      match data with
      | Some collection => ret collection
      | None => loadWithFallback rest relativePath
      end
  end.

Definition loadGISLayers : M (gmap string FeatureCollection) :=
  let* waterbodies :=
    loadWithFallback basePaths
      "GENERAL LAYERS/Waterbodies/Waterbodies.geojson" in
  let* waterways :=
    loadWithFallback basePaths
      "GENERAL LAYERS/Waterways/Hyderabad_Waterways.geojson" in
  let* vulnerableLocalities :=
    loadWithFallback basePaths
      "3. Disaster Resilience/3.1 Flooding Risk Management/Vulnerable Localities.geojson" in
  let* greenCover :=
    loadWithFallback basePaths
      "6. Environment/6.1 Public Parks/GHMC _ HMDA Parks.geojson" in
  let* channels :=
    loadWithFallback basePaths
      "3. Disaster Resilience/3.1 Flooding Risk Management/Channels_Strahler order 3.geojson" in
  let* contours :=
    loadWithFallback basePaths
      "3. Disaster Resilience/3.1 Flooding Risk Management/Hyderabad Countours.geojson" in
  ret (<["waterbodies" := waterbodies]>
       (<["waterways" := waterways]>
       (<["vulnerableLocalities" := vulnerableLocalities]>
       (<["greenCover" := greenCover]>
       (<["channels" := channels]>
       (<["contours" := contours]> ∅)))))).

Definition processDetectedSite (site : Change)
    (gisLayers : gmap string FeatureCollection) (_ : nat) : M Site :=
  let zoneCheck :=
    checkProtectedZone (lat (coordinates site)) (lng (coordinates site))
      gisLayers in
  let risk := calculateRiskLevel (violations zoneCheck) in
  let district :=
    getDistrict (lat (coordinates site)) (lng (coordinates site)) in
  let* reported := dateNow in
  ret (mkSite site (level risk) (score risk) (violations zoneCheck)
         district "PENDING" reported
         (mkEvidence (beforeImage site) (afterImage site)
            (coordinates site))).

Definition getDetectedSites : M (list Site) :=
  emit (GetItem STORAGE_KEY) ;;
  fun w => (inr (default [] (stored w)), w).

Definition setDetectedSites (sites : list Site) : M unit :=
  emit (SetItem STORAGE_KEY) ;;
  fun w => (inr tt, mkWorld (drawn w) (ticks w) (events w) (Some sites)).

(** [getHistoricalImagery] up to its first [await]: it reads the clock
    for the current year, then asks for the picture.  The answer is
    awaited by the caller. *)
Definition getHistoricalImagery (lat lng : Q) (date : option string)
    (baselineYear : Z) : M (Exn + Image) :=
  let* today := dateNow in
  emit (HistoricalImagery lat lng date baselineYear) ;;
  ret (historicalImagery today lat lng date baselineYear).

(** [getCurrentImagery] up to its first [await]: it reads the clock for
    the current date, then asks for the picture. *)
Definition getCurrentImagery (lat lng : Q) : M (Exn + Image) :=
  let* today := dateNow in
  emit (CurrentImagery lat lng) ;;
  ret (currentImagery today lat lng).

(** The part of [analyzeSite] that runs once the coordinates passed the
    two checks.  Both imagery requests are issued before either is
    awaited; the analysis date of a detection is a non-empty string,
    which [||] keeps. *)
Definition runAnalysis (lat lng : Q) (historicalDate : option string)
  : M AnalysisResult :=
  let* gisLayers := loadGISLayers in
  let* historical := getHistoricalImagery lat lng historicalDate 2006 in
  let* current := getCurrentImagery lat lng in
  let* beforeImage := liftExn historical in
  let* afterImage := liftExn current in
  let* changeDetection :=
    detectChanges beforeImage afterImage (mkLatLng lat lng) in
  if negb (hasChange changeDetection) then
    ret (mkAnalysisResult false
           (Some "No significant construction changes detected")
           (Some (confidence changeDetection)) None
           (url beforeImage) (url afterImage) (date beforeImage)
           (year beforeImage) (yearsBack beforeImage)
           (analysisDate changeDetection))
  else
    let* processedSites :=
      mapM (fun change => processDetectedSite change gisLayers)
           (changes changeDetection) 0 in
    let* existingSites := getDetectedSites in
    setDetectedSites (existingSites ++ processedSites) ;;
    ret (mkAnalysisResult true None None (Some processedSites)
           (url beforeImage) (url afterImage) (date beforeImage)
           (year beforeImage) (yearsBack beforeImage)
           (analysisDate changeDetection)).

Definition analyzeSite (coordinates : option string) (radius : Q)
    (historicalDate : option string) : M AnalysisResult :=
  let (lat, lng) := parseCoordinates coordinates in
  if falsy lat || falsy lng then throw invalidFormat
  else
    match lat, lng with
    | Some lat, Some lng =>
        if negb (isWithinHyderabadRegion lat lng) then throw outsideRegion
        else runAnalysis lat lng historicalDate
    | _, _ => throw invalidFormat
    end.

End Api.

(** ** Vocabulary of the statements *)

(** The number of violations of one kind in a list. *)
Definition countType (kind : string) (vs : list Violation) : nat :=
  length (List.filter (fun v => String.eqb (v_type v) kind) vs).


(** No feature of a list passes a test. *)
Definition noneMatch (test : Feature -> bool) (fs : list Feature) : Prop :=
  Forall (fun feature => test feature = false) fs.

(** No point lies in the rectangles of two rules of a table. *)
Definition rulesDisjoint (rules : list (Rect * string)) : Prop :=
  forall (lat lng : Q) (i j : nat) (r1 r2 : Rect) (l1 l2 : string),
    rules !! i = Some (r1, l1) -> rules !! j = Some (r2, l2) -> i <> j ->
    ~ (inRect r1 lat lng = true /\ inRect r2 lat lng = true).

(** The lookup gives the same label whatever the order of the rules. *)
Definition orderIndependent (rules : list (Rect * string)) : Prop :=
  forall rules' : list (Rect * string),
    Permutation rules' rules ->
    forall lat lng : Q, firstRule rules' lat lng = firstRule rules lat lng.

(** The centre of a detection lies in the bounding box of a region. *)
Definition centerWithin (building : Building) (region : Region) : Prop :=
  (inject_Z (x (bbox region)) <= centerX (building_bbox building))%Q /\
  (centerX (building_bbox building) <= inject_Z (x2 (bbox region)))%Q /\
  (inject_Z (y (bbox region)) <= centerY (building_bbox building))%Q /\
  (centerY (building_bbox building) <= inject_Z (y2 (bbox region)))%Q.

(** [Math.random()] returns a number of the interval from 0 to 1, 1 left
    out. *)
Definition randomInRange `{Collaborators} : Prop :=
  forall n : nat, (0 <= random n)%Q /\ (random n < 1)%Q.

(** A coordinate is within a distance of another. *)
Definition near (a b : Q) (eps : Q) : Prop :=
  (b - eps <= a)%Q /\ (a <= b + eps)%Q.

(** A pixel lies in a bounding box. *)
Definition inBox (b : BBox) (p : Z * Z) : Prop :=
  x b <= p.1 <= x2 b /\ y b <= p.2 <= y2 b.

(** The cells the scan of [findChangeRegions] visits, in its order. *)
Definition scanOrder (width height : Z) : list (Z * Z) :=
  py ← rangeStep height sampleRate;
  px ← rangeStep width sampleRate;
  [(px, py)].

(** The first entry of a region: the cell its flood fill started from. *)
Definition seedOf (r : Region) : Z * Z := hd (0, 0) (pixels r).

(** What holds of a region the extractor accepts: at least 10 and at most
    [maxPixels] entries, each inside the bounding box, the seed recorded
    twice. *)
Definition extracted (r : Region) : Prop :=
  (10 <= length (pixels r) <= maxPixels)%nat /\
  Forall (inBox (bbox r)) (pixels r) /\
  exists rest, pixels r = seedOf r :: seedOf r :: rest.

(** The scan of [findChangeRegions] as one loop over its cells. *)
Definition scanCells (maskData : list Q) (width height : Z)
    (cells : list (Z * Z)) (st : list Region * gset Z)
  : list Region * gset Z :=
  fold_left (fun st c => scanCell maskData width height st c.1 c.2) cells st.

(** An input of [analyzeSite] that is malformed, or that lies outside the
    service region. *)
Inductive BadInput `{Collaborators} : option string -> Prop :=
| BadNull : BadInput None
| BadEmpty : BadInput (Some EmptyString)
| BadParts (s : string) :
    length (split s) <> 2%nat -> BadInput (Some s)
| BadNumber (s first second : string) :
    split s = [first; second] ->
    parseFloat (trim first) = None \/ parseFloat (trim second) = None ->
    BadInput (Some s)
| BadRegion (s first second : string) (lat lng : Q) :
    split s = [first; second] ->
    parseFloat (trim first) = Some lat ->
    parseFloat (trim second) = Some lng ->
    (lat < 17.0 \/ 18.0 < lat \/ lng < 77.5 \/ 79.0 < lng)%Q ->
    BadInput (Some s).

(** ** A small instance of the predicates for the examples

    A polygon holds the point when its first ring starts at the point; a
    line is as far from every point as the first number of its first
    position says; a buffer leaves the feature as it is. *)

Definition samePosition (p q : Position) : bool :=
  match p, q with
  | [a; b], [c; d] => Qeq_bool a c && Qeq_bool b d
  | _, _ => false
  end.

Definition gridInside (pt polygon : Feature) : bool :=
  match geometry pt, geometry polygon with
  | GPoint p, GPolygon ((q :: _) :: _) => samePosition p q
  | _, _ => false
  end.

Definition gridDistance (pt line : Feature) : Q :=
  match geometry line with
  | GLineString ((d :: _) :: _) => d
  | _ => 1000%Q
  end.

Definition gridTurf : Turf :=
  {| booleanPointInPolygon := gridInside;
     buffer := fun feature _ => feature;
     pointToLineDistance := gridDistance |}.

Definition lake : Feature :=
  mkFeature (Some (mkProperties (Some "Hussain Sagar")))
    (GPolygon [[[78.47%Q; 17.42%Q]; [78.48%Q; 17.42%Q]; [78.48%Q; 17.43%Q]]]).

Definition channelAt (d : Q) : Feature :=
  mkFeature None (GLineString [[d]]).

Definition lakeLayers : gmap string FeatureCollection :=
  <["waterbodies" := mkFeatureCollection (Some [lake])]>
  (<["waterways" := mkFeatureCollection None]>
  (<["greenCover" := mkFeatureCollection (Some [])]> ∅)).

Definition channelLayers (d : Q) : gmap string FeatureCollection :=
  <["channels" := mkFeatureCollection (Some [channelAt 250; channelAt d])]>
  (<["waterbodies" := mkFeatureCollection (Some [lake])]> ∅).

(** ** Collaborators for the examples

    A constant random source, a clock that advances by one millisecond a
    reading, no GIS file, fixed imagery, and the two models given; the
    prediction of the detection model is an array of tensors. *)

Definition trimSpaces (s : string) : string :=
  let fix dropLeading (s : string) : string :=
    match s with
    | String " " rest => dropLeading rest
    | _ => s
    end in
  let fix dropTrailing (s : string) : string :=
    match s with
    | EmptyString => EmptyString
    | String c rest =>
        match c, dropTrailing rest with
        | " "%char, EmptyString => EmptyString
        | _, rest' => String c rest'
        end
    end in
  dropTrailing (dropLeading s).

Definition parseTable (s : string) : option Q :=
  if String.eqb s "17.4" then Some 17.4%Q
  else if String.eqb s "78.5" then Some 78.5%Q
  else if String.eqb s "12.5" then Some 12.5%Q
  else if String.eqb s "0" then Some 0%Q
  else None.

Definition beforeShot : Image :=
  mkImage (Some "before.png") "2006-06-15" (Some 2006) (Some 20).

Definition afterShot : Image :=
  mkImage (Some "after.png") "2026-01-01" None None.

Definition desk (cm : Image -> Image -> Exn + Prediction)
    (dm : Image -> Exn + list Building) : Collaborators :=
  {| random := fun _ => 0.7%Q;
     now := fun n => 1700000000000 + Z.of_nat n;
     fetchJSON := fun _ => None;
     historicalImagery := fun _ _ _ _ _ => inr beforeShot;
     currentImagery := fun _ _ _ => inr afterShot;
     changeModel := cm;
     detectionModel := dm;
     disposable := fun _ => false;
     trim := trimSpaces;
     parseFloat := parseTable |}.

Definition quietPrediction : Prediction :=
  mkPrediction (Some (repeat 0.2%Q 64)) [1; 8; 8; 1].

Definition stripPrediction : Prediction :=
  mkPrediction (Some (repeat 0.9%Q 33)) [1; 1; 33; 1].

Definition stripBuildings : list Building :=
  [ mkBuilding (Some "building_0") (Detection.mkBBox 10 0 4 0) 0.9 1;
    mkBuilding (Some "building_1") (Detection.mkBBox 100 0 40 10) 0.8 2;
    mkBuilding None (Detection.mkBBox 2 (-20) 20 40) 0.6 3 ].

Definition offline : Exn := Error "model unavailable".

Definition startWorld : World := mkWorld 0 0 [] None.

(** ** Vocabulary of the further statements *)

(** The place of a level in the order LOW, MEDIUM, HIGH. *)
Definition levelRank (l : string) : nat :=
  if String.eqb l "HIGH" then 2
  else if String.eqb l "MEDIUM" then 1
  else 0.

(** The keys of the mapping that [checkProtectedZone] reads. *)
Definition zoneKeys : list string :=
  ["waterbodies"; "waterways"; "vulnerableLocalities"; "greenCover";
   "channels"].

(** The kinds of violation, in the order of the five scans. *)
Definition violationKinds : list string :=
  ["Waterbody Encroachment"; "Waterway Buffer Violation"; "Flood Risk Zone";
   "Green Belt Encroachment"; "Channel Proximity"].

(** A call that fetches a file. *)
Definition isFetch (e : Event) : Prop :=
  match e with
  | Fetch _ => True
  | _ => False
  end.

(** The six keys of the mapping that [loadGISLayers] builds. *)
Definition layerKeys : list string :=
  ["waterbodies"; "waterways"; "vulnerableLocalities"; "greenCover";
   "channels"; "contours"].

(** The collaborators of the examples, with the files given. *)
Definition deskFiles (files : string -> option FeatureCollection)
  : Collaborators :=
  {| random := fun _ => 0.7%Q;
     now := fun n => 1700000000000 + Z.of_nat n;
     fetchJSON := files;
     historicalImagery := fun _ _ _ _ _ => inr beforeShot;
     currentImagery := fun _ _ _ => inr afterShot;
     changeModel := fun _ _ => inr stripPrediction;
     detectionModel := fun _ => inr stripBuildings;
     disposable := fun _ => false;
     trim := trimSpaces;
     parseFloat := parseTable |}.

(** Files served from the second base path only. *)
Definition secondBase (path : string) : option FeatureCollection :=
  if String.prefix "/GENERAL LAYERS/" path
  then Some (mkFeatureCollection (Some [lake]))
  else None.

(** The mapping [loadGISLayers] builds when no file can be loaded. *)
Definition noLayers : gmap string FeatureCollection :=
  <["waterbodies" := mkFeatureCollection (Some [])]>
  (<["waterways" := mkFeatureCollection (Some [])]>
  (<["vulnerableLocalities" := mkFeatureCollection (Some [])]>
  (<["greenCover" := mkFeatureCollection (Some [])]>
  (<["channels" := mkFeatureCollection (Some [])]>
  (<["contours" := mkFeatureCollection (Some [])]> ∅))))).

(** An input of [analyzeSite] that passes both checks, with the point it
    denotes. *)
Definition accepted `{Collaborators} (s : string) (lat lng : Q) : Prop :=
  exists first second,
    split s = [first; second] /\
    parseFloat (trim first) = Some lat /\
    parseFloat (trim second) = Some lng /\
    isWithinHyderabadRegion lat lng = true.

(** The collaborators of the examples when the archive of historical
    imagery cannot be reached. *)
Definition noArchive : Exn := Error "imagery unavailable".

Definition deskNoArchive : Collaborators :=
  {| random := fun _ => 0.7%Q;
     now := fun n => 1700000000000 + Z.of_nat n;
     fetchJSON := fun _ => None;
     historicalImagery := fun _ _ _ _ _ => inl noArchive;
     currentImagery := fun _ _ _ => inr afterShot;
     changeModel := fun _ _ => inr stripPrediction;
     detectionModel := fun _ => inr stripBuildings;
     disposable := fun _ => false;
     trim := trimSpaces;
     parseFloat := parseTable |}.

(** A change found next to the lake of the examples. *)
Definition shed : Change :=
  mkChange "change_1" (mkLatLng 17.42 78.47) 120 "Infrastructure" 0.8
    1700000000000 (Some "before.png") (Some "after.png") None "Fallback".

(** ** The stored sites ([api.js])

    In storage a site is the object [processDetectedSite] built, to which
    [updateSiteStatus] adds remarks and the date of the update.  The
    functions below take the content of the storage key and, where they
    write it, return its new content. *)

Record StoredSite := mkStoredSite {
  stored_site : Site;
  remarks : option string;
  updatedDate : option Z
}.

(** A site as [analyzeSite] stores it. *)
Definition asStored (site : Site) : StoredSite := mkStoredSite site None None.

(** [site.id]: the identifier of the change the site was built from. *)
Definition siteId (site : StoredSite) : string :=
  change_id (site_change (stored_site site)).

(** [data ? JSON.parse(data) : []]. *)
Definition sitesOf (store : option (list StoredSite)) : list StoredSite :=
  default [] store.

Definition getSiteById (id : string) (store : option (list StoredSite))
  : option StoredSite :=
  List.find (fun site => String.eqb (siteId site) id) (sitesOf store).

(** [xs.findIndex(test)], [None] standing for -1. *)
Fixpoint findIndex {A} (test : A -> bool) (xs : list A) : option nat :=
  match xs with
  | [] => None
  | a :: rest => if test a then Some 0%nat else S <$> findIndex test rest
  end.

(** [{...site, status, remarks, updatedDate}]. *)
Definition withStatus (status remarks : string) (stamp : Z)
    (site : StoredSite) : StoredSite :=
  let s := stored_site site in
  mkStoredSite
    (mkSite (site_change s) (riskLevel s) (riskScore s) (site_violations s)
       (district s) status (reportedDate s) (evidence s))
    (Some remarks) (Some stamp).

(** [updateSiteStatus(id, status, remarks)] at the time [stamp]: the site
    returned, or null, and the content of the storage afterwards. *)
Definition updateSiteStatus (id status remarks : string) (stamp : Z)
    (store : option (list StoredSite))
  : option StoredSite * option (list StoredSite) :=
  let sites := sitesOf store in
  match findIndex (fun site => String.eqb (siteId site) id) sites with
  | None => (None, store)
  | Some index =>
      let sites' := alter (withStatus status remarks stamp) index sites in
      (sites' !! index, Some sites')
  end.

(** [deleteSite(id)]: the list returned and the content of the storage
    afterwards. *)
Definition deleteSite (id : string) (store : option (list StoredSite))
  : list StoredSite * option (list StoredSite) :=
  let sites := sitesOf store in
  let filtered :=
    List.filter (fun site => negb (String.eqb (siteId site) id)) sites in
  (filtered, Some filtered).

Record Filters := mkFilters {
  filter_riskLevel : option string;
  filter_district : option string;
  filter_status : option string;
  filter_search : option string
}.

(** [s.includes(part)]. *)
Definition includes (s part : string) : bool :=
  match String.index 0 part s with
  | Some _ => true
  | None => false
  end.

(** A criterion that is set: a string that is not empty. *)
Definition criterion (value : option string) : option string :=
  match value with
  | Some (String c rest) => Some (String c rest)
  | _ => None
  end.

Section SiteSearch.
(** [String.prototype.toLowerCase]. *)
Variable toLowerCase : string -> string.

(** The callback of the filter on the search text. *)
Definition searchHit (searchLower : string) (site : StoredSite) : bool :=
  includes (toLowerCase (change_type (site_change (stored_site site))))
    searchLower ||
  includes (toLowerCase (district (stored_site site))) searchLower ||
  existsb (fun v => includes (toLowerCase (v_type v)) searchLower)
    (site_violations (stored_site site)).

Definition filterSites (filters : Filters)
    (store : option (list StoredSite)) : list StoredSite :=
  let sites := sitesOf store in
  let sites :=
    match criterion (filter_riskLevel filters) with
    | Some wanted =>
        List.filter
          (fun s => String.eqb (riskLevel (stored_site s)) wanted) sites
    | None => sites
    end in
  let sites :=
    match criterion (filter_district filters) with
    | Some wanted =>
        List.filter
          (fun s => String.eqb (district (stored_site s)) wanted) sites
    | None => sites
    end in
  let sites :=
    match criterion (filter_status filters) with
    | Some wanted =>
        List.filter (fun s => String.eqb (status (stored_site s)) wanted) sites
    | None => sites
    end in
  let sites :=
    match criterion (filter_search filters) with
    | Some text =>
        let searchLower := toLowerCase text in
        List.filter (searchHit searchLower) sites
    | None => sites
    end in
  sites.

(** The criteria of a filter object as one test. *)
Definition passes (filters : Filters) (site : StoredSite) : bool :=
  match criterion (filter_riskLevel filters) with
  | Some wanted => String.eqb (riskLevel (stored_site site)) wanted
  | None => true
  end &&
  match criterion (filter_district filters) with
  | Some wanted => String.eqb (district (stored_site site)) wanted
  | None => true
  end &&
  match criterion (filter_status filters) with
  | Some wanted => String.eqb (status (stored_site site)) wanted
  | None => true
  end &&
  match criterion (filter_search filters) with
  | Some text => searchHit (toLowerCase text) site
  | None => true
  end.

End SiteSearch.

(** [sites.filter(test).length]. *)
Definition countWhere (test : StoredSite -> bool) (sites : list StoredSite)
  : Z :=
  Z.of_nat (length (List.filter test sites)).

Record RiskCounts := mkRiskCounts {
  HIGH : Z; MEDIUM : Z; LOW : Z
}.

Record StatusCounts := mkStatusCounts {
  PENDING : Z; UNDER_INVESTIGATION : Z; ACTION_TAKEN : Z; RESOLVED : Z
}.

Record Statistics := mkStatistics {
  total : Z;
  byRiskLevel : RiskCounts;
  byStatus : StatusCounts;
  byDistrict : gmap string Z
}.

(** The callback of the [reduce] that counts the sites of a district:
    [acc[d] = (acc[d] || 0) + 1].  The keys are district labels; a label
    that names a member of [Object.prototype] is outside the model. *)
Definition countDistrict (acc : gmap string Z) (site : StoredSite)
  : gmap string Z :=
  let d := district (stored_site site) in
  <[d := default 0 (acc !! d) + 1]> acc.

Definition getStatistics (store : option (list StoredSite)) : Statistics :=
  let sites := sitesOf store in
  let risk l := fun s => String.eqb (riskLevel (stored_site s)) l in
  let stat l := fun s => String.eqb (status (stored_site s)) l in
  mkStatistics (Z.of_nat (length sites))
    (mkRiskCounts (countWhere (risk "HIGH") sites)
       (countWhere (risk "MEDIUM") sites) (countWhere (risk "LOW") sites))
    (mkStatusCounts (countWhere (stat "PENDING") sites)
       (countWhere (stat "UNDER_INVESTIGATION") sites)
       (countWhere (stat "ACTION_TAKEN") sites)
       (countWhere (stat "RESOLVED") sites))
    (fold_left countDistrict sites ∅).

(** Two stored sites for the examples. *)
Definition plot (id level area_district : string) : StoredSite :=
  asStored
    (mkSite
       (mkChange id (mkLatLng 17.4 78.5) 50 "Infrastructure" 0.8
          1700000000000 None None None mlMethod)
       level (if String.eqb level "HIGH" then 10 else 0) [] area_district
       "PENDING" 1700000000001
       (mkEvidence None None (mkLatLng 17.4 78.5))).

Definition ledger : option (list StoredSite) :=
  Some [plot "building_0" "HIGH" "Hyderabad";
        plot "building_1" "LOW" "Medchal";
        plot "building_0" "LOW" "Hyderabad"].

(** The place of a cell in the mask. *)
Definition cellIdx (width : Z) (p : Z * Z) : Z := p.2 * width + p.1.

(** A cell of the sampling grid that lies in the mask and holds a value
    of at least 0.5. *)
Definition sampleCell (maskData : list Q) (width height : Z) (p : Z * Z)
  : Prop :=
  (0 <= fst p < width) /\ (0 <= snd p < height) /\
  Z.divide sampleRate (fst p) /\ Z.divide sampleRate (snd p) /\
  exists v, maskData !! Z.to_nat (cellIdx width p) = Some v /\ (0.5 <= v)%Q.

(** Each side of the bounding box is met by an entry. *)
Definition tightBox (r : Region) : Prop :=
  (exists p, p ∈ pixels r /\ p.1 = x (bbox r)) /\
  (exists p, p ∈ pixels r /\ p.2 = y (bbox r)) /\
  (exists p, p ∈ pixels r /\ p.1 = x2 (bbox r)) /\
  (exists p, p ∈ pixels r /\ p.2 = y2 (bbox r)).

(** A region shares no cell with the regions of a list. *)
Definition apartFrom (earlier : list Region) (r : Region) : Prop :=
  forall (r' : Region) (p : Z * Z),
    r' ∈ earlier -> p ∈ pixels r' -> p ∉ pixels r.

(** What the scan keeps of its state: every entry of an accepted region
    is a visited sample cell, the entries after the seed are distinct,
    the bounding boxes are tight, and a region shares no cell with the
    regions accepted before it. *)
Definition wellScanned (maskData : list Q) (width height : Z)
    (st : list Region * gset Z) : Prop :=
  (forall r p, r ∈ st.1 -> p ∈ pixels r ->
     sampleCell maskData width height p /\ cellIdx width p ∈ st.2) /\
  (forall r, r ∈ st.1 -> NoDup (tail (pixels r)) /\ tightBox r) /\
  (forall i r, st.1 !! i = Some r -> apartFrom (take i st.1) r).

(** A mask of one row with two strips of changed pixels. *)
Definition twoStrips : list Q :=
  repeat 1%Q 33 ++ repeat 0%Q 7 ++ repeat 1%Q 33.

(** * Properties *)

(** ** The host-language helpers on examples *)

Example of_int_40 : Js.of_int 40 = "40".
Proof. reflexivity. Qed.

Example of_int_0 : Js.of_int 0 = "0".
Proof. reflexivity. Qed.

Example of_int_1234 : Js.of_int 1234 = "1234".
Proof. reflexivity. Qed.

Example of_int_neg : Js.of_int (-7) = "-7".
Proof. reflexivity. Qed.

Example round_half : Js.round (5 # 2) = 3.
Proof. reflexivity. Qed.

Example round_neg_half : Js.round (- (5 # 2)) = -2.
Proof. reflexivity. Qed.

Example split_pair : split "17.4, 78.5" = ["17.4"; " 78.5"].
Proof. reflexivity. Qed.

Example split_three : split "1,2,3" = ["1"; "2"; "3"].
Proof. reflexivity. Qed.

(** ** Risk scoring *)

Lemma fold_addSeverity (violations : list Violation) (start : Z) :
  fold_left addSeverity violations start = start + weightSum violations.
Proof.
  revert start; induction violations as [|v rest IH]; intros start; simpl.
  - lia.
  - rewrite IH. unfold addSeverity, weight.
    destruct (String.eqb (v_severity v) "HIGH");
      [|destruct (String.eqb (v_severity v) "MEDIUM")]; lia.
Qed.

Lemma weight_pos (severity : string) : 2 <= weight severity.
Proof.
  unfold weight.
  destruct (String.eqb severity "HIGH");
    [|destruct (String.eqb severity "MEDIUM")]; lia.
Qed.

Lemma weightSum_nonneg (violations : list Violation) :
  0 <= weightSum violations.
Proof.
  induction violations as [|v rest IH]; simpl; [lia|].
  pose proof (weight_pos (v_severity v)); lia.
Qed.

(** C1.  The risk scorer returns the sum of the weights of the severities
    (HIGH 10, MEDIUM 5, anything else 2) as the score, and the level HIGH
    from 10, MEDIUM from 5 to below 10, LOW below 5; the empty list gives
    LOW and 0, one HIGH violation gives HIGH and 10, one MEDIUM with one
    LOW gives MEDIUM and 7. *)
Theorem calculateRiskLevel_spec :
  (forall violations : list Violation,
     score (calculateRiskLevel violations) = weightSum violations /\
     level (calculateRiskLevel violations) = levelOf (weightSum violations))
  /\ (forall severity : string,
        weight severity =
        if decide (severity = "HIGH") then 10
        else if decide (severity = "MEDIUM") then 5 else 2)
  /\ calculateRiskLevel [] = mkRisk "LOW" 0
  /\ (forall t f d,
        calculateRiskLevel [mkViolation t f "HIGH" d] = mkRisk "HIGH" 10)
  /\ (forall t f d t' f' d',
        calculateRiskLevel
          [mkViolation t f "MEDIUM" d; mkViolation t' f' "LOW" d']
        = mkRisk "MEDIUM" 7 /\
        calculateRiskLevel
          [mkViolation t' f' "LOW" d'; mkViolation t f "MEDIUM" d]
        = mkRisk "MEDIUM" 7).
Proof.
  split; [|split; [|repeat split]].
  - intros violations. unfold calculateRiskLevel.
    destruct violations as [|v rest]; [split; reflexivity|].
    cbn [length]. replace (Z.of_nat (S (length rest)) =? 0) with false
      by (symmetry; apply Z.eqb_neq; lia).
    cbv zeta. rewrite fold_addSeverity, Z.add_0_l. unfold levelOf.
    set (s := weightSum (v :: rest)).
    destruct (Z.geb_spec s 10), (Z.leb_spec 10 s); try lia;
      [split; reflexivity|].
    destruct (Z.geb_spec s 5), (Z.leb_spec 5 s); try lia; split; reflexivity.
  - intros severity. unfold weight.
    destruct (decide (severity = "HIGH")) as [->|Hh]; [reflexivity|].
    apply String.eqb_neq in Hh; rewrite Hh.
    destruct (decide (severity = "MEDIUM")) as [->|Hm]; [reflexivity|].
    apply String.eqb_neq in Hm; rewrite Hm. reflexivity.
Qed.

(** ** The spatial predicate engine *)

Lemma firstMatch_None (test : Feature -> bool) (fs : list Feature) :
  firstMatch test fs = None <-> noneMatch test fs.
Proof.
  unfold noneMatch. induction fs as [|f rest IH]; simpl.
  - split; [constructor | reflexivity].
  - destruct (test f) eqn:Ht.
    + split; [discriminate | intros Hall; inversion Hall; congruence].
    + rewrite IH. split; [intros; constructor; assumption|].
      intros Hall; inversion Hall; assumption.
Qed.

Lemma firstMatch_Some (test : Feature -> bool) (fs : list Feature)
    (feature : Feature) :
  firstMatch test fs = Some feature ->
  exists before after,
    fs = before ++ feature :: after /\ noneMatch test before /\
    test feature = true.
Proof.
  induction fs as [|f rest IH]; simpl; [discriminate|].
  destruct (test f) eqn:Ht.
  - intros [= ->]. exists [], rest. repeat split; [constructor | assumption].
  - intros Hm. destruct (IH Hm) as (before & after & -> & Hnone & Hf).
    exists (f :: before), after. repeat split; [|assumption].
    constructor; assumption.
Qed.

Lemma firstMatch_app (test : Feature -> bool)
    (before after : list Feature) (feature : Feature) :
  noneMatch test before -> test feature = true ->
  firstMatch test (before ++ feature :: after) = Some feature.
Proof.
  intros Hnone Hf. induction Hnone as [|f rest Hfalse _ IH]; simpl.
  - rewrite Hf. reflexivity.
  - rewrite Hfalse. exact IH.
Qed.



Ltac step_check :=
  try match goal with
      | Hmiss : layerFeatures _ _ = [] |- _ => rewrite Hmiss; cbn [firstMatch]
      end;
  try match goal with
      | Hm : firstMatch ?t ?l = _ |- context [firstMatch ?t ?l] => rewrite Hm
      end;
  try match goal with
      | |- context [firstMatch ?t ?l] =>
          let Hm := fresh "Hm" in destruct (firstMatch t l) eqn:Hm
      end;
  cbn [inWaterbody inWaterway inVulnerableZone inGreenBelt nearChannel
       violations].

(** The five scans unfolded one after the other, each settled before the
    next is opened. *)
Ltac run_checks :=
  unfold checkProtectedZone; cbv zeta;
  unfold checkWaterbodies; step_check;
  unfold checkWaterways; step_check;
  unfold checkVulnerable; step_check;
  unfold checkGreenCover; step_check;
  unfold checkChannels; step_check.

Section EngineProperties.
Context `{Turf}.


Lemma violations_only_channel (lat lng : Q)
    (layers : gmap string FeatureCollection) (first : Feature) :
  let pt := point [lng; lat] in
  noneMatch (fun f => booleanPointInPolygon pt f)
    (layerFeatures layers "waterbodies") ->
  noneMatch (fun f => booleanPointInPolygon pt (buffer f 50))
    (layerFeatures layers "waterways") ->
  noneMatch (fun f => booleanPointInPolygon pt f)
    (layerFeatures layers "vulnerableLocalities") ->
  noneMatch (fun f => booleanPointInPolygon pt f)
    (layerFeatures layers "greenCover") ->
  firstMatch (fun f => Js.lt (pointToLineDistance pt f) 100)
    (layerFeatures layers "channels") = Some first ->
  violations (checkProtectedZone lat lng layers) =
  [mkViolation "Channel Proximity" "Drainage Channel"
     (if Js.lt (pointToLineDistance pt first) 50 then "HIGH" else "MEDIUM")
     (Some (Js.of_int (Js.round (pointToLineDistance pt first)) ++ "m")%string)].
Proof.
  intros pt Hwb Hww Hvl Hgc Hch.
  apply firstMatch_None in Hwb, Hww, Hvl, Hgc.
  subst pt. run_checks. reflexivity.
Qed.


End EngineProperties.

Lemma lt_true (a b : Q) : Js.lt a b = true <-> (a < b)%Q.
Proof.
  unfold Js.lt. rewrite negb_true_iff, <- not_true_iff_false, Qle_bool_iff.
  split; [apply Qnot_le_lt | apply Qlt_not_le].
Qed.

Lemma lt_false (a b : Q) : Js.lt a b = false <-> (b <= a)%Q.
Proof.
  unfold Js.lt. rewrite negb_false_iff, Qle_bool_iff. reflexivity.
Qed.

Lemma lt_compat (a a' b : Q) : (a == a')%Q -> Js.lt a b = Js.lt a' b.
Proof.
  intros Heq. destruct (Js.lt a' b) eqn:Hl.
  - apply lt_true. rewrite Heq. apply lt_true. exact Hl.
  - apply lt_false. rewrite Heq. apply lt_false. exact Hl.
Qed.

Lemma round_compat (a a' : Q) : (a == a')%Q -> Js.round a = Js.round a'.
Proof.
  intros Heq. unfold Js.round. apply Qfloor_comp. rewrite Heq. reflexivity.
Qed.

Section ChannelProperties.
Context `{Turf}.

(** C3.  A point whose first matching drainage channel lies at a
    distance [d] below 100 m, and which matches no other layer, gets
    exactly one violation, of type "Channel Proximity", HIGH when
    [d < 50] and MEDIUM otherwise, labelled with the rounded distance
    followed by "m"; at 40 m this is HIGH and "40m", at 70 m MEDIUM. *)
Theorem checkProtectedZone_channel (lat lng : Q)
    (layers : gmap string FeatureCollection)
    (before after : list Feature) (line : Feature) (d : Q) :
  let pt := point [lng; lat] in
  let r := checkProtectedZone lat lng layers in
  layerFeatures layers "channels" = before ++ line :: after ->
  noneMatch (fun f => Js.lt (pointToLineDistance pt f) 100) before ->
  (pointToLineDistance pt line == d)%Q ->
  (d < 100)%Q ->
  noneMatch (fun f => booleanPointInPolygon pt f)
    (layerFeatures layers "waterbodies") ->
  noneMatch (fun f => booleanPointInPolygon pt (buffer f 50))
    (layerFeatures layers "waterways") ->
  noneMatch (fun f => booleanPointInPolygon pt f)
    (layerFeatures layers "vulnerableLocalities") ->
  noneMatch (fun f => booleanPointInPolygon pt f)
    (layerFeatures layers "greenCover") ->
  violations r =
    [mkViolation "Channel Proximity" "Drainage Channel"
       (if Js.lt d 50 then "HIGH" else "MEDIUM")
       (Some (Js.of_int (Js.round d) ++ "m")%string)]
  /\ nearChannel r = true
  /\ ((d == 40)%Q ->
      violations r =
        [mkViolation "Channel Proximity" "Drainage Channel" "HIGH"
           (Some "40m")])
  /\ ((d == 70)%Q ->
      violations r =
        [mkViolation "Channel Proximity" "Drainage Channel" "MEDIUM"
           (Some "70m")]).
Proof.
  intros pt r Hfs Hbefore Hd Hlt Hwb Hww Hvl Hgc.
  assert (Hfirst :
    firstMatch (fun f => Js.lt (pointToLineDistance pt f) 100)
      (layerFeatures layers "channels") = Some line).
  { rewrite Hfs. apply firstMatch_app; [exact Hbefore|].
    apply lt_true. rewrite Hd. exact Hlt. }
  assert (Hv : violations r =
    [mkViolation "Channel Proximity" "Drainage Channel"
       (if Js.lt d 50 then "HIGH" else "MEDIUM")
       (Some (Js.of_int (Js.round d) ++ "m")%string)]).
  { subst r.
    rewrite (violations_only_channel lat lng layers line
               Hwb Hww Hvl Hgc Hfirst).
    fold pt. rewrite (lt_compat _ _ 50 Hd), (round_compat _ _ Hd).
    reflexivity. }
  split; [exact Hv|]. split; [|split].
  - subst r pt. apply firstMatch_None in Hwb, Hww, Hvl, Hgc.
    run_checks. reflexivity.
  - intros H40. rewrite Hv.
    rewrite (lt_compat _ _ 50 H40), (round_compat _ _ H40). reflexivity.
  - intros H70. rewrite Hv.
    rewrite (lt_compat _ _ 50 H70), (round_compat _ _ H70). reflexivity.
Qed.

End ChannelProperties.


Lemma checkProtectedZone_channel_witness :
  violations (checkProtectedZone (H := gridTurf) 17.4 78.5 (channelLayers 40))
  = [mkViolation "Channel Proximity" "Drainage Channel" "HIGH" (Some "40m")].
Proof.
  destruct (checkProtectedZone_channel (H := gridTurf) 17.4 78.5
              (channelLayers 40) [channelAt 250] [] (channelAt 40) 40)
    as (_ & _ & H40 & _).
  - reflexivity.
  - repeat constructor.
  - reflexivity.
  - reflexivity.
  - vm_compute. repeat constructor.
  - vm_compute. constructor.
  - vm_compute. constructor.
  - vm_compute. constructor.
  - apply H40. reflexivity.
Defined.

Example channel_at_70 :
  violations (checkProtectedZone (H := gridTurf) 17.4 78.5 (channelLayers 70))
  = [mkViolation "Channel Proximity" "Drainage Channel" "MEDIUM" (Some "70m")].
Proof. vm_compute. reflexivity. Qed.

Example channel_at_49_6 :
  violations (checkProtectedZone (H := gridTurf) 17.4 78.5
                (channelLayers 49.6))
  = [mkViolation "Channel Proximity" "Drainage Channel" "HIGH" (Some "50m")].
Proof. vm_compute. reflexivity. Qed.

Example channel_at_100 :
  violations (checkProtectedZone (H := gridTurf) 17.4 78.5
                (channelLayers 100)) = [].
Proof. vm_compute. reflexivity. Qed.

(** ** District lookup *)

Lemma getDistrict_firstRule (lat lng : Q) :
  getDistrict lat lng = firstRule districtRules lat lng.
Proof. reflexivity. Qed.

Lemma firstRule_at (rules : list (Rect * string)) (lat lng : Q) :
  forall (i : nat) (r : Rect) (label : string),
    rules !! i = Some (r, label) ->
    inRect r lat lng = true ->
    (forall (j : nat) (r' : Rect) (label' : string),
       (j < i)%nat -> rules !! j = Some (r', label') ->
       inRect r' lat lng = false) ->
    firstRule rules lat lng = label.
Proof.
  induction rules as [|[r0 l0] rest IH]; intros i r label Hi Hin Hbefore.
  - destruct i; discriminate.
  - destruct i as [|i]; simpl in *.
    + injection Hi as -> ->. rewrite Hin. reflexivity.
    + rewrite (Hbefore 0%nat r0 l0); [|lia|reflexivity].
      apply (IH i r label Hi Hin).
      intros j r' label' Hj Hlook.
      apply (Hbefore (S j) r' label'); [lia|exact Hlook].
Qed.

Lemma firstRule_unmatched (rules : list (Rect * string)) (lat lng : Q) :
  (forall (r : Rect) (label : string),
     (r, label) ∈ rules -> inRect r lat lng = false) ->
  firstRule rules lat lng = "Unknown".
Proof.
  induction rules as [|[r0 l0] rest IH]; intros Hout; simpl.
  - reflexivity.
  - rewrite (Hout r0 l0); [|left].
    apply IH. intros r label Hin. apply (Hout r label). right. exact Hin.
Qed.

(** C9, as the code has it.  The five rectangles are tried in the order
    Hyderabad, Medchal, Sangareddy, Vikarabad, Rangareddy and the first
    that holds the point gives the label: a rule gives the label whenever
    its rectangle holds the point and no earlier one does, so a point
    inside exactly one rectangle gets that rectangle's label, and a point
    outside all of them gets "Unknown". *)
Theorem getDistrict_first_match (lat lng : Q) :
  getDistrict lat lng = firstRule districtRules lat lng
  /\ (forall (i : nat) (r : Rect) (label : string),
        districtRules !! i = Some (r, label) ->
        inRect r lat lng = true ->
        (forall (j : nat) (r' : Rect) (label' : string),
           (j < i)%nat -> districtRules !! j = Some (r', label') ->
           inRect r' lat lng = false) ->
        getDistrict lat lng = label)
  /\ (forall (i : nat) (r : Rect) (label : string),
        districtRules !! i = Some (r, label) ->
        inRect r lat lng = true ->
        (forall (j : nat) (r' : Rect) (label' : string),
           j <> i -> districtRules !! j = Some (r', label') ->
           inRect r' lat lng = false) ->
        getDistrict lat lng = label)
  /\ ((forall (r : Rect) (label : string),
         (r, label) ∈ districtRules -> inRect r lat lng = false) ->
      getDistrict lat lng = "Unknown").
Proof.
  split; [reflexivity|]. split; [|split].
  - intros i r label Hi Hin Hbefore. rewrite getDistrict_firstRule.
    exact (firstRule_at districtRules lat lng i r label Hi Hin Hbefore).
  - intros i r label Hi Hin Hothers. rewrite getDistrict_firstRule.
    apply (firstRule_at districtRules lat lng i r label Hi Hin).
    intros j r' label' Hj Hlook. apply (Hothers j r' label'); [lia|exact Hlook].
  - intros Hout. rewrite getDistrict_firstRule.
    exact (firstRule_unmatched districtRules lat lng Hout).
Qed.

Lemma getDistrict_first_match_witness :
  getDistrict 17.7 78.0 = "Sangareddy" /\ getDistrict 16.0 78.0 = "Unknown".
Proof.
  split.
  - destruct (getDistrict_first_match 17.7 78.0) as (_ & Hfirst & _ & _).
    apply (Hfirst 2%nat (mkRect 17.6 18.0 77.8 78.2) "Sangareddy").
    + reflexivity.
    + reflexivity.
    + intros j r' label' Hj Hlook.
      destruct j as [|[|j]]; [| |lia]; injection Hlook as <- _; reflexivity.
  - destruct (getDistrict_first_match 16.0 78.0) as (_ & _ & _ & Hout).
    apply Hout. intros r label Hin.
    repeat (apply elem_of_cons in Hin as [[= -> _]|Hin]; [reflexivity|]).
    apply elem_of_nil in Hin. destruct Hin.
Defined.

(** C9, as the specification words it, fails: the rectangle of Hyderabad
    lies inside the rectangle of Rangareddy, so the point (17.4, 78.5) is
    in two rectangles, and the label depends on the order of the rules. *)
Lemma district_rectangles_overlap :
  ~ rulesDisjoint districtRules /\ ~ orderIndependent districtRules.
Proof.
  split.
  - intros Hdisj.
    apply (Hdisj 17.4%Q 78.5%Q 0%nat 4%nat
             (mkRect 17.3 17.5 78.4 78.6) (mkRect 17.2 17.6 78.2 78.8)
             "Hyderabad" "Rangareddy"); [reflexivity|reflexivity|lia|].
    split; reflexivity.
  - intros Hord.
    specialize (Hord (rev districtRules) (Permutation_sym (Permutation_rev _))
                  17.4%Q 78.5%Q).
    vm_compute in Hord. discriminate Hord.
Qed.

(** ** Detections restricted to the changed regions *)

Lemma ge_true (a b : Q) : Js.ge a b = true <-> (b <= a)%Q.
Proof. unfold Js.ge. apply Qle_bool_iff. Qed.

Lemma le_true (a b : Q) : Js.le a b = true <-> (a <= b)%Q.
Proof. unfold Js.le. apply Qle_bool_iff. Qed.

Lemma centerInRegion_spec (building : Building) (region : Region) :
  centerInRegion building region = true <-> centerWithin building region.
Proof.
  unfold centerInRegion, centerWithin.
  rewrite !andb_true_iff, !ge_true, !le_true. tauto.
Qed.

Lemma filterBuildings_elem (buildings : list Building)
    (changeRegions : list Region) (building : Building) :
  building ∈ filterBuildingsInChangeRegions buildings changeRegions <->
  building ∈ buildings /\
  exists region, region ∈ changeRegions /\ centerWithin building region.
Proof.
  unfold filterBuildingsInChangeRegions.
  rewrite !list_elem_of_In, filter_In, existsb_exists.
  split.
  - intros [Hin (region & Hr & Hc)]. split; [exact Hin|].
    exists region. rewrite list_elem_of_In, <- centerInRegion_spec. auto.
  - intros [Hin (region & Hr & Hc)]. split; [exact Hin|].
    exists region. rewrite <- list_elem_of_In, centerInRegion_spec. auto.
Qed.

Lemma filterBuildings_sublist (buildings : list Building)
    (changeRegions : list Region) :
  sublist (filterBuildingsInChangeRegions buildings changeRegions) buildings.
Proof.
  unfold filterBuildingsInChangeRegions.
  induction buildings as [|b rest IH]; simpl; [constructor|].
  destruct (existsb (centerInRegion b) changeRegions);
    [apply sublist_skip | apply sublist_cons]; exact IH.
Qed.

Section FilterProperties.
Context `{Collaborators}.

Lemma some_region (changeRegions : list Region) :
  changeRegions <> [] -> (Z.of_nat (length changeRegions) >? 0) = true.
Proof.
  intros Hne.
  destruct changeRegions as [|region rest]; [destruct Hne; reflexivity|].
  apply Z.gtb_lt. cbn [length]. lia.
Qed.

(** With regions, the stage returns the detections whose centre lies in
    the bounding box of some region, in their order, and nothing is
    cleaned up. *)
Lemma detectBuildings_with_regions (image : Image)
    (changeRegions : list Region) (buildings : list Building) (w : World) :
  detectionModel image = inr buildings ->
  changeRegions <> [] ->
  exists result,
    detectBuildingsWithMaskRCNN image changeRegions w =
      (inr result,
       mkWorld (drawn w) (ticks w) (events w ++ [DetectionModel image])
         (stored w)) /\
    sublist result buildings /\
    forall building,
      building ∈ result <->
      building ∈ buildings /\
      exists region,
        region ∈ changeRegions /\ centerWithin building region.
Proof.
  intros Hmodel Hne.
  exists (filterBuildingsInChangeRegions buildings changeRegions).
  split; [|split].
  - unfold detectBuildingsWithMaskRCNN, bind, emit, liftExn.
    rewrite Hmodel. cbn [ret]. rewrite (some_region changeRegions Hne).
    reflexivity.
  - apply filterBuildings_sublist.
  - intros building. apply filterBuildings_elem.
Qed.

(** The stage as [detectChanges] calls it, with regions. *)
Lemma detectBuildings_in_regions (image : Image)
    (changeRegions : list Region) (w : World) :
  (Z.of_nat (length changeRegions) =? 0) = false ->
  detectBuildingsWithMaskRCNN image changeRegions w =
  let w' :=
    mkWorld (drawn w) (ticks w) (events w ++ [DetectionModel image])
      (stored w) in
  match detectionModel image with
  | inl e => (inl e, w')
  | inr buildings =>
      (inr (filterBuildingsInChangeRegions buildings changeRegions), w')
  end.
Proof.
  intros Hsome. unfold detectBuildingsWithMaskRCNN, bind, emit, liftExn.
  destruct (detectionModel image) as [e | buildings]; [reflexivity|].
  cbn [ret]. rewrite some_region; [reflexivity|].
  intros ->. discriminate Hsome.
Qed.

(** Without regions the stage reaches [predictions.dispose()].  When the
    model found a building it throws there: the detections are not
    returned. *)
Lemma detectBuildings_no_region (image : Image) (buildings : list Building)
    (w : World) :
  detectionModel image = inr buildings ->
  buildings <> [] ->
  detectBuildingsWithMaskRCNN image [] w =
    (inl notAFunction,
     mkWorld (drawn w) (ticks w) (events w ++ [DetectionModel image])
       (stored w)).
Proof.
  intros Hmodel Hne. unfold detectBuildingsWithMaskRCNN, bind, emit, liftExn.
  rewrite Hmodel. cbn [ret length Z.of_nat Z.gtb Z.compare].
  destruct buildings as [|building rest]; [destruct Hne; reflexivity|].
  reflexivity.
Qed.

(** Whatever the stage returns without regions is the empty list. *)
Lemma detectBuildings_no_region_result (image : Image) (w w' : World)
    (result : list Building) :
  detectBuildingsWithMaskRCNN image [] w = (inr result, w') -> result = [].
Proof.
  unfold detectBuildingsWithMaskRCNN, bind, emit, liftExn.
  destruct (detectionModel image) as [e | buildings];
    cbn [ret throw length Z.of_nat Z.gtb Z.compare]; [discriminate|].
  destruct buildings as [|building rest]; cbn [disposePredictions].
  - destruct (disposable image); cbn; [|discriminate].
    intros [= <- _]. reflexivity.
  - cbn. discriminate.
Qed.

End FilterProperties.

(** C7.  With no region the detection stage does not pass the detections
    through: for a model that found three buildings it throws the
    TypeError of [predictions.dispose()], after the model was called.
    With a region it returns the two detections centred in the box. *)
Theorem detectBuildings_dispose_throws :
  detectBuildingsWithMaskRCNN
    (H := desk (fun _ _ => inr stripPrediction) (fun _ => inr stripBuildings))
    afterShot [] startWorld
  = (inl notAFunction, mkWorld 0 0 [DetectionModel afterShot] None) /\
  exists first second third,
    stripBuildings = [first; second; third] /\
    detectBuildingsWithMaskRCNN
      (H := desk (fun _ _ => inr stripPrediction)
                 (fun _ => inr stripBuildings))
      afterShot [mkRegion 0 [(0, 0)] (mkBBox 0 0 32 0)] startWorld
    = (inr [first; third], mkWorld 0 0 [DetectionModel afterShot] None).
Proof.
  split.
  - apply (detectBuildings_no_region
             (H := desk (fun _ _ => inr stripPrediction)
                        (fun _ => inr stripBuildings))
             afterShot stripBuildings startWorld); [reflexivity|discriminate].
  - eexists _, _, _. split; [reflexivity|]. vm_compute. reflexivity.
Qed.

(** ** The detection pipeline *)

Ltac run_world :=
  repeat (progress
            (unfold bind, ret, throw, emit, liftExn, dateNow, mathRandom,
               tryCatch;
             cbn [drawn ticks events stored])).

Lemma gt_false (a b : Q) : Js.gt a b = false <-> (a <= b)%Q.
Proof. unfold Js.gt. rewrite negb_false_iff. apply Qle_bool_iff. Qed.

Lemma max_floor (a b : Q) : (b <= Js.max a b)%Q.
Proof.
  unfold Js.max. destruct (Js.lt a b) eqn:Hlt.
  - apply Qle_refl.
  - apply lt_false in Hlt. exact Hlt.
Qed.

Lemma clampedArea_floor (b : Detection.BBox) :
  (50 <= clampedArea b)%Q /\ ~ (clampedArea b == 0)%Q.
Proof.
  pose proof (max_floor ((Detection.width b * Detection.height b) * 0.5) 50)
    as Hfloor.
  unfold clampedArea. cbv zeta. split; [exact Hfloor|].
  intros Hzero. rewrite Hzero in Hfloor. revert Hfloor. apply Qlt_not_le.
  reflexivity.
Qed.

Lemma greater_quiet (data : list Q) (idx : Z) :
  Forall (fun p => (p <= 0.5)%Q) data ->
  Js.gt (default 0%Q (maskAt (greater data 0.5) idx)) 0.5 = false.
Proof.
  intros Hquiet. unfold maskAt, greater.
  rewrite list_lookup_fmap.
  destruct (data !! Z.to_nat idx) as [p|] eqn:Hp; simpl; [|reflexivity].
  rewrite Forall_forall in Hquiet.
  apply list_elem_of_lookup_2 in Hp. apply Hquiet in Hp.
  apply gt_false in Hp. rewrite Hp. reflexivity.
Qed.

Lemma scanCell_quiet (maskData : list Q) (width height : Z)
    (st : list Region * gset Z) (px py : Z) :
  (forall idx, Js.gt (default 0%Q (maskAt maskData idx)) 0.5 = false) ->
  scanCell maskData width height st px py = st.
Proof.
  intros Hquiet. unfold scanCell. cbv zeta.
  rewrite Hquiet, andb_false_r. reflexivity.
Qed.

Lemma findChangeRegions_quiet (maskData : list Q) (width height : Z) :
  (forall idx, Js.gt (default 0%Q (maskAt maskData idx)) 0.5 = false) ->
  findChangeRegions maskData width height = [].
Proof.
  intros Hquiet. unfold findChangeRegions, scanMask.
  assert (Hrow : forall py st, scanRow maskData width height st py = st).
  { intros py st. unfold scanRow.
    induction (rangeStep width sampleRate) as [|px rest IH]; simpl;
      [reflexivity|].
    rewrite scanCell_quiet by exact Hquiet. exact IH. }
  induction (rangeStep height sampleRate) as [|py rest IH]; simpl;
    [reflexivity|].
  rewrite Hrow. exact IH.
Qed.

Section PipelineProperties.
Context `{Collaborators}.

Lemma mapM_toChange (before after : Image) (center : LatLng)
    (buildings : list Building) :
  forall (idx : nat) (w : World),
  exists cs w',
    mapM (toChange before after center) buildings idx w = (inr cs, w') /\
    events w' = events w /\
    Forall2 (fun b c =>
               change_bbox c = Some (building_bbox b) /\
               area c = clampedArea (building_bbox b) /\
               detectionMethod c = mlMethod) buildings cs.
Proof.
  induction buildings as [|b rest IH]; intros idx w.
  - exists [], w. repeat split. constructor.
  - cbn [mapM]. unfold toChange at 1.
    destruct (building_id b) as [[|ch name]|]; run_world.
    all: match goal with
         | |- context [mapM _ _ (S ?i) ?w1] =>
             destruct (IH (S i) w1) as (cs & w' & -> & Hev & Hall)
         end.
    all: eexists _, w'; split; [reflexivity|];
      split; [exact Hev|];
      constructor; [repeat split|exact Hall].
Qed.

Lemma mlDetection_changes (before after : Image) (center : LatLng)
    (w w' : World) (result : ChangeDetection) :
  mlDetection before after center w = (inr result, w') ->
  method result = mlMethod /\
  Forall (fun c =>
            exists b, change_bbox c = Some b /\
                      area c = clampedArea b /\
                      detectionMethod c = mlMethod) (changes result).
Proof.
  unfold mlDetection, detectChangesWithUNet.
  run_world.
  destruct (changeModel before after) as [e|prediction]; run_world;
    [discriminate|].
  destruct (Z.of_nat (length (regions (postprocessChangeMask prediction)))
            =? 0) eqn:Hzero.
  - intros [= <- _]. split; [reflexivity|constructor].
  - rewrite (detectBuildings_in_regions _ _ _ Hzero). cbv zeta.
    destruct (detectionModel after) as [e|buildings]; run_world;
      [discriminate|].
    match goal with
    | |- context [mapM _ ?bs 0%nat ?w1] =>
        destruct (mapM_toChange before after center bs 0%nat w1)
          as (cs & w2 & -> & _ & Hall)
    end.
    intros [= <- _]. split; [reflexivity|]. cbn [changes].
    clear -Hall. induction Hall as [|b c bs cs (Hb & Ha & Hm) _ IH];
      constructor; [|exact IH].
    exists (building_bbox b). auto.
Qed.

Lemma fallbackDetection_method (before after : Image) (center : LatLng)
    (w w' : World) (result : ChangeDetection) :
  fallbackDetection before after center w = (inr result, w') ->
  method result = fallbackMethod.
Proof.
  unfold fallbackDetection. run_world.
  destruct (negb (Js.gt (random (drawn w)) 0.6)).
  - intros [= <- _]. reflexivity.
  - match goal with
    | |- context [mapM ?f ?l ?i ?w1] =>
        destruct (mapM f l i w1) as [[e|cs] w2]
    end; [discriminate|].
    intros [= <- _]. reflexivity.
Qed.

(** C8.  A change of the main detection path, the one labelled with
    the method of the two models, has as area the larger of half the
    product of the sides of its pixel box and 50: at least 50, never
    zero, whatever the box. *)
Theorem detectChanges_area_floor (before after : Image) (center : LatLng)
    (w w' : World) (result : ChangeDetection) :
  detectChanges before after center w = (inr result, w') ->
  method result = mlMethod ->
  Forall (fun c =>
            exists b,
              change_bbox c = Some b /\
              area c =
                Js.max ((Detection.width b * Detection.height b) * 0.5) 50 /\
              (50 <= area c)%Q /\ ~ (area c == 0)%Q)
         (changes result).
Proof.
  unfold detectChanges, tryCatch.
  destruct (mlDetection before after center w) as [[e|r] w1] eqn:Hml.
  - intros Hfb Hmethod. apply fallbackDetection_method in Hfb.
    rewrite Hfb in Hmethod. discriminate Hmethod.
  - intros [= <- _] _. apply mlDetection_changes in Hml as [_ Hall].
    eapply Forall_impl; [exact Hall|].
    intros c (b & Hb & Ha & _). exists b. split; [exact Hb|].
    split; [exact Ha|]. rewrite Ha. apply clampedArea_floor.
Qed.

End PipelineProperties.

Lemma detectChanges_area_floor_witness :
  exists result w',
    detectChanges
      (H := desk (fun _ _ => inr stripPrediction) (fun _ => inr stripBuildings))
      beforeShot afterShot (mkLatLng 17.4 78.5) startWorld = (inr result, w')
    /\ map area (changes result) = [50%Q; 400.0%Q]
    /\ Forall (fun c =>
                 exists b,
                   change_bbox c = Some b /\
                   area c =
                     Js.max
                       ((Detection.width b * Detection.height b) * 0.5) 50 /\
                   (50 <= area c)%Q /\ ~ (area c == 0)%Q)
              (changes result).
Proof.
  eexists _, _. split; [vm_compute; reflexivity|].
  split; [reflexivity|].
  eapply (detectChanges_area_floor
            (H := desk (fun _ _ => inr stripPrediction)
                       (fun _ => inr stripBuildings))
            beforeShot afterShot (mkLatLng 17.4 78.5) startWorld).
  - vm_compute. reflexivity.
  - reflexivity.
Defined.

Section EarlyExit.
Context `{Collaborators}.

(** C4.  When the change model answers and the mask has no region, the
    run ends at once with no change, no changes and the fixed
    confidence 0.95, and the only call recorded is the one to the change
    model: the detection model is not called.  A prediction whose
    values are all at most 0.5, or whose values cannot be read, gives a
    mask with no region. *)
Theorem detectChanges_no_region (before after : Image) (center : LatLng)
    (w : World) (prediction : Prediction) :
  changeModel before after = inr prediction ->
  (regions (postprocessChangeMask prediction) = [] ->
   detectChanges before after center w =
     (inr (mkChangeDetection false 0.95 [] (now (ticks w)) mlMethod
             None None),
      mkWorld (drawn w) (S (ticks w))
        (events w ++ [ChangeModel before after]) (stored w)))
  /\ (forall data : list Q,
        predictionData prediction = Some data ->
        Forall (fun p => (p <= 0.5)%Q) data ->
        regions (postprocessChangeMask prediction) = [])
  /\ (predictionData prediction = None ->
      regions (postprocessChangeMask prediction) = []).
Proof.
  intros Hmodel. split; [|split].
  - intros Hnone.
    unfold detectChanges, mlDetection, detectChangesWithUNet.
    run_world. rewrite Hmodel. run_world. rewrite Hnone. reflexivity.
  - intros data Hdata Hquiet. unfold postprocessChangeMask.
    rewrite Hdata. cbn [regions].
    apply findChangeRegions_quiet. intros idx.
    apply greater_quiet. exact Hquiet.
  - intros Hdata. unfold postprocessChangeMask. rewrite Hdata. reflexivity.
Qed.

End EarlyExit.

Lemma detectChanges_no_region_witness :
  detectChanges
    (H := desk (fun _ _ => inr quietPrediction) (fun _ => inr stripBuildings))
    beforeShot afterShot (mkLatLng 17.4 78.5) startWorld =
  (inr (mkChangeDetection false 0.95 [] 1700000000000 mlMethod None None),
   mkWorld 0 1 [ChangeModel beforeShot afterShot] None).
Proof.
  destruct (detectChanges_no_region
              (H := desk (fun _ _ => inr quietPrediction)
                         (fun _ => inr stripBuildings))
              beforeShot afterShot (mkLatLng 17.4 78.5) startWorld
              quietPrediction eq_refl) as (Hexit & Hquiet & _).
  apply Hexit. apply (Hquiet (repeat 0.2%Q 64) eq_refl).
  apply Forall_forall. intros p Hp. apply list_elem_of_In, repeat_spec in Hp.
  rewrite Hp. discriminate.
Defined.

(** ** The fallback *)

Lemma floor_draw (r : Q) :
  (0 <= r)%Q -> (r < 1)%Q -> 0 <= Js.floor (r * 3) <= 2.
Proof.
  intros Hlo Hhi. unfold Js.floor. split.
  - change 0 with (Qfloor 0). apply Qfloor_resp_le. lra.
  - assert (Hlt : (inject_Z (Qfloor (r * 3)) < inject_Z 3)%Q).
    { eapply Qle_lt_trans; [apply Qfloor_le|]. change (inject_Z 3) with 3%Q.
      lra. }
    rewrite <- Zlt_Qlt in Hlt. lia.
Qed.

Lemma offset_near (c r : Q) :
  (0 <= r)%Q -> (r < 1)%Q -> near (c + (r - 0.5) * 0.01)%Q c 0.005.
Proof. intros Hlo Hhi. unfold near. split; lra. Qed.

Section FallbackProperties.
Context `{Collaborators}.

Lemma mapM_fallbackChange (before after : Image) (center : LatLng)
    (Hrange : randomInRange) (items : list nat) :
  forall (idx : nat) (w : World),
  exists cs w',
    mapM (fallbackChange before after center) items idx w = (inr cs, w') /\
    length cs = length items /\
    Forall (fun c =>
              near (lat (coordinates c)) (lat center) 0.005 /\
              near (lng (coordinates c)) (lng center) 0.005 /\
              detectionMethod c = "Fallback") cs.
Proof.
  induction items as [|i rest IH]; intros idx w.
  - exists [], w. repeat split. constructor.
  - cbn [mapM]. unfold fallbackChange at 1. run_world.
    match goal with
    | |- context [mapM _ _ (S ?k) ?w1] =>
        destruct (IH (S k) w1) as (cs & w' & -> & Hlen & Hall)
    end.
    eexists _, w'. split; [reflexivity|].
    split; [simpl; rewrite Hlen; reflexivity|].
    constructor; [|exact Hall]. cbn [coordinates lat lng detectionMethod].
    split; [|split; [|reflexivity]];
      apply offset_near; apply Hrange.
Qed.

(** C5.  When the detection path throws, [detectChanges] does not: it
    returns the result of the fallback, which reports either no change
    and no changes, or a change with one to three changes, each within
    0.005 degrees of the query point in latitude and in longitude and
    labelled "Fallback", a label that differs from the one of the
    model path. *)
Theorem detectChanges_fallback (before after : Image) (center : LatLng)
    (w w1 : World) (e : Exn) :
  randomInRange ->
  mlDetection before after center w = (inl e, w1) ->
  exists result w',
    detectChanges before after center w = (inr result, w') /\
    method result = fallbackMethod /\
    ((hasChange result = false /\ changes result = []) \/
     (hasChange result = true /\
      (1 <= length (changes result) <= 3)%nat /\
      Forall (fun c =>
                near (lat (coordinates c)) (lat center) 0.005 /\
                near (lng (coordinates c)) (lng center) 0.005 /\
                detectionMethod c = "Fallback" /\
                detectionMethod c <> mlMethod) (changes result))).
Proof.
  intros Hrange Hml. unfold detectChanges, tryCatch. rewrite Hml.
  unfold fallbackDetection. run_world.
  destruct (negb (Js.gt (random (drawn w1)) 0.6)).
  - eexists _, _. split; [reflexivity|]. split; [reflexivity|].
    left. split; reflexivity.
  - match goal with
    | |- context [mapM ?f ?items ?i ?w2] =>
        destruct (mapM_fallbackChange before after center Hrange items i w2)
          as (cs & w3 & -> & Hlen & Hall)
    end.
    eexists _, _. split; [reflexivity|]. split; [reflexivity|].
    right. cbn [hasChange changes]. split; [reflexivity|]. split.
    + rewrite Hlen, length_seq. cbn [drawn].
      destruct (Hrange (S (drawn w1))) as [Hlo Hhi].
      pose proof (floor_draw _ Hlo Hhi). lia.
    + eapply Forall_impl; [exact Hall|].
      intros c (Hlat & Hlng & Hm). repeat split; try apply Hlat;
        try apply Hlng; try exact Hm.
      rewrite Hm. discriminate.
Qed.

Lemma mlDetection_change_model_throws (before after : Image)
    (center : LatLng) (w : World) (e : Exn) :
  changeModel before after = inl e ->
  mlDetection before after center w =
    (inl e, mkWorld (drawn w) (ticks w)
              (events w ++ [ChangeModel before after]) (stored w)).
Proof.
  intros Hmodel. unfold mlDetection, detectChangesWithUNet. run_world.
  rewrite Hmodel. reflexivity.
Qed.

Lemma mlDetection_detection_model_throws (before after : Image)
    (center : LatLng) (w : World) (prediction : Prediction) (e : Exn) :
  changeModel before after = inr prediction ->
  regions (postprocessChangeMask prediction) <> [] ->
  detectionModel after = inl e ->
  mlDetection before after center w =
    (inl e, mkWorld (drawn w) (ticks w)
              (events w ++ [ChangeModel before after; DetectionModel after])
              (stored w)).
Proof.
  intros Hmodel Hregions Hdetect.
  unfold mlDetection, detectChangesWithUNet, detectBuildingsWithMaskRCNN.
  run_world. rewrite Hmodel. run_world.
  destruct (regions (postprocessChangeMask prediction)) as [|r rs];
    [destruct Hregions; reflexivity|].
  replace (Z.of_nat (length (r :: rs)) =? 0) with false
    by (symmetry; apply Z.eqb_neq; simpl; lia).
  rewrite Hdetect. run_world. rewrite <- app_assoc. reflexivity.
Qed.

End FallbackProperties.

Lemma detectChanges_fallback_witness :
  exists result w',
    detectChanges
      (H := desk (fun _ _ => inl offline) (fun _ => inr stripBuildings))
      beforeShot afterShot (mkLatLng 17.4 78.5) startWorld = (inr result, w')
    /\ method result = fallbackMethod
    /\ ((hasChange result = false /\ changes result = []) \/
        (hasChange result = true /\
         (1 <= length (changes result) <= 3)%nat /\
         Forall (fun c =>
                   near (lat (coordinates c)) 17.4 0.005 /\
                   near (lng (coordinates c)) 78.5 0.005 /\
                   detectionMethod c = "Fallback" /\
                   detectionMethod c <> mlMethod) (changes result))).
Proof.
  apply (detectChanges_fallback
           (H := desk (fun _ _ => inl offline) (fun _ => inr stripBuildings))
           beforeShot afterShot (mkLatLng 17.4 78.5) startWorld
           (mkWorld 0 0 [ChangeModel beforeShot afterShot] None) offline).
  - intros n. split; [discriminate | reflexivity].
  - reflexivity.
Defined.

(** ** Validation of the input of the analysis *)

Lemma outside_region (lat lng : Q) :
  (lat < 17.0 \/ 18.0 < lat \/ lng < 77.5 \/ 79.0 < lng)%Q ->
  isWithinHyderabadRegion lat lng = false.
Proof.
  intros Hout. unfold isWithinHyderabadRegion. cbn [bounds south north west east].
  rewrite !andb_false_iff. unfold Js.ge, Js.le.
  rewrite <- !not_true_iff_false, !Qle_bool_iff.
  destruct Hout as [Hs | [Hn | [Hw | He]]].
  - left; left; left. apply Qlt_not_le. exact Hs.
  - left; left; right. apply Qlt_not_le. exact Hn.
  - left; right. apply Qlt_not_le. exact Hw.
  - right. apply Qlt_not_le. exact He.
Qed.

Lemma split_nonempty (s : string) : split s <> [].
Proof.
  destruct s as [|c rest]; simpl; [discriminate|].
  destruct (Ascii.eqb c ","); [discriminate|].
  destruct (split rest); discriminate.
Qed.

Section ValidationProperties.
Context `{Collaborators} `{Turf}.

Lemma parseCoordinates_bad_parts (s : string) :
  length (split s) <> 2%nat -> parseCoordinates (Some s) = (None, None).
Proof.
  intros Hlen. unfold parseCoordinates.
  destruct s as [|c rest]; [reflexivity|].
  destruct (split (String c rest)) as [|a [|b [|d more]]]; simpl in *;
    try reflexivity.
  destruct Hlen; reflexivity.
Qed.

Lemma parseCoordinates_parts (s first second : string) :
  split s = [first; second] ->
  parseCoordinates (Some s) =
    match parseFloat (trim first), parseFloat (trim second) with
    | Some lat, Some lng => (Some lat, Some lng)
    | _, _ => (None, None)
    end.
Proof.
  intros Hsplit. unfold parseCoordinates.
  destruct s as [|c rest]; [discriminate Hsplit|].
  rewrite Hsplit. reflexivity.
Qed.

(** C10.  For an input that is malformed (null, empty, not two parts
    around one comma, or a part that is not a number) or whose point is
    outside the region of latitudes 17.0 to 18.0 and longitudes 77.5 to
    79.0, [analyzeSite] throws one of its two validation errors and the
    world is left as it was: no layer was fetched, no imagery asked
    for, no model called, nothing stored. *)
Theorem analyzeSite_rejects (coordinates : option string) (radius : Q)
    (historicalDate : option string) (w : World) :
  BadInput coordinates ->
  exists e,
    analyzeSite coordinates radius historicalDate w = (inl e, w) /\
    (e = invalidFormat \/ e = outsideRegion).
Proof.
  intros Hbad. unfold analyzeSite.
  destruct Hbad as [ | | s Hlen | s first second Hsplit Hnan
                   | s first second lat lng Hsplit Hlat Hlng Hout ].
  - exists invalidFormat. split; [reflexivity|left; reflexivity].
  - exists invalidFormat. split; [reflexivity|left; reflexivity].
  - rewrite (parseCoordinates_bad_parts s Hlen).
    exists invalidFormat. split; [reflexivity|left; reflexivity].
  - rewrite (parseCoordinates_parts s first second Hsplit).
    exists invalidFormat. split; [|left; reflexivity].
    destruct Hnan as [-> | Hsecond].
    + reflexivity.
    + rewrite Hsecond. destruct (parseFloat (trim first)); reflexivity.
  - rewrite (parseCoordinates_parts s first second Hsplit), Hlat, Hlng.
    destruct (falsy (Some lat) || falsy (Some lng)).
    + exists invalidFormat. split; [reflexivity|left; reflexivity].
    + rewrite (outside_region lat lng Hout).
      exists outsideRegion. split; [reflexivity|right; reflexivity].
Qed.

End ValidationProperties.

Lemma analyzeSite_rejects_witness :
  analyzeSite
    (H := desk (fun _ _ => inr stripPrediction) (fun _ => inr stripBuildings))
    (H0 := gridTurf) (Some "12.5, 78.5") 2 None startWorld
  = (inl outsideRegion, startWorld).
Proof.
  destruct (analyzeSite_rejects
              (H := desk (fun _ _ => inr stripPrediction)
                         (fun _ => inr stripBuildings))
              (H0 := gridTurf) (Some "12.5, 78.5") 2 None startWorld)
    as (e & Hrun & _).
  - apply (BadRegion "12.5, 78.5" "12.5" " 78.5" 12.5 78.5).
    + reflexivity.
    + reflexivity.
    + reflexivity.
    + left. reflexivity.
  - rewrite Hrun. vm_compute in Hrun. injection Hrun as <-. reflexivity.
Defined.

Example analyzeSite_three_parts :
  analyzeSite
    (H := desk (fun _ _ => inr stripPrediction) (fun _ => inr stripBuildings))
    (H0 := gridTurf) (Some "17.4,78.5,3") 2 None startWorld
  = (inl invalidFormat, startWorld).
Proof. reflexivity. Qed.

Example analyzeSite_zero_latitude :
  analyzeSite
    (H := desk (fun _ _ => inr stripPrediction) (fun _ => inr stripBuildings))
    (H0 := gridTurf) (Some "0,78.5") 2 None startWorld
  = (inl invalidFormat, startWorld).
Proof. reflexivity. Qed.

(** ** Region extraction *)

Lemma inBox_addPixel (region : Region) (px py : Z) (p : Z * Z) :
  inBox (bbox region) p -> inBox (bbox (addPixel region px py)) p.
Proof. unfold inBox, addPixel. cbn [bbox x y x2 y2]. lia. Qed.

Lemma inBox_addPixel_new (region : Region) (px py : Z) :
  inBox (bbox (addPixel region px py)) (px, py).
Proof. unfold inBox, addPixel. cbn [bbox x y x2 y2 fst snd]. lia. Qed.

#[local] Opaque maxPixels.

(** What the loop of the flood fill keeps: the identifier, the entries
    already recorded, the cap on their number once below it, and the
    bounding box around every entry. *)
Lemma fillLoop_keeps (maskData : list Q) (width height rate : Z)
    (stack : list (Z * Z)) (visited : gset Z) (region : Region) :
  let filled := (fillLoop maskData width height rate stack visited region).2 in
  region_id filled = region_id region /\
  (exists added, pixels filled = pixels region ++ added) /\
  (length (pixels filled) <= Nat.max (length (pixels region)) maxPixels)%nat /\
  (Forall (inBox (bbox region)) (pixels region) ->
   Forall (inBox (bbox filled)) (pixels filled)).
Proof.
  funelim (fillLoop maskData width height rate stack visited region);
    cbv zeta; try rewrite <- Heqcall; try clear Heqcall; cbn [snd].
  - repeat split; [exists []; rewrite app_nil_r; reflexivity | lia | auto].
  - repeat split; [exists []; rewrite app_nil_r; reflexivity | lia | auto].
  - exact H.
  - destruct H as (Hid & (added & Hadd) & Hlen & Hbox).
    repeat split.
    + rewrite Hid. reflexivity.
    + exists ((px, py) :: added). rewrite Hadd. unfold addPixel.
      cbn [pixels]. rewrite <- app_assoc. reflexivity.
    + revert Hlen. unfold addPixel. cbn [pixels].
      rewrite length_app. cbn [length]. lia.
    + intros Hall. apply Hbox. unfold addPixel at 2. cbn [pixels].
      apply Forall_app. split.
      * eapply Forall_impl; [exact Hall|]. intros p. apply inBox_addPixel.
      * constructor; [apply inBox_addPixel_new | constructor].
Qed.

Lemma fillLoop_cons (maskData : list Q) (width height rate px py : Z)
    (rest : list (Z * Z)) (visited : gset Z) (region : Region) :
  (length (pixels region) < maxPixels)%nat ->
  skipCell maskData visited width height px py = false ->
  fillLoop maskData width height rate ((px, py) :: rest) visited region =
  fillLoop maskData width height rate (pushNeighbours rest px py rate)
    ({[ py * width + px ]} ∪ visited) (addPixel region px py).
Proof.
  intros Hlen Hskip. simp fillLoop.
  destruct (decide (length (pixels region) < maxPixels)%nat) as [Hlt|Hge];
    [|contradiction].
  cbn. rewrite Hskip. reflexivity.
Qed.

#[local] Transparent maxPixels.

Lemma maxPixels_value : maxPixels = 1000%nat.
Proof. reflexivity. Qed.

#[local] Opaque maxPixels.

Lemma rangeStep_bounds (stop v : Z) :
  v ∈ rangeStep stop sampleRate -> 0 <= v < stop.
Proof.
  unfold rangeStep, sampleRate. intros Hin.
  apply list_elem_of_fmap in Hin as (k & -> & Hk).
  apply elem_of_seq in Hk.
  assert (Hlt : Z.of_nat k < (stop + 4 - 1) / 4) by lia.
  pose proof (Z.div_mod (stop + 4 - 1) 4 ltac:(lia)) as Hdm.
  pose proof (Z.mod_pos_bound (stop + 4 - 1) 4 ltac:(lia)) as Hmod.
  lia.
Qed.

Lemma scanOrder_bounds (width height : Z) (c : Z * Z) :
  c ∈ scanOrder width height -> 0 <= c.1 < width /\ 0 <= c.2 < height.
Proof.
  unfold scanOrder. intros Hin.
  apply list_elem_of_bind in Hin as (py & Hin & Hpy).
  apply list_elem_of_bind in Hin as (px & Hin & Hpx).
  apply list_elem_of_singleton in Hin as ->.
  apply rangeStep_bounds in Hpx, Hpy. cbn [fst snd]. lia.
Qed.

Lemma scanRow_cells (maskData : list Q) (width height py : Z)
    (xs : list Z) :
  forall st : list Region * gset Z,
    fold_left (fun st px => scanCell maskData width height st px py) xs st =
    scanCells maskData width height (xs ≫= fun px => [(px, py)]) st.
Proof.
  unfold scanCells. induction xs as [|px xs IH]; intros st; [reflexivity|].
  cbn [fold_left]. rewrite bind_cons. cbn [app fold_left fst snd]. apply IH.
Qed.

Lemma scanMask_cells (maskData : list Q) (width height : Z) :
  scanMask maskData width height =
  scanCells maskData width height (scanOrder width height) ([], ∅).
Proof.
  unfold scanMask, scanOrder.
  generalize (([], ∅) : list Region * gset Z).
  induction (rangeStep height sampleRate) as [|py ys IH]; intros st;
    [reflexivity|].
  cbn [fold_left]. rewrite bind_cons. unfold scanCells in *.
  rewrite fold_left_app, IH. f_equal. unfold scanRow.
  apply scanRow_cells.
Qed.

Lemma gt_not_lt (v t : Q) : Js.gt v t = true -> Js.lt v t = false.
Proof.
  unfold Js.gt. rewrite negb_true_iff, <- not_true_iff_false, Qle_bool_iff.
  intros Hgt. apply lt_false. apply Qlt_le_weak, Qnot_le_lt. exact Hgt.
Qed.

(** One cell of the scan: the list of regions is left as it is, or it
    gets one more region, seeded at the cell and numbered by its place. *)
Lemma scanCell_step (maskData : list Q) (width height : Z)
    (st : list Region * gset Z) (px py : Z) :
  0 <= px < width -> 0 <= py < height ->
  (scanCell maskData width height st px py).1 = st.1 \/
  exists r,
    (scanCell maskData width height st px py).1 = st.1 ++ [r] /\
    extracted r /\ seedOf r = (px, py) /\
    region_id r = Z.of_nat (length st.1).
Proof.
  intros Hx Hy. unfold scanCell. cbv zeta.
  destruct ((py * width + px <? Z.of_nat (length maskData)) &&
            Js.gt (default 0%Q (maskAt maskData (py * width + px))) 0.5 &&
            negb (bool_decide (py * width + px ∈ st.2))) eqn:Hcond;
    [|left; reflexivity].
  apply andb_true_iff in Hcond as [Hcond Hfresh].
  apply andb_true_iff in Hcond as [Hidx Hmask].
  unfold floodFill.
  rewrite fillLoop_cons.
  - match goal with
    | |- context [fillLoop ?m ?w ?h ?rate ?stack ?visited ?region] =>
        pose proof (fillLoop_keeps m w h rate stack visited region) as Hkeep;
        cbv zeta in Hkeep;
        destruct (fillLoop m w h rate stack visited region) as [seen filled]
    end.
    cbn [fst snd] in *. unfold addPixel in Hkeep. cbn [pixels region_id bbox
      x y x2 y2 app length] in Hkeep.
    destruct Hkeep as (Hid & (added & Hadd) & Hlen & Hbox).
    destruct (10 <=? length (pixels filled))%nat eqn:Hten; [|left; reflexivity].
    right. exists filled. split; [reflexivity|].
    apply Nat.leb_le in Hten.
    assert (Hseed : seedOf filled = (px, py))
      by (unfold seedOf; rewrite Hadd; reflexivity).
    repeat split.
    + exact Hten.
    + rewrite maxPixels_value in *. lia.
    + apply Hbox.
      constructor; [|constructor; [|constructor]];
        unfold inBox; cbn [fst snd x y x2 y2]; lia.
    + exists added. rewrite Hseed. exact Hadd.
    + exact Hseed.
    + exact Hid.
  - cbn [pixels length]. rewrite maxPixels_value. lia.
  - unfold skipCell. cbv zeta.
    apply negb_true_iff in Hfresh. rewrite Hfresh, (gt_not_lt _ _ Hmask).
    apply Z.ltb_lt in Hidx.
    replace (px <? 0) with false by (symmetry; apply Z.ltb_ge; lia).
    replace (py <? 0) with false by (symmetry; apply Z.ltb_ge; lia).
    replace (px >=? width) with false
      by (symmetry; rewrite Z.geb_leb; apply Z.leb_gt; lia).
    replace (py >=? height) with false
      by (symmetry; rewrite Z.geb_leb; apply Z.leb_gt; lia).
    replace (py * width + px >=? Z.of_nat (length maskData)) with false
      by (symmetry; rewrite Z.geb_leb; apply Z.leb_gt; lia).
    reflexivity.
Qed.

(** The scan over a list of cells adds regions at the end of the list,
    each accepted one seeded at a cell of the list, in the order of the
    cells. *)
Lemma scanCells_adds (maskData : list Q) (width height : Z)
    (cells : list (Z * Z)) :
  (forall c, c ∈ cells -> 0 <= c.1 < width /\ 0 <= c.2 < height) ->
  forall st : list Region * gset Z,
  exists new,
    (scanCells maskData width height cells st).1 = st.1 ++ new /\
    Forall extracted new /\
    sublist (map seedOf new) cells /\
    (forall (i : nat) (r : Region),
       new !! i = Some r -> region_id r = Z.of_nat (length st.1 + i)).
Proof.
  unfold scanCells.
  induction cells as [|[px py] cells IH]; intros Hcells st.
  - exists []. rewrite app_nil_r. repeat split; [constructor|constructor|].
    intros i r Hi. destruct i; discriminate.
  - cbn [fold_left fst snd].
    assert (Hrest : forall c, c ∈ cells ->
                      0 <= c.1 < width /\ 0 <= c.2 < height)
      by (intros c Hc; apply Hcells; right; exact Hc).
    destruct (Hcells (px, py) ltac:(left)) as [Hx Hy]. cbn [fst snd] in Hx, Hy.
    destruct (IH Hrest (scanCell maskData width height st px py))
      as (new & Hnew & Hall & Hsub & Hids).
    destruct (scanCell_step maskData width height st px py Hx Hy)
      as [Hsame | (r & Hadd & Hr & Hseed & Hid)].
    + exists new. rewrite Hsame in Hnew, Hids. split; [exact Hnew|].
      split; [exact Hall|]. split; [|exact Hids].
      apply sublist_cons. exact Hsub.
    + exists (r :: new). rewrite Hadd in Hnew, Hids.
      rewrite <- app_assoc in Hnew. split; [exact Hnew|].
      split; [constructor; assumption|]. split.
      * cbn [map]. rewrite Hseed. apply sublist_skip. exact Hsub.
      * intros i r' Hi. destruct i as [|i]; cbn in Hi.
        -- injection Hi as <-. rewrite Hid. f_equal. lia.
        -- rewrite (Hids i r' Hi), length_app. cbn [length]. f_equal. lia.
Qed.

(** What holds of the extractor on every mask: at most 20 regions; each
    with at least 10 and at most 1000 entries, so not empty, every entry
    inside the bounding box; the regions numbered from 0 in the order of
    acceptance, which is the order in which the scan meets their seeds. *)
Lemma findChangeRegions_invariants (maskData : list Q) (width height : Z) :
  let found := findChangeRegions maskData width height in
  (length found <= 20)%nat /\
  Forall (fun r =>
            pixels r <> [] /\
            (10 <= length (pixels r) <= 1000)%nat /\
            Forall (inBox (bbox r)) (pixels r)) found /\
  (forall (i : nat) (r : Region),
     found !! i = Some r -> region_id r = Z.of_nat i) /\
  sublist (map seedOf found) (scanOrder width height).
Proof.
  cbv zeta. unfold findChangeRegions. rewrite scanMask_cells.
  destruct (scanCells_adds maskData width height (scanOrder width height)
              (scanOrder_bounds width height) ([], ∅))
    as (new & -> & Hall & Hsub & Hids).
  cbn [fst app]. repeat split.
  - rewrite length_take. lia.
  - apply Forall_take. eapply Forall_impl; [exact Hall|].
    intros r ((Hlo & Hhi) & Hbox & _). rewrite maxPixels_value in Hhi.
    repeat split; try assumption.
    intros Hnil. rewrite Hnil in Hlo. cbn in Hlo. lia.
  - intros i r Hi. apply lookup_take_Some in Hi as [Hi _].
    apply (Hids i r Hi).
  - etransitivity; [|exact Hsub].
    change (map seedOf (take 20 new)) with (seedOf <$> take 20 new).
    rewrite fmap_take. apply sublist_take.
Qed.

(** Every region the extractor returns holds its seed twice, so its
    entries are never distinct. *)
Lemma findChangeRegions_seed_twice (maskData : list Q) (width height : Z) :
  Forall (fun r => exists rest, pixels r = seedOf r :: seedOf r :: rest)
         (findChangeRegions maskData width height) /\
  Forall (fun r => ~ NoDup (pixels r))
         (findChangeRegions maskData width height).
Proof.
  assert (Htwice :
    Forall (fun r => exists rest, pixels r = seedOf r :: seedOf r :: rest)
           (findChangeRegions maskData width height)).
  { unfold findChangeRegions. rewrite scanMask_cells.
    destruct (scanCells_adds maskData width height (scanOrder width height)
                (scanOrder_bounds width height) ([], ∅))
      as (new & -> & Hall & _).
    cbn [fst app]. apply Forall_take. eapply Forall_impl; [exact Hall|].
    intros r (_ & _ & Hrest). exact Hrest. }
  split; [exact Htwice|].
  eapply Forall_impl; [exact Htwice|].
  intros r [rest Hrest] Hnodup. rewrite Hrest in Hnodup.
  apply NoDup_cons in Hnodup as [Hnotin _]. apply Hnotin. left.
Qed.

(** C6, at a mask where the code departs from it.  On a strip of 33
    changed pixels in one row the extractor returns one region of 10
    entries: the seed (0, 0) is recorded twice, so the entries are not
    distinct and only 9 different cells stand behind the count of 10. *)
Theorem findChangeRegions_duplicate_seed :
  let found := findChangeRegions (repeat 1%Q 33) 33 1 in
  found =
    [mkRegion 0
       [(0, 0); (0, 0); (4, 0); (8, 0); (12, 0); (16, 0); (20, 0); (24, 0);
        (28, 0); (32, 0)]
       (mkBBox 0 0 32 0)]
  /\ Forall (fun r => ~ NoDup (pixels r)) found
  /\ Forall (fun r => length (pixels r) = 10%nat /\
                      length (remove_dups (pixels r)) = 9%nat) found.
Proof.
  cbv zeta.
  assert (Hfound :
    findChangeRegions (repeat 1%Q 33) 33 1 =
    [mkRegion 0
       [(0, 0); (0, 0); (4, 0); (8, 0); (12, 0); (16, 0); (20, 0); (24, 0);
        (28, 0); (32, 0)]
       (mkBBox 0 0 32 0)]) by (vm_compute; reflexivity).
  rewrite Hfound. split; [reflexivity|]. split.
  - constructor; [|constructor]. cbn [pixels]. intros Hnodup.
    apply NoDup_cons in Hnodup as [Hnotin _]. apply Hnotin. left.
  - constructor; [|constructor]. split; vm_compute; reflexivity.
Qed.

(** * Further properties of the code *)

(** ** The risk scorer as a function of the multiset of severities *)

Lemma calculateRiskLevel_eq (violations : list Violation) :
  calculateRiskLevel violations =
  mkRisk (levelOf (weightSum violations)) (weightSum violations).
Proof.
  unfold calculateRiskLevel.
  destruct violations as [|v rest]; [reflexivity|].
  cbn [length]. replace (Z.of_nat (S (length rest)) =? 0) with false
    by (symmetry; apply Z.eqb_neq; lia).
  cbv zeta. rewrite fold_addSeverity, Z.add_0_l. unfold levelOf.
  set (s := weightSum (v :: rest)).
  destruct (Z.geb_spec s 10), (Z.leb_spec 10 s); try lia; [reflexivity|].
  destruct (Z.geb_spec s 5), (Z.leb_spec 5 s); try lia; reflexivity.
Qed.

Lemma weightSum_app (vs more : list Violation) :
  weightSum (vs ++ more) = weightSum vs + weightSum more.
Proof.
  unfold weightSum. induction vs as [|v rest IH]; cbn [app foldr];
    [reflexivity|].
  rewrite IH. lia.
Qed.

Lemma weightSum_elem (vs : list Violation) (v : Violation) :
  v ∈ vs -> weight (v_severity v) <= weightSum vs.
Proof.
  induction vs as [|u rest IH]; intros Hin.
  - apply elem_of_nil in Hin. destruct Hin.
  - apply elem_of_cons in Hin as [-> | Hin].
    + pose proof (weightSum_nonneg rest) as Hrest.
      unfold weightSum in *. cbn [foldr]. lia.
    + pose proof (weight_pos (v_severity u)). specialize (IH Hin).
      unfold weightSum in *. cbn [foldr]. lia.
Qed.

Lemma levelRank_levelOf (s t : Z) :
  s <= t -> (levelRank (levelOf s) <= levelRank (levelOf t))%nat.
Proof.
  intros Hst. unfold levelOf.
  destruct (Z.leb_spec 10 s), (Z.leb_spec 10 t), (Z.leb_spec 5 s),
    (Z.leb_spec 5 t); try lia; vm_compute; lia.
Qed.

(** X1.  The score and the level depend on the violations only, not on their
    order. *)
Theorem calculateRiskLevel_permutation (vs vs' : list Violation) :
  Permutation vs vs' -> calculateRiskLevel vs = calculateRiskLevel vs'.
Proof.
  intros Hperm. rewrite !calculateRiskLevel_eq.
  assert (Hsum : weightSum vs = weightSum vs').
  { unfold weightSum.
    induction Hperm as [|v l l' _ IH|u v l|l l' l'' _ IH1 _ IH2];
      cbn [foldr].
    - reflexivity.
    - rewrite IH. reflexivity.
    - lia.
    - congruence. }
  rewrite Hsum. reflexivity.
Qed.

Lemma calculateRiskLevel_permutation_witness :
  calculateRiskLevel
    [mkViolation "Flood Risk Zone" "A" "HIGH" None;
     mkViolation "Green Belt Encroachment" "B" "MEDIUM" None] =
  calculateRiskLevel
    [mkViolation "Green Belt Encroachment" "B" "MEDIUM" None;
     mkViolation "Flood Risk Zone" "A" "HIGH" None].
Proof.
  apply calculateRiskLevel_permutation. apply perm_swap.
Defined.

(** X2.  More violations never lower the score nor the level, wherever they
    are added. *)
Theorem calculateRiskLevel_monotone (before vs after : list Violation) :
  score (calculateRiskLevel vs) <=
    score (calculateRiskLevel (before ++ vs ++ after)) /\
  (levelRank (level (calculateRiskLevel vs)) <=
   levelRank (level (calculateRiskLevel (before ++ vs ++ after))))%nat.
Proof.
  rewrite !calculateRiskLevel_eq. cbn [score level].
  assert (Hle : weightSum vs <= weightSum (before ++ vs ++ after)).
  { rewrite !weightSum_app.
    pose proof (weightSum_nonneg before). pose proof (weightSum_nonneg after).
    lia. }
  split; [exact Hle | apply levelRank_levelOf; exact Hle].
Qed.

(** X3.  One HIGH violation makes the level HIGH, and one MEDIUM violation
    rules LOW out, whatever else the list holds. *)
Theorem calculateRiskLevel_dominant (vs : list Violation) (v : Violation) :
  v ∈ vs ->
  (v_severity v = "HIGH" -> level (calculateRiskLevel vs) = "HIGH") /\
  (v_severity v = "MEDIUM" -> level (calculateRiskLevel vs) <> "LOW").
Proof.
  intros Hin. apply weightSum_elem in Hin.
  rewrite calculateRiskLevel_eq. cbn [level]. unfold levelOf. split.
  - intros Hsev. rewrite Hsev in Hin. change (weight "HIGH") with 10 in Hin.
    destruct (Z.leb_spec 10 (weightSum vs)); [reflexivity|lia].
  - intros Hsev. rewrite Hsev in Hin. change (weight "MEDIUM") with 5 in Hin.
    destruct (Z.leb_spec 10 (weightSum vs)); [discriminate|].
    destruct (Z.leb_spec 5 (weightSum vs)); [discriminate|lia].
Qed.

Lemma calculateRiskLevel_dominant_witness :
  level (calculateRiskLevel
           [mkViolation "Other" "X" "LOW" None;
            mkViolation "Flood Risk Zone" "A" "HIGH" None]) = "HIGH" /\
  level (calculateRiskLevel
           [mkViolation "Green Belt Encroachment" "B" "MEDIUM" None]) <> "LOW".
Proof.
  split.
  - apply (calculateRiskLevel_dominant _
             (mkViolation "Flood Risk Zone" "A" "HIGH" None)).
    + right. left.
    + reflexivity.
  - apply (calculateRiskLevel_dominant _
             (mkViolation "Green Belt Encroachment" "B" "MEDIUM" None)).
    + left.
    + reflexivity.
Defined.

(** ** The layers the engine reads *)

Lemma layerFeatures_agree (layers layers' : gmap string FeatureCollection)
    (key : string) :
  layers !! key = layers' !! key ->
  layerFeatures layers key = layerFeatures layers' key.
Proof. unfold layerFeatures. intros ->. reflexivity. Qed.

Section EngineReads.
Context `{Turf}.

(** X4.  The result depends on the five layers the scans name and on nothing
    else of the mapping: the contour layer that [loadGISLayers] also
    loads, or any other key, is never read. *)
Theorem checkProtectedZone_reads_five (lat lng : Q)
    (layers layers' : gmap string FeatureCollection) :
  Forall (fun key => layers !! key = layers' !! key) zoneKeys ->
  checkProtectedZone lat lng layers = checkProtectedZone lat lng layers'.
Proof.
  intros Hagree. unfold zoneKeys in Hagree.
  repeat match goal with
         | Hall : Forall _ (_ :: _) |- _ =>
             let Hk := fresh "Hk" in
             apply Forall_cons in Hall as [Hk Hall];
             apply layerFeatures_agree in Hk
         end.
  unfold checkProtectedZone. cbv zeta.
  generalize (mkZoneResults false false false false false []). intros r0.
  assert (H1 : checkWaterbodies (point [lng; lat]) layers r0 =
               checkWaterbodies (point [lng; lat]) layers' r0)
    by (unfold checkWaterbodies; rewrite Hk; reflexivity).
  rewrite H1. generalize (checkWaterbodies (point [lng; lat]) layers' r0).
  intros r1.
  assert (H2 : checkWaterways (point [lng; lat]) layers r1 =
               checkWaterways (point [lng; lat]) layers' r1)
    by (unfold checkWaterways; rewrite Hk0; reflexivity).
  rewrite H2. generalize (checkWaterways (point [lng; lat]) layers' r1).
  intros r2.
  assert (H3 : checkVulnerable (point [lng; lat]) layers r2 =
               checkVulnerable (point [lng; lat]) layers' r2)
    by (unfold checkVulnerable; rewrite Hk1; reflexivity).
  rewrite H3. generalize (checkVulnerable (point [lng; lat]) layers' r2).
  intros r3.
  assert (H4 : checkGreenCover (point [lng; lat]) layers r3 =
               checkGreenCover (point [lng; lat]) layers' r3)
    by (unfold checkGreenCover; rewrite Hk2; reflexivity).
  rewrite H4. generalize (checkGreenCover (point [lng; lat]) layers' r3).
  intros r4.
  unfold checkChannels. rewrite Hk3. reflexivity.
Qed.

End EngineReads.

Lemma checkProtectedZone_reads_five_witness :
  checkProtectedZone (H := gridTurf) 17.42 78.47
    (<["contours" := mkFeatureCollection (Some [lake; channelAt 3])]>
       lakeLayers) =
  checkProtectedZone (H := gridTurf) 17.42 78.47 lakeLayers.
Proof.
  apply (checkProtectedZone_reads_five (H := gridTurf)).
  repeat constructor.
Defined.

Section EngineFlags.
Context `{Turf}.

(** X5.  Each flag of the result is set exactly when the list holds the
    violation of its layer, and the violations come in the order of the
    scans. *)
Theorem checkProtectedZone_flags (lat lng : Q)
    (layers : gmap string FeatureCollection) :
  let r := checkProtectedZone lat lng layers in
  countType "Waterbody Encroachment" (violations r) =
    (if inWaterbody r then 1 else 0)%nat /\
  countType "Waterway Buffer Violation" (violations r) =
    (if inWaterway r then 1 else 0)%nat /\
  countType "Flood Risk Zone" (violations r) =
    (if inVulnerableZone r then 1 else 0)%nat /\
  countType "Green Belt Encroachment" (violations r) =
    (if inGreenBelt r then 1 else 0)%nat /\
  countType "Channel Proximity" (violations r) =
    (if nearChannel r then 1 else 0)%nat /\
  sublist (map v_type (violations r)) violationKinds.
Proof.
  cbv zeta. run_checks; vm_compute; repeat split;
    repeat first [apply sublist_nil_l | apply sublist_skip | apply sublist_cons].
Qed.

End EngineFlags.

(** ** The risk of an assembled site *)

Section SiteRisk.
Context `{Turf}.

Lemma zone_risk (lat lng : Q) (layers : gmap string FeatureCollection) :
  let vs := violations (checkProtectedZone lat lng layers) in
  let risk := calculateRiskLevel vs in
  (score risk = 0 \/ 5 <= score risk <= 45) /\
  (level risk = "LOW" <-> vs = []) /\
  (score risk = 0 <-> vs = []).
Proof.
  intros vs.
  assert (Hvs : vs = violations (checkProtectedZone lat lng layers))
    by reflexivity.
  clearbody vs. revert Hvs. run_checks;
    try match goal with
        | |- context [Js.lt ?d 50] => destruct (Js.lt d 50)
        end;
    intros ->; rewrite calculateRiskLevel_eq; cbn [score level];
    match goal with
    | |- context [weightSum ?l] =>
        let s := eval vm_compute in (weightSum l) in
        change (weightSum l) with s
    end;
    unfold levelOf; cbn;
    (split; [first [left; reflexivity | right; split; discriminate]|]);
    split; split; intros Heq; first [reflexivity | discriminate Heq].
Qed.

End SiteRisk.

Section SiteAssembly.
Context `{Collaborators} `{Turf}.

(** X6.  A site that [processDetectedSite] returns was assembled with one
    reading of the clock, its report date, and nothing else of the world
    touched.  It keeps the change, is PENDING, and its score is 0 or
    lies between 5 and 45; it is LOW exactly when no rule of the engine
    matched, since the engine only issues HIGH and MEDIUM violations. *)
Theorem processDetectedSite_risk (site : Change)
    (gisLayers : gmap string FeatureCollection) (idx : nat) (w w' : World)
    (result : Site) :
  processDetectedSite site gisLayers idx w = (inr result, w') ->
  w' = mkWorld (drawn w) (S (ticks w)) (events w) (stored w) /\
  site_change result = site /\
  status result = "PENDING" /\
  reportedDate result = now (ticks w) /\
  (riskScore result = 0 \/ 5 <= riskScore result <= 45) /\
  (riskLevel result = "LOW" <-> site_violations result = []) /\
  (riskScore result = 0 <-> site_violations result = []).
Proof.
  intros Hrun.
  cbv beta iota zeta delta [processDetectedSite bind dateNow ret] in Hrun.
  injection Hrun as <- <-.
  cbn [site_change status reportedDate riskScore riskLevel site_violations].
  split; [reflexivity|]. split; [reflexivity|]. split; [reflexivity|].
  split; [reflexivity|]. apply zone_risk.
Qed.

End SiteAssembly.

Lemma processDetectedSite_risk_witness :
  exists result w',
    processDetectedSite
      (H := desk (fun _ _ => inr stripPrediction) (fun _ => inr stripBuildings))
      (H0 := gridTurf) shed lakeLayers 0%nat startWorld = (inr result, w') /\
    w' = mkWorld 0 1 [] None /\
    status result = "PENDING" /\
    riskLevel result <> "LOW".
Proof.
  destruct (processDetectedSite
              (H := desk (fun _ _ => inr stripPrediction)
                         (fun _ => inr stripBuildings))
              (H0 := gridTurf) shed lakeLayers 0%nat startWorld)
    as [[e | result] w'] eqn:Hrun; [vm_compute in Hrun; discriminate Hrun|].
  destruct (processDetectedSite_risk
              (H := desk (fun _ _ => inr stripPrediction)
                         (fun _ => inr stripBuildings))
              (H0 := gridTurf) shed lakeLayers 0%nat startWorld w' result Hrun)
    as (Hworld & _ & Hstatus & _ & _ & Hlow & _).
  exists result, w'. split; [reflexivity|]. split; [exact Hworld|].
  split; [exact Hstatus|].
  intros Hlevel. apply Hlow in Hlevel.
  vm_compute in Hrun. injection Hrun as <- _. discriminate Hlevel.
Defined.

(** ** Districts and the service region *)

Ltac in_region :=
  match goal with
  | Hc : _ && _ && _ && _ = true |- _ =>
      apply andb_true_iff in Hc as [Hc ?He];
      apply andb_true_iff in Hc as [Hc ?Hw];
      apply andb_true_iff in Hc as [?Hs ?Hn]
  end;
  repeat match goal with
         | Hb : Js.ge _ _ = true |- _ => apply ge_true in Hb
         | Hb : Js.le _ _ = true |- _ => apply le_true in Hb
         end;
  unfold isWithinHyderabadRegion; cbn [bounds south north west east];
  rewrite !andb_true_iff, !ge_true, !le_true; repeat split; lra.

(** X7.  A point that has a district lies in the service region.  The
    converse fails: the region is larger than the five rectangles, so an
    accepted point can have the district "Unknown". *)
Theorem getDistrict_within_region :
  (forall lat lng : Q,
     getDistrict lat lng <> "Unknown" ->
     isWithinHyderabadRegion lat lng = true) /\
  isWithinHyderabadRegion 17.1 78.9 = true /\
  getDistrict 17.1 78.9 = "Unknown".
Proof.
  split; [|split; reflexivity].
  intros lat lng. unfold getDistrict.
  repeat match goal with
         | |- context [if ?c then _ else _] =>
             let Hc := fresh "Hc" in
             destruct c eqn:Hc; [intros _; in_region|]
         end.
  intros Hne. destruct Hne. reflexivity.
Qed.

Lemma getDistrict_within_region_witness :
  isWithinHyderabadRegion 17.7 78.0 = true.
Proof.
  destruct getDistrict_within_region as [Hin _].
  apply Hin. discriminate.
Defined.

(** ** Georeferencing *)

(** X8.  With the arguments [detectChanges] passes (an image of 800 by 800
    at zoom 14), the centre of the image maps to the query point, and a
    pixel of the image maps to a point at most 0.0172 degrees of latitude
    and 0.0344 degrees of longitude away from it. *)
Theorem pixelToLatLng_near_centre (px py centerLat centerLng : Q) :
  (lat (pixelToLatLng 400 400 centerLat centerLng 800 800 14) == centerLat)%Q
  /\ (lng (pixelToLatLng 400 400 centerLat centerLng 800 800 14)
      == centerLng)%Q
  /\ ((0 <= px)%Q -> (px <= 800)%Q -> (0 <= py)%Q -> (py <= 800)%Q ->
      near (lat (pixelToLatLng px py centerLat centerLng 800 800 14))
           centerLat 0.0172 /\
      near (lng (pixelToLatLng px py centerLat centerLng 800 800 14))
           centerLng 0.0344).
Proof.
  unfold pixelToLatLng, near. cbn [lat lng].
  change (256 * 2 ^ 14)%Q with 4194304%Q.
  repeat split; try (unfold Qdiv; ring); unfold Qdiv;
    change (/ 4194304)%Q with (1 # 4194304)%Q;
    change (/ 2)%Q with (1 # 2)%Q; lra.
Qed.

Lemma pixelToLatLng_near_centre_witness :
  near (lat (pixelToLatLng 12 0 17.4 78.5 800 800 14)) 17.4 0.0172 /\
  near (lng (pixelToLatLng 12 0 17.4 78.5 800 800 14)) 78.5 0.0344.
Proof.
  destruct (pixelToLatLng_near_centre 12 0 17.4 78.5) as (_ & _ & Hin).
  apply Hin; discriminate.
Defined.

(** ** Loading the layers *)

Section Loading.
Context `{Collaborators}.

Lemma loadWithFallback_runs (paths : list string) (relativePath : string) :
  forall w : World,
  exists collection fetched,
    loadWithFallback paths relativePath w =
      (inr collection,
       mkWorld (drawn w) (ticks w) (events w ++ fetched) (stored w)) /\
    Forall isFetch fetched /\
    (length fetched <= length paths)%nat /\
    (paths <> [] -> (1 <= length fetched)%nat) /\
    ((forall path, fetchJSON path = None) ->
     collection = mkFeatureCollection (Some []) /\
     length fetched = length paths).
Proof.
  induction paths as [|basePath rest IH]; intros w.
  - exists (mkFeatureCollection (Some [])), []. rewrite app_nil_r.
    destruct w. split; [reflexivity|]. split; [constructor|].
    split; [reflexivity|]. split; [intros Hne; destruct Hne; reflexivity|].
    intros _. split; reflexivity.
  - cbn [loadWithFallback]. unfold loadGeoJSON. run_world.
    destruct (fetchJSON (basePath ++ "/" ++ relativePath)%string)
      as [collection|] eqn:Hfetch.
    + exists collection, [Fetch (basePath ++ "/" ++ relativePath)%string].
      split; [reflexivity|]. split; [repeat constructor|].
      split; [cbn [length]; lia|]. split; [cbn [length]; lia|].
      intros Hnone. rewrite Hnone in Hfetch. discriminate.
    + match goal with
      | |- context [loadWithFallback rest relativePath ?w1] =>
          destruct (IH w1)
            as (collection & fetched & -> & Hall & Hlen & _ & Hnone)
      end.
      cbn [drawn ticks events stored].
      exists collection,
        (Fetch (basePath ++ "/" ++ relativePath)%string :: fetched).
      rewrite <- app_assoc. split; [reflexivity|].
      split; [constructor; [exact I | exact Hall]|].
      split; [cbn [length]; lia|]. split; [cbn [length]; lia|].
      intros Hall0. destruct (Hnone Hall0) as [-> Hlen0].
      split; [reflexivity|]. cbn [length]. rewrite Hlen0. reflexivity.
Qed.

(** X9.  The base paths are tried in their order and the first file that
    loads is returned; the files fetched are those of the paths tried, up
    to that one.  When no path has the file, the result is an empty
    feature collection, after every path was tried. *)
Theorem loadWithFallback_first (tried rest : list string)
    (basePath relativePath : string) (collection : FeatureCollection)
    (w : World) :
  Forall (fun p => fetchJSON (p ++ "/" ++ relativePath)%string = None) tried ->
  (fetchJSON (basePath ++ "/" ++ relativePath)%string = Some collection ->
   loadWithFallback (tried ++ basePath :: rest) relativePath w =
     (inr collection,
      mkWorld (drawn w) (ticks w)
        (events w ++
         map (fun p => Fetch (p ++ "/" ++ relativePath)%string)
             (tried ++ [basePath]))
        (stored w))) /\
  loadWithFallback tried relativePath w =
    (inr (mkFeatureCollection (Some [])),
     mkWorld (drawn w) (ticks w)
       (events w ++
        map (fun p => Fetch (p ++ "/" ++ relativePath)%string) tried)
       (stored w)).
Proof.
  intros Htried. revert w.
  induction Htried as [|p tried Hp _ IH]; intros w.
  - split.
    + intros Hfetch. cbn [app loadWithFallback map]. unfold loadGeoJSON.
      run_world. rewrite Hfetch. reflexivity.
    + cbn. rewrite app_nil_r. destruct w; reflexivity.
  - split.
    + intros Hfetch. cbn [app loadWithFallback map]. unfold loadGeoJSON.
      run_world. rewrite Hp.
      match goal with
      | |- context [loadWithFallback _ relativePath ?w1] =>
          destruct (IH w1) as [Hyes _]; rewrite (Hyes Hfetch)
      end.
      cbn [drawn ticks events stored]. rewrite <- app_assoc. reflexivity.
    + cbn [loadWithFallback map]. unfold loadGeoJSON. run_world. rewrite Hp.
      match goal with
      | |- context [loadWithFallback _ relativePath ?w1] =>
          destruct (IH w1) as [_ ->]
      end.
      cbn [drawn ticks events stored]. rewrite <- app_assoc. reflexivity.
Qed.

End Loading.

Lemma loadWithFallback_first_witness :
  loadWithFallback (H := deskFiles secondBase) basePaths "a.geojson"
    startWorld =
  (inr (mkFeatureCollection (Some [lake])),
   mkWorld 0 0
     [Fetch "/hyderabad-open-gis-data-master/a.geojson";
      Fetch "/GENERAL LAYERS/a.geojson"] None).
Proof.
  destruct (loadWithFallback_first (H := deskFiles secondBase)
              ["/hyderabad-open-gis-data-master"]
              ["./hyderabad-open-gis-data-master"]
              "/GENERAL LAYERS" "a.geojson"
              (mkFeatureCollection (Some [lake])) startWorld) as [Hfirst _].
  - repeat constructor.
  - apply Hfirst. reflexivity.
Defined.

Section LoadingAll.
Context `{Collaborators}.

Ltac load_next :=
  match goal with
  | |- context [loadWithFallback basePaths ?rel ?w1] =>
      let c := fresh "c" in
      let f := fresh "f" in
      let Hall := fresh "Hall" in
      let Hmax := fresh "Hmax" in
      let Hmin := fresh "Hmin" in
      let Hnone := fresh "Hnone" in
      destruct (loadWithFallback_runs basePaths rel w1)
        as (c & f & -> & Hall & Hmax & Hmin & Hnone);
      specialize (Hmin ltac:(discriminate));
      cbn [length basePaths] in Hmax;
      cbn [drawn ticks events stored]
  end.

Lemma loadGISLayers_runs (w : World) :
  exists layers fetched,
    loadGISLayers w =
      (inr layers,
       mkWorld (drawn w) (ticks w) (events w ++ fetched) (stored w)) /\
    Forall isFetch fetched /\
    (6 <= length fetched <= 18)%nat /\
    dom layers = list_to_set layerKeys /\
    ((forall path, fetchJSON path = None) ->
     layers = noLayers /\ length fetched = 18%nat).
Proof.
  unfold loadGISLayers. run_world.
  do 6 load_next.
  eexists _, (f ++ f0 ++ f1 ++ f2 ++ f3 ++ f4).
  split; [rewrite <- !app_assoc; reflexivity|].
  split; [repeat (apply Forall_app; split); assumption|].
  split; [rewrite !length_app; lia|].
  split; [rewrite !dom_insert_L, dom_empty_L; unfold layerKeys; set_solver|].
  intros Hno.
  destruct (Hnone Hno) as [-> ?], (Hnone0 Hno) as [-> ?],
    (Hnone1 Hno) as [-> ?], (Hnone2 Hno) as [-> ?],
    (Hnone3 Hno) as [-> ?], (Hnone4 Hno) as [-> ?].
  split; [reflexivity|]. rewrite !length_app. cbn [length basePaths] in *. lia.
Qed.

(** X10.  Loading the layers never throws and touches nothing but the
    network: between 6 and 18 files are fetched, and the mapping
    returned holds exactly the six layers. *)
Theorem loadGISLayers_six (w : World) :
  exists layers fetched,
    loadGISLayers w =
      (inr layers,
       mkWorld (drawn w) (ticks w) (events w ++ fetched) (stored w)) /\
    Forall isFetch fetched /\
    (6 <= length fetched <= 18)%nat /\
    dom layers = list_to_set layerKeys.
Proof.
  destruct (loadGISLayers_runs w)
    as (layers & fetched & Hrun & Hall & Hlen & Hdom & _).
  exists layers, fetched. auto.
Qed.

End LoadingAll.

Section NoData.
Context `{Collaborators} `{Turf}.

(** X11.  With no GIS file available all 18 fetches are made and the engine
    finds nothing anywhere, so every site assembled from the loaded
    layers is LOW with score 0 and no violation. *)
Theorem no_layers_no_risk (w : World) :
  (forall path, fetchJSON path = None) ->
  exists layers w',
    loadGISLayers w = (inr layers, w') /\
    length (events w') = (length (events w) + 18)%nat /\
    (forall lat lng : Q,
       checkProtectedZone lat lng layers =
       mkZoneResults false false false false false []) /\
    (forall (site : Change) (idx : nat) (w2 : World),
     exists result w3,
       processDetectedSite site layers idx w2 = (inr result, w3) /\
       riskLevel result = "LOW" /\ riskScore result = 0 /\
       site_violations result = []).
Proof.
  intros Hno.
  destruct (loadGISLayers_runs w)
    as (layers & fetched & Hrun & _ & _ & _ & Hnone).
  destruct (Hnone Hno) as [-> Hlen].
  eexists _, _. split; [exact Hrun|].
  split; [cbn [events]; rewrite length_app, Hlen; reflexivity|].
  assert (Hzone : forall lat lng : Q,
            checkProtectedZone lat lng noLayers =
            mkZoneResults false false false false false []).
  { intros lat lng.
    assert (H1 : layerFeatures noLayers "waterbodies" = [])
      by (vm_compute; reflexivity).
    assert (H2 : layerFeatures noLayers "waterways" = [])
      by (vm_compute; reflexivity).
    assert (H3 : layerFeatures noLayers "vulnerableLocalities" = [])
      by (vm_compute; reflexivity).
    assert (H4 : layerFeatures noLayers "greenCover" = [])
      by (vm_compute; reflexivity).
    assert (H5 : layerFeatures noLayers "channels" = [])
      by (vm_compute; reflexivity).
    run_checks. reflexivity. }
  split; [exact Hzone|].
  intros site idx w2. eexists _, _. split; [reflexivity|].
  cbn [riskLevel riskScore site_violations]. rewrite Hzone.
  repeat split.
Qed.

End NoData.

Lemma no_layers_no_risk_witness :
  exists layers w',
    loadGISLayers
      (H := desk (fun _ _ => inr stripPrediction) (fun _ => inr stripBuildings))
      startWorld = (inr layers, w') /\
    checkProtectedZone (H := gridTurf) 17.42 78.47 layers =
    mkZoneResults false false false false false [].
Proof.
  destruct (no_layers_no_risk
              (H := desk (fun _ _ => inr stripPrediction)
                         (fun _ => inr stripBuildings))
              (H0 := gridTurf) startWorld)
    as (layers & w' & Hrun & _ & Hzone & _).
  - intros path. reflexivity.
  - exists layers, w'. split; [exact Hrun | apply Hzone].
Defined.

(** ** Every run of the detection *)

Lemma max_left (a b : Q) : (a <= Js.max a b)%Q.
Proof.
  unfold Js.max. destruct (Js.lt a b) eqn:Hlt.
  - apply lt_true in Hlt. apply Qlt_le_weak. exact Hlt.
  - apply Qle_refl.
Qed.

Lemma fold_max_start (values : list Q) (start : Q) :
  (start <= fold_left (fun a b => Js.max a b) values start)%Q.
Proof.
  revert start. induction values as [|v rest IH]; intros start; simpl.
  - apply Qle_refl.
  - eapply Qle_trans; [apply max_left | apply IH].
Qed.

Lemma fold_max_elem (values : list Q) (start v : Q) :
  v ∈ values -> (v <= fold_left (fun a b => Js.max a b) values start)%Q.
Proof.
  revert start. induction values as [|u rest IH]; intros start Hin.
  - apply elem_of_nil in Hin. destruct Hin.
  - apply elem_of_cons in Hin as [-> | Hin]; simpl.
    + eapply Qle_trans; [apply max_floor | apply fold_max_start].
    + apply IH. exact Hin.
Qed.

Lemma quiet_or_loud (data : list Q) :
  Forall (fun p => (p <= 0.5)%Q) data \/ exists p, p ∈ data /\ (0.5 < p)%Q.
Proof.
  induction data as [|p rest [Hquiet | (q & Hq & Hloud)]].
  - left. constructor.
  - destruct (Qlt_le_dec 0.5 p) as [Hlt | Hle].
    + right. exists p. split; [left | exact Hlt].
    + left. constructor; assumption.
  - right. exists q. split; [right; exact Hq | exact Hloud].
Qed.

Lemma regions_confidence (prediction : Prediction) :
  regions (postprocessChangeMask prediction) <> [] ->
  (0.5 < overallConfidence (postprocessChangeMask prediction))%Q.
Proof.
  unfold postprocessChangeMask, overallConfidence.
  destruct (predictionData prediction) as [data|];
    cbn [regions mask_confidence]; [|intros Hne; destruct Hne; reflexivity].
  intros Hne. destruct (quiet_or_loud data) as [Hquiet | (p & Hp & Hloud)].
  - destruct Hne. apply findChangeRegions_quiet. intros idx.
    apply greater_quiet. exact Hquiet.
  - eapply Qlt_le_trans; [exact Hloud | apply fold_max_elem; exact Hp].
Qed.

Section EveryRun.
Context `{Collaborators}.

Lemma mapM_toChange_world (before after : Image) (center : LatLng)
    (buildings : list Building) :
  forall (idx : nat) (w : World),
  exists cs w',
    mapM (toChange before after center) buildings idx w = (inr cs, w') /\
    stored w' = stored w /\ events w' = events w /\
    length cs = length buildings /\
    Forall (fun c => detectionMethod c = mlMethod) cs.
Proof.
  induction buildings as [|b rest IH]; intros idx w.
  - exists [], w. repeat split. constructor.
  - cbn [mapM]. unfold toChange at 1.
    destruct (building_id b) as [[|ch name]|]; run_world.
    all: match goal with
         | |- context [mapM _ _ (S ?i) ?w1] =>
             destruct (IH (S i) w1) as (cs & w' & -> & Hst & Hev & Hlen & Hall)
         end.
    all: eexists _, w'; split; [reflexivity|];
      split; [exact Hst|]; split; [exact Hev|];
      split; [cbn [length]; rewrite Hlen; reflexivity|];
      constructor; [reflexivity | exact Hall].
Qed.

Lemma mapM_fallbackChange_world (before after : Image) (center : LatLng)
    (items : list nat) :
  forall (idx : nat) (w : World),
  exists cs w',
    mapM (fallbackChange before after center) items idx w = (inr cs, w') /\
    stored w' = stored w /\ events w' = events w /\
    length cs = length items /\
    Forall (fun c => detectionMethod c = "Fallback") cs.
Proof.
  induction items as [|i rest IH]; intros idx w.
  - exists [], w. repeat split. constructor.
  - cbn [mapM]. unfold fallbackChange at 1. run_world.
    match goal with
    | |- context [mapM _ _ (S ?k) ?w1] =>
        destruct (IH (S k) w1) as (cs & w' & -> & Hst & Hev & Hlen & Hall)
    end.
    eexists _, w'. split; [reflexivity|].
    split; [exact Hst|]. split; [exact Hev|].
    split; [cbn [length]; rewrite Hlen; reflexivity|].
    constructor; [reflexivity | exact Hall].
Qed.

Lemma fallbackDetection_runs (before after : Image) (center : LatLng)
    (w : World) :
  exists result w',
    fallbackDetection before after center w = (inr result, w') /\
    stored w' = stored w /\
    events w' = events w ++ [Delay 2000] /\
    method result = fallbackMethod /\
    (hasChange result = true \/ changes result = []) /\
    Forall (fun c => detectionMethod c = "Fallback") (changes result) /\
    (0.4 <= confidence result)%Q /\
    (hasChange result = false \/ 0.5 < confidence result)%Q.
Proof.
  unfold fallbackDetection. run_world.
  destruct (Js.gt (random (drawn w)) 0.6) eqn:Hgt; cbn [negb].
  - match goal with
    | |- context [mapM ?f ?items ?i ?w2] =>
        destruct (mapM_fallbackChange_world before after center items i w2)
          as (cs & w3 & -> & Hst & Hev & _ & Hall)
    end.
    cbn [stored events] in Hst, Hev.
    assert (Hp : (0.6 < random (drawn w))%Q).
    { unfold Js.gt in Hgt. apply negb_true_iff in Hgt.
      apply Qnot_le_lt. intros Hle. apply Qle_bool_iff in Hle. congruence. }
    eexists _, _. split; [reflexivity|].
    cbn [stored events method hasChange changes confidence].
    repeat split; try assumption; try reflexivity.
    + left. reflexivity.
    + lra.
    + right. lra.
  - apply gt_false in Hgt.
    eexists _, _. split; [reflexivity|].
    cbn [stored events method hasChange changes confidence].
    repeat split; try reflexivity.
    + right. reflexivity.
    + constructor.
    + lra.
    + left. reflexivity.
Qed.

Lemma mlDetection_runs (before after : Image) (center : LatLng) (w : World) :
  (exists e w',
     mlDetection before after center w = (inl e, w') /\
     stored w' = stored w) \/
  (exists result w',
     mlDetection before after center w = (inr result, w') /\
     stored w' = stored w /\
     method result = mlMethod /\
     (hasChange result = true \/ changes result = []) /\
     Forall (fun c => detectionMethod c = mlMethod) (changes result) /\
     (0.4 <= confidence result)%Q /\
     (hasChange result = false \/ 0.5 < confidence result)%Q).
Proof.
  unfold mlDetection, detectChangesWithUNet.
  run_world.
  destruct (changeModel before after) as [e|prediction]; run_world.
  { left. eexists _, _. split; reflexivity. }
  destruct (Z.of_nat (length (regions (postprocessChangeMask prediction)))
            =? 0) eqn:Hzero.
  { right. eexists _, _. split; [reflexivity|].
    cbn [stored method hasChange changes confidence].
    repeat split; try reflexivity.
    - right. reflexivity.
    - constructor.
    - discriminate.
    - left. reflexivity. }
  rewrite (detectBuildings_in_regions _ _ _ Hzero). cbv zeta.
  destruct (detectionModel after) as [e|buildings]; run_world.
  { left. eexists _, _. split; reflexivity. }
  match goal with
  | |- context [mapM _ ?bs 0%nat ?w1] =>
      destruct (mapM_toChange_world before after center bs 0%nat w1)
        as (cs & w2 & -> & Hst & _ & _ & Hall)
  end.
  cbn [stored] in Hst.
  assert (Hconf : (0.5 < overallConfidence (postprocessChangeMask prediction))%Q).
  { apply regions_confidence. intros Hnil. rewrite Hnil in Hzero.
    discriminate. }
  right. eexists _, _. split; [reflexivity|].
  cbn [stored method hasChange changes confidence].
  repeat split; try assumption; try reflexivity.
  - left. reflexivity.
  - lra.
  - right. exact Hconf.
Qed.

Lemma detectChanges_runs (before after : Image) (center : LatLng) (w : World) :
  exists result w',
    detectChanges before after center w = (inr result, w') /\
    stored w' = stored w /\
    (hasChange result = true \/ changes result = []) /\
    ((method result = mlMethod /\
      Forall (fun c => detectionMethod c = mlMethod) (changes result)) \/
     (method result = fallbackMethod /\
      Forall (fun c => detectionMethod c = "Fallback") (changes result))) /\
    (0.4 <= confidence result)%Q /\
    (hasChange result = false \/ 0.5 < confidence result)%Q.
Proof.
  unfold detectChanges, tryCatch.
  destruct (mlDetection_runs before after center w)
    as [(e & w1 & -> & Hst1)
       | (result & w1 & -> & Hst & Hm & Hch & Hall & Hlo & Hhi)].
  - destruct (fallbackDetection_runs before after center w1)
      as (result & w2 & -> & Hst & _ & Hm & Hch & Hall & Hlo & Hhi).
    exists result, w2. split; [reflexivity|].
    split; [congruence|]. split; [exact Hch|].
    split; [right; split; assumption|]. split; assumption.
  - exists result, w1. split; [reflexivity|].
    split; [exact Hst|]. split; [exact Hch|].
    split; [left; split; assumption|]. split; assumption.
Qed.

(** X12.  [detectChanges] never throws, whatever the models do, and leaves
    the storage alone.  Its result carries the label of the model path with
    every change labelled so, or the label of the fallback with every
    change labelled "Fallback"; a result without change has no changes. *)
Theorem detectChanges_total (before after : Image) (center : LatLng)
    (w : World) :
  exists result w',
    detectChanges before after center w = (inr result, w') /\
    stored w' = stored w /\
    (hasChange result = true \/ changes result = []) /\
    ((method result = mlMethod /\
      Forall (fun c => detectionMethod c = mlMethod) (changes result)) \/
     (method result = fallbackMethod /\
      Forall (fun c => detectionMethod c = "Fallback") (changes result))).
Proof.
  destruct (detectChanges_runs before after center w)
    as (result & w' & Hrun & Hst & Hch & Hlab & _).
  exists result, w'. auto.
Qed.

(** X13.  The confidence [detectChanges] reports is at least 0.4 on every
    run, and above 0.5 whenever it reports a change: 0.95 after an empty
    mask, the largest value of the prediction when regions were found,
    and the draw or its complement in the fallback. *)
Theorem detectChanges_confidence (before after : Image) (center : LatLng)
    (w : World) :
  exists result w',
    detectChanges before after center w = (inr result, w') /\
    (0.4 <= confidence result)%Q /\
    (hasChange result = false \/ 0.5 < confidence result)%Q.
Proof.
  destruct (detectChanges_runs before after center w)
    as (result & w' & Hrun & _ & _ & _ & Hlo & Hhi).
  exists result, w'. auto.
Qed.

(** X14.  A change can be reported with no change record: when the mask has
    regions and no detection survives the filter, the result says
    [hasChange: true] with an empty list and a count of 0 buildings. *)
Theorem detectChanges_change_without_record (before after : Image)
    (center : LatLng) (w : World) (prediction : Prediction)
    (buildings : list Building) :
  changeModel before after = inr prediction ->
  regions (postprocessChangeMask prediction) <> [] ->
  detectionModel after = inr buildings ->
  filterBuildingsInChangeRegions buildings
    (regions (postprocessChangeMask prediction)) = [] ->
  exists result w',
    detectChanges before after center w = (inr result, w') /\
    hasChange result = true /\ changes result = [] /\
    method result = mlMethod /\ buildingsDetected result = Some 0 /\
    changeRegions result =
      Some (Z.of_nat (length (regions (postprocessChangeMask prediction)))).
Proof.
  intros Hmodel Hregions Hdetect Hnone.
  assert (Hzero : (Z.of_nat
                     (length (regions (postprocessChangeMask prediction)))
                   =? 0) = false).
  { apply Z.eqb_neq.
    destruct (regions (postprocessChangeMask prediction));
      [destruct Hregions; reflexivity | cbn [length]; lia]. }
  unfold detectChanges, tryCatch, mlDetection, detectChangesWithUNet.
  run_world. rewrite Hmodel. run_world. rewrite Hzero.
  rewrite (detectBuildings_in_regions _ _ _ Hzero). cbv zeta.
  rewrite Hdetect. run_world. rewrite Hnone. cbn [mapM]. run_world.
  eexists _, _. split; [reflexivity|]. repeat split.
Qed.

End EveryRun.

Lemma detectChanges_change_without_record_witness :
  exists result w',
    detectChanges
      (H := desk (fun _ _ => inr stripPrediction) (fun _ => inr []))
      beforeShot afterShot (mkLatLng 17.4 78.5) startWorld = (inr result, w')
    /\ hasChange result = true /\ changes result = [].
Proof.
  destruct (detectChanges_change_without_record
              (H := desk (fun _ _ => inr stripPrediction) (fun _ => inr []))
              beforeShot afterShot (mkLatLng 17.4 78.5) startWorld
              stripPrediction [])
    as (result & w' & Hrun & Hch & Hnone & _).
  - reflexivity.
  - vm_compute. discriminate.
  - reflexivity.
  - reflexivity.
  - exists result, w'. auto.
Defined.

(** ** The analysis of an accepted input *)

Lemma within_nonzero (lat lng : Q) :
  isWithinHyderabadRegion lat lng = true ->
  falsy (Some lat) || falsy (Some lng) = false.
Proof.
  unfold isWithinHyderabadRegion. cbn [bounds south north west east].
  rewrite !andb_true_iff, !ge_true, !le_true.
  intros [[[Hs _] Hw] _]. unfold falsy. apply orb_false_iff.
  split; apply not_true_iff_false; intros Hz; apply Qeq_bool_iff in Hz; lra.
Qed.

Section AcceptedInput.
Context `{Collaborators} `{Turf}.

Lemma analyzeSite_accepted (s : string) (lat lng radius : Q)
    (historicalDate : option string) (w : World) :
  accepted s lat lng ->
  analyzeSite (Some s) radius historicalDate w =
  runAnalysis lat lng historicalDate w.
Proof.
  intros (first & second & Hsplit & Hlat & Hlng & Hin). unfold analyzeSite.
  rewrite (parseCoordinates_parts s first second Hsplit), Hlat, Hlng.
  rewrite (within_nonzero lat lng Hin), Hin. reflexivity.
Qed.

Lemma mapM_processDetectedSite (layers : gmap string FeatureCollection)
    (found : list Change) :
  forall (idx : nat) (w : World),
  exists sites w',
    mapM (fun change => processDetectedSite change layers) found idx w =
      (inr sites, w') /\
    stored w' = stored w /\ events w' = events w /\
    Forall2 (fun c s => site_change s = c /\ status s = "PENDING")
      found sites.
Proof.
  induction found as [|c rest IH]; intros idx w.
  - exists [], w. repeat split. constructor.
  - cbn [mapM]. unfold processDetectedSite at 1. run_world.
    match goal with
    | |- context [mapM _ _ (S ?k) ?w1] =>
        destruct (IH (S k) w1) as (sites & w' & -> & Hst & Hev & Hall)
    end.
    eexists _, w'. split; [reflexivity|].
    split; [exact Hst|]. split; [exact Hev|].
    constructor; [split; reflexivity | exact Hall].
Qed.

Ltac request_imagery :=
  unfold getHistoricalImagery, getCurrentImagery;
  unfold bind at 1; unfold bind at 1; unfold dateNow at 1;
  unfold bind at 1; unfold emit at 1; unfold ret at 1;
  unfold bind at 1; unfold bind at 1; unfold dateNow at 1;
  unfold bind at 1; unfold emit at 1; unfold ret at 1;
  cbn [drawn ticks events stored].

(** X15.  Whenever [analyzeSite] returns a result, the input was read as
    a point of the service region, both images arrived, and the result
    carries their addresses.  Without change it has no sites and the
    storage is as before; with a change its sites are all PENDING, and
    the storage holds the sites it held followed by the new ones:
    nothing stored is removed or altered. *)
Theorem analyzeSite_appends (coordinates : option string) (radius : Q)
    (historicalDate : option string) (w w' : World)
    (result : AnalysisResult) :
  analyzeSite coordinates radius historicalDate w = (inr result, w') ->
  exists lat lng before after,
    parseCoordinates coordinates = (Some lat, Some lng) /\
    isWithinHyderabadRegion lat lng = true /\
    historicalImagery (now (ticks w)) lat lng historicalDate 2006
      = inr before /\
    currentImagery (now (S (ticks w))) lat lng = inr after /\
    result_beforeImage result = url before /\
    result_afterImage result = url after /\
    ((result_hasChange result = false /\ result_sites result = None /\
      stored w' = stored w) \/
     (result_hasChange result = true /\
      exists sites,
        result_sites result = Some sites /\
        stored w' = Some (default [] (stored w) ++ sites) /\
        Forall (fun site => status site = "PENDING") sites)).
Proof.
  unfold analyzeSite.
  destruct (parseCoordinates coordinates) as [parsedLat parsedLng].
  destruct (falsy parsedLat || falsy parsedLng); [discriminate|].
  destruct parsedLat as [lat|], parsedLng as [lng|]; try discriminate.
  destruct (isWithinHyderabadRegion lat lng) eqn:Hin; cbn [negb];
    [|discriminate].
  unfold runAnalysis.
  destruct (loadGISLayers_runs w) as (layers & fetched & Hload & _).
  unfold bind at 1. rewrite Hload. request_imagery.
  unfold bind at 1.
  destruct (historicalImagery (now (ticks w)) lat lng historicalDate 2006)
    as [e | before] eqn:Hbefore; cbn [liftExn]; [discriminate|].
  unfold ret at 1. unfold bind at 1.
  destruct (currentImagery (now (S (ticks w))) lat lng)
    as [e | after] eqn:Hafter; cbn [liftExn]; [discriminate|].
  unfold ret at 1. unfold bind at 1.
  match goal with
  | |- context [detectChanges before after ?c ?w1] =>
      destruct (detectChanges_runs before after c w1)
        as (detection & w2 & -> & Hst & Hch & _)
  end.
  cbn [stored] in Hst.
  destruct (hasChange detection) eqn:Hhas; cbn [negb].
  - unfold bind at 1.
    destruct (mapM_processDetectedSite layers (changes detection) 0%nat w2)
      as (sites & w3 & -> & Hst3 & _ & Hall).
    unfold getDetectedSites, setDetectedSites. run_world.
    intros [= <- <-]. exists lat, lng, before, after.
    cbn [result_beforeImage result_afterImage result_hasChange result_sites
         stored].
    split; [reflexivity|]. split; [exact Hin|]. split; [exact Hbefore|].
    split; [exact Hafter|]. split; [reflexivity|]. split; [reflexivity|].
    right. split; [reflexivity|]. exists sites. split; [reflexivity|].
    split; [rewrite Hst3, Hst; reflexivity|].
    clear -Hall. induction Hall as [|c site cs sites [_ Hp] _ IH];
      constructor; assumption.
  - unfold ret. intros [= <- <-]. exists lat, lng, before, after.
    cbn [result_beforeImage result_afterImage result_hasChange result_sites
         stored].
    split; [reflexivity|]. split; [exact Hin|]. split; [exact Hbefore|].
    split; [exact Hafter|]. split; [reflexivity|]. split; [reflexivity|].
    left. split; [reflexivity|]. split; [reflexivity|]. exact Hst.
Qed.

(** X16.  When one of the two images cannot be fetched the analysis
    throws that error: the layers were fetched, both images asked for
    and the clock read twice, once by each request, but no model was
    called and nothing was stored.  The fallback of the detection is not
    reached.  (When both requests fail, which error [Promise.all] passes
    on depends on their timing.) *)
Theorem analyzeSite_imagery_fails (s : string) (lat lng radius : Q)
    (historicalDate : option string) (e : Exn) (w : World) :
  accepted s lat lng ->
  (historicalImagery (now (ticks w)) lat lng historicalDate 2006 = inl e /\
   exists after, currentImagery (now (S (ticks w))) lat lng = inr after) \/
  (exists before,
     historicalImagery (now (ticks w)) lat lng historicalDate 2006
       = inr before /\
     currentImagery (now (S (ticks w))) lat lng = inl e) ->
  exists fetched,
    analyzeSite (Some s) radius historicalDate w =
      (inl e,
       mkWorld (drawn w) (S (S (ticks w)))
         (events w ++ fetched ++
          [HistoricalImagery lat lng historicalDate 2006;
           CurrentImagery lat lng])
         (stored w)) /\
    Forall isFetch fetched.
Proof.
  intros Hok Hfail.
  rewrite (analyzeSite_accepted s lat lng radius historicalDate w Hok).
  unfold runAnalysis.
  destruct (loadGISLayers_runs w) as (layers & fetched & Hload & Hall & _).
  exists fetched. split; [|exact Hall].
  unfold bind at 1. rewrite Hload. request_imagery.
  unfold bind at 1.
  destruct Hfail as [[Hbefore _] | (before & Hbefore & Hafter)].
  - rewrite Hbefore. cbn [liftExn]. unfold throw.
    rewrite <- !app_assoc. reflexivity.
  - rewrite Hbefore. cbn [liftExn]. unfold ret at 1.
    unfold bind at 1. rewrite Hafter. cbn [liftExn]. unfold throw.
    rewrite <- !app_assoc. reflexivity.
Qed.

End AcceptedInput.

Lemma analyzeSite_appends_witness :
  exists result w',
    analyzeSite
      (H := desk (fun _ _ => inr stripPrediction) (fun _ => inr stripBuildings))
      (H0 := gridTurf) (Some "17.4, 78.5") 2 None startWorld
    = (inr result, w') /\
    result_beforeImage result = Some "before.png" /\
    result_afterImage result = Some "after.png".
Proof.
  destruct (analyzeSite
              (H := desk (fun _ _ => inr stripPrediction)
                         (fun _ => inr stripBuildings))
              (H0 := gridTurf) (Some "17.4, 78.5") 2 None startWorld)
    as [[e | result] w'] eqn:Hrun; [vm_compute in Hrun; discriminate Hrun|].
  destruct (analyzeSite_appends
              (H := desk (fun _ _ => inr stripPrediction)
                         (fun _ => inr stripBuildings))
              (H0 := gridTurf) (Some "17.4, 78.5") 2 None startWorld w'
              result Hrun)
    as (lat & lng & before & after & _ & _ & Hbefore & Hafter & Hb & Ha & _).
  exists result, w'. split; [reflexivity|].
  injection Hbefore as <-. injection Hafter as <-.
  split; [exact Hb | exact Ha].
Defined.

Lemma analyzeSite_imagery_fails_witness :
  exists fetched,
    analyzeSite (H := deskNoArchive) (H0 := gridTurf)
      (Some "17.4, 78.5") 2 None startWorld
    = (inl noArchive,
       mkWorld 0 2
         (fetched ++ [HistoricalImagery 17.4 78.5 None 2006;
                      CurrentImagery 17.4 78.5])
         None) /\
    Forall isFetch fetched.
Proof.
  destruct (analyzeSite_imagery_fails (H := deskNoArchive) (H0 := gridTurf)
              "17.4, 78.5" 17.4 78.5 2 None noArchive startWorld)
    as (fetched & Hrun & Hall).
  - exists "17.4", " 78.5". split; [reflexivity|]. split; [reflexivity|].
    split; reflexivity.
  - left. split; [reflexivity | exists afterShot; reflexivity].
  - exists fetched. split; [exact Hrun | exact Hall].
Defined.

(** ** The stored sites *)

Lemma findIndex_None {A} (test : A -> bool) (xs : list A) :
  findIndex test xs = None <-> List.find test xs = None.
Proof.
  induction xs as [|a rest IH]; simpl; [tauto|].
  destruct (test a); [split; discriminate|].
  destruct (findIndex test rest); simpl.
  - split; [discriminate|]. intros Hf. apply IH in Hf. discriminate.
  - split; [intros _; apply IH; reflexivity | reflexivity].
Qed.

Lemma findIndex_Some {A} (test : A -> bool) (xs : list A) (i : nat) :
  findIndex test xs = Some i ->
  exists a, xs !! i = Some a /\ List.find test xs = Some a /\ test a = true.
Proof.
  revert i. induction xs as [|a rest IH]; intros i; simpl; [discriminate|].
  destruct (test a) eqn:Ht.
  - intros [= <-]. exists a. auto.
  - destruct (findIndex test rest) as [j|]; simpl; [|discriminate].
    intros [= <-]. destruct (IH j eq_refl) as (b & Hb & Hf & Hb').
    exists b. auto.
Qed.

Lemma find_alter_first {A} (test : A -> bool) (f : A -> A) (xs : list A)
    (i : nat) (a : A) :
  findIndex test xs = Some i -> xs !! i = Some a -> test (f a) = true ->
  List.find test (alter f i xs) = Some (f a) /\
  alter f i xs !! i = Some (f a).
Proof.
  revert i. induction xs as [|b rest IH]; intros i; simpl; [discriminate|].
  destruct (test b) eqn:Ht.
  - intros [= <-] [= ->] Hfa. simpl. rewrite Hfa. auto.
  - destruct (findIndex test rest) as [j|]; simpl; [|discriminate].
    intros [= <-] Ha Hfa. simpl. rewrite Ht. apply (IH j eq_refl Ha Hfa).
Qed.

Lemma find_alter_other {A} (test : A -> bool) (f : A -> A) (xs : list A)
    (i : nat) (a : A) :
  xs !! i = Some a -> test a = false -> test (f a) = false ->
  List.find test (alter f i xs) = List.find test xs.
Proof.
  revert i. induction xs as [|b rest IH]; intros i Ha Hta Htf;
    [reflexivity|].
  destruct i as [|i]; simpl in *.
  - injection Ha as ->. rewrite Hta, Htf. reflexivity.
  - destruct (test b); [reflexivity|]. apply (IH i Ha Hta Htf).
Qed.

(** X17.  Updating a site that is not stored returns null and writes
    nothing.  Updating a stored one changes the first site of that
    identifier: it gets the status, the remarks and the date, keeps its
    other fields, is returned, and is what a lookup of the identifier
    finds afterwards; the number of stored sites stays, and lookups of
    other identifiers find what they found. *)
Theorem updateSiteStatus_lookup (id status remarks : string) (stamp : Z)
    (store : option (list StoredSite)) :
  (getSiteById id store = None ->
   updateSiteStatus id status remarks stamp store = (None, store)) /\
  (forall old : StoredSite,
     getSiteById id store = Some old ->
     exists sites',
       updateSiteStatus id status remarks stamp store =
         (Some (withStatus status remarks stamp old), Some sites') /\
       getSiteById id (Some sites') =
         Some (withStatus status remarks stamp old) /\
       length sites' = length (sitesOf store) /\
       (forall other : string,
          other <> id ->
          getSiteById other (Some sites') = getSiteById other store)).
Proof.
  unfold getSiteById, updateSiteStatus. cbv zeta. split.
  - intros Hnone. apply findIndex_None in Hnone. rewrite Hnone. reflexivity.
  - intros old Hold.
    destruct (findIndex (fun site => String.eqb (siteId site) id)
                (sitesOf store)) as [index|] eqn:Hidx.
    + destruct (findIndex_Some _ _ _ Hidx) as (a & Ha & Hfind & Hid).
      rewrite Hfind in Hold. injection Hold as ->.
      destruct (find_alter_first _ (withStatus status remarks stamp)
                  _ _ old Hidx Ha Hid) as [Hfound Hat].
      eexists. split; [rewrite Hat; reflexivity|].
      split; [exact Hfound|]. split; [apply length_alter|].
      intros other Hother. cbn [sitesOf default].
      apply (find_alter_other _ _ _ index old Ha).
      * apply String.eqb_neq. apply String.eqb_eq in Hid.
        intros Heq. apply Hother. congruence.
      * apply String.eqb_neq. apply String.eqb_eq in Hid.
        intros Heq. apply Hother. unfold siteId in *. cbn in Heq. congruence.
    + apply findIndex_None in Hidx. congruence.
Qed.

Lemma updateSiteStatus_lookup_witness :
  exists sites',
    updateSiteStatus "building_0" "RESOLVED" "demolished" 1700000000999
      ledger =
      (Some (withStatus "RESOLVED" "demolished" 1700000000999
               (plot "building_0" "HIGH" "Hyderabad")), Some sites') /\
    getSiteById "building_1" (Some sites') = getSiteById "building_1" ledger
    /\ updateSiteStatus "building_7" "RESOLVED" "x" 0 ledger = (None, ledger).
Proof.
  destruct (updateSiteStatus_lookup "building_0" "RESOLVED" "demolished"
              1700000000999 ledger) as [_ Hsome].
  destruct (Hsome (plot "building_0" "HIGH" "Hyderabad") eq_refl)
    as (sites' & Hrun & _ & _ & Hother).
  exists sites'. split; [exact Hrun|]. split.
  - apply Hother. discriminate.
  - destruct (updateSiteStatus_lookup "building_7" "RESOLVED" "x" 0 ledger)
      as [Hnone _].
    apply Hnone. reflexivity.
Defined.

Lemma find_filter_other (test keep : StoredSite -> bool)
    (sites : list StoredSite) :
  (forall s, test s = true -> keep s = true) ->
  List.find test (List.filter keep sites) = List.find test sites.
Proof.
  intros Himp. induction sites as [|s rest IH]; simpl; [reflexivity|].
  destruct (test s) eqn:Ht.
  - rewrite (Himp s Ht). simpl. rewrite Ht. reflexivity.
  - destruct (keep s); simpl; [rewrite Ht|]; exact IH.
Qed.

Lemma filter_sublist {A} (keep : A -> bool) (xs : list A) :
  sublist (List.filter keep xs) xs.
Proof.
  induction xs as [|a rest IH]; simpl; [constructor|].
  destruct (keep a); [apply sublist_skip | apply sublist_cons]; exact IH.
Qed.

Lemma filter_twice {A} (keep : A -> bool) (xs : list A) :
  List.filter keep (List.filter keep xs) = List.filter keep xs.
Proof.
  induction xs as [|a rest IH]; simpl; [reflexivity|].
  destruct (keep a) eqn:Hk; simpl; [rewrite Hk, IH|]; auto.
Qed.

(** X18.  Deleting removes every stored site of the identifier, not only the
    first; the other sites stay, in their order.  Afterwards a lookup of
    the identifier finds nothing, other lookups find what they found,
    and deleting again changes nothing. *)
Theorem deleteSite_removes (id : string) (store : option (list StoredSite)) :
  let filtered := (deleteSite id store).1 in
  let store' := (deleteSite id store).2 in
  store' = Some filtered /\
  sublist filtered (sitesOf store) /\
  (forall site : StoredSite,
     site ∈ filtered <-> site ∈ sitesOf store /\ siteId site <> id) /\
  getSiteById id store' = None /\
  (forall other : string,
     other <> id -> getSiteById other store' = getSiteById other store) /\
  deleteSite id store' = (filtered, store').
Proof.
  unfold deleteSite, getSiteById. cbn [fst snd sitesOf default].
  set (sites := default [] store).
  split; [reflexivity|]. split; [apply filter_sublist|]. split.
  { intros site. rewrite !list_elem_of_In, filter_In, negb_true_iff.
    rewrite <- (not_true_iff_false (String.eqb _ _)), String.eqb_eq.
    reflexivity. }
  split.
  { match goal with
    | |- ?found = None => destruct found as [s|] eqn:Hfind; [|reflexivity]
    end.
    apply find_some in Hfind as [Hin Hid]. apply filter_In in Hin as [_ Hne].
    rewrite Hid in Hne. discriminate. }
  split.
  { intros other Hother. apply find_filter_other. intros s Hs.
    apply String.eqb_eq in Hs. apply negb_true_iff, String.eqb_neq.
    congruence. }
  unfold default. cbn [from_option]. unfold Datatypes.id.
  rewrite filter_twice. reflexivity.
Qed.

Lemma deleteSite_removes_witness :
  (deleteSite "building_0" ledger).1 = [plot "building_1" "LOW" "Medchal"] /\
  getSiteById "building_1" (deleteSite "building_0" ledger).2 =
  getSiteById "building_1" ledger.
Proof.
  destruct (deleteSite_removes "building_0" ledger)
    as (_ & _ & _ & _ & Hother & _).
  split; [reflexivity|]. apply Hother. discriminate.
Defined.

Lemma countWhere_cons (test : StoredSite -> bool) (site : StoredSite)
    (sites : list StoredSite) :
  countWhere test (site :: sites) =
  (if test site then 1 else 0) + countWhere test sites.
Proof.
  unfold countWhere. simpl. destruct (test site); cbn [length]; lia.
Qed.

Lemma countWhere_nonneg (test : StoredSite -> bool) (sites : list StoredSite) :
  0 <= countWhere test sites.
Proof. unfold countWhere. lia. Qed.

Lemma fold_countDistrict (sites : list StoredSite) (d : string) :
  forall acc : gmap string Z,
    fold_left countDistrict sites acc !! d =
    let n :=
      countWhere (fun s => String.eqb (district (stored_site s)) d) sites in
    if n =? 0 then acc !! d else Some (default 0 (acc !! d) + n).
Proof.
  induction sites as [|site rest IH]; intros acc; [reflexivity|].
  cbn [fold_left]. rewrite IH. cbv zeta. rewrite countWhere_cons.
  pose proof (countWhere_nonneg
                (fun s => String.eqb (district (stored_site s)) d) rest) as Hn.
  set (n := countWhere
              (fun s => String.eqb (district (stored_site s)) d) rest) in *.
  unfold countDistrict. cbv zeta.
  destruct (String.eqb (district (stored_site site)) d) eqn:Hd.
  - apply String.eqb_eq in Hd. rewrite Hd, lookup_insert_eq.
    change (default 0 (Some (default 0 (acc !! d) + 1)))
      with (default 0 (acc !! d) + 1).
    destruct (Z.eqb_spec (1 + n) 0); [lia|].
    destruct (Z.eqb_spec n 0) as [-> | Hne]; f_equal; lia.
  - apply String.eqb_neq in Hd. rewrite lookup_insert_ne by exact Hd.
    rewrite Z.add_0_l. reflexivity.
Qed.

Lemma countWhere_levels (sites : list StoredSite) :
  Forall (fun s => riskLevel (stored_site s) ∈ ["HIGH"; "MEDIUM"; "LOW"])
    sites ->
  countWhere (fun s => String.eqb (riskLevel (stored_site s)) "HIGH") sites +
  countWhere (fun s => String.eqb (riskLevel (stored_site s)) "MEDIUM") sites +
  countWhere (fun s => String.eqb (riskLevel (stored_site s)) "LOW") sites =
  Z.of_nat (length sites).
Proof.
  intros Hall. induction Hall as [|s rest Hs _ IH]; [reflexivity|].
  rewrite !countWhere_cons. cbn [length]. rewrite Nat2Z.inj_succ.
  repeat (apply elem_of_cons in Hs as [-> | Hs]; [cbn; lia|]).
  apply elem_of_nil in Hs. destruct Hs.
Qed.

Lemma countWhere_pending (sites : list StoredSite) :
  Forall (fun s => status (stored_site s) = "PENDING") sites ->
  countWhere (fun s => String.eqb (status (stored_site s)) "PENDING") sites =
  Z.of_nat (length sites).
Proof.
  intros Hall. induction Hall as [|s rest Hs _ IH]; [reflexivity|].
  rewrite !countWhere_cons. cbn [length]. rewrite Nat2Z.inj_succ, Hs.
  cbn. lia.
Qed.

(** X19.  The statistics count every stored site once: [total] is their
    number; the district table holds, for each district that has a site
    and for no other, the number of its sites; the counts by level, and
    the counts by status, add up to at most [total], and to [total] when
    every level, or status, is one of those counted. *)
Theorem getStatistics_counts (store : option (list StoredSite)) :
  let stats := getStatistics store in
  let sites := sitesOf store in
  total stats = Z.of_nat (length sites) /\
  (forall d : string,
     byDistrict stats !! d =
     let n :=
       countWhere (fun s => String.eqb (district (stored_site s)) d) sites in
     if n =? 0 then None else Some n) /\
  HIGH (byRiskLevel stats) + MEDIUM (byRiskLevel stats) +
    LOW (byRiskLevel stats) <= total stats /\
  PENDING (byStatus stats) + UNDER_INVESTIGATION (byStatus stats) +
    ACTION_TAKEN (byStatus stats) + RESOLVED (byStatus stats) <= total stats /\
  (Forall (fun s => riskLevel (stored_site s) ∈ ["HIGH"; "MEDIUM"; "LOW"])
     sites ->
   HIGH (byRiskLevel stats) + MEDIUM (byRiskLevel stats) +
     LOW (byRiskLevel stats) = total stats) /\
  (Forall (fun s => status (stored_site s) = "PENDING") sites ->
   PENDING (byStatus stats) = total stats).
Proof.
  unfold getStatistics. cbv zeta.
  cbn [total byDistrict byRiskLevel byStatus HIGH MEDIUM LOW PENDING
       UNDER_INVESTIGATION ACTION_TAKEN RESOLVED].
  generalize (sitesOf store). intros sites.
  split; [reflexivity|]. split.
  { intros d. rewrite fold_countDistrict. cbv zeta. rewrite lookup_empty.
    cbn [default]. rewrite Z.add_0_l. reflexivity. }
  split.
  { induction sites as [|s rest IH]; [unfold countWhere; cbn; lia|].
    rewrite !countWhere_cons. cbn [length]. rewrite Nat2Z.inj_succ.
    destruct (String.eqb_spec (riskLevel (stored_site s)) "HIGH") as [->|];
      [cbn; lia|].
    destruct (String.eqb_spec (riskLevel (stored_site s)) "MEDIUM") as [->|];
      [cbn; lia|].
    destruct (String.eqb (riskLevel (stored_site s)) "LOW"); lia. }
  split.
  { induction sites as [|s rest IH]; [unfold countWhere; cbn; lia|].
    rewrite !countWhere_cons. cbn [length]. rewrite Nat2Z.inj_succ.
    destruct (String.eqb_spec (status (stored_site s)) "PENDING") as [->|];
      [cbn; lia|].
    destruct (String.eqb_spec (status (stored_site s)) "UNDER_INVESTIGATION")
      as [->|]; [cbn; lia|].
    destruct (String.eqb_spec (status (stored_site s)) "ACTION_TAKEN")
      as [->|]; [cbn; lia|].
    destruct (String.eqb (status (stored_site s)) "RESOLVED"); lia. }
  split; [apply countWhere_levels | apply countWhere_pending].
Qed.

Lemma getStatistics_counts_witness :
  let stats := getStatistics ledger in
  HIGH (byRiskLevel stats) + MEDIUM (byRiskLevel stats) +
    LOW (byRiskLevel stats) = total stats /\
  PENDING (byStatus stats) = total stats /\
  byDistrict stats !! "Hyderabad" = Some 2 /\
  byDistrict stats !! "Vikarabad" = None.
Proof.
  destruct (getStatistics_counts ledger) as (_ & Hd & _ & _ & Hrisk & Hpend).
  split; [|split; [|split]].
  - apply Hrisk. repeat constructor.
  - apply Hpend. repeat constructor.
  - rewrite (Hd "Hyderabad"). reflexivity.
  - rewrite (Hd "Vikarabad"). reflexivity.
Defined.

Lemma filter_and {A} (p q : A -> bool) (xs : list A) :
  List.filter q (List.filter p xs) = List.filter (fun a => p a && q a) xs.
Proof.
  induction xs as [|a rest IH]; simpl; [reflexivity|].
  destruct (p a); simpl; [destruct (q a); rewrite IH; reflexivity | exact IH].
Qed.

Lemma filter_all {A} (xs : list A) : List.filter (fun _ => true) xs = xs.
Proof. induction xs as [|a rest IH]; simpl; [|rewrite IH]; reflexivity. Qed.

Section SearchProperties.
Variable toLowerCase : string -> string.

(** X20.  The four optional filters applied one after the other select the
    stored sites that pass every criterion that is set, in their stored
    order; a criterion that is absent or the empty string selects
    nothing out, so the empty filter object returns every site. *)
Theorem filterSites_passes (filters : Filters)
    (store : option (list StoredSite)) :
  filterSites toLowerCase filters store =
    List.filter (passes toLowerCase filters) (sitesOf store) /\
  sublist (filterSites toLowerCase filters store) (sitesOf store) /\
  filterSites toLowerCase (mkFilters None None None None) store =
    sitesOf store /\
  filterSites toLowerCase
    (mkFilters (Some EmptyString) (Some EmptyString) (Some EmptyString)
       (Some EmptyString)) store = sitesOf store.
Proof.
  assert (Heq : forall f,
            filterSites toLowerCase f store =
            List.filter (passes toLowerCase f) (sitesOf store)).
  { intros f. unfold filterSites, passes. cbv zeta.
    destruct (criterion (filter_riskLevel f)),
      (criterion (filter_district f)), (criterion (filter_status f)),
      (criterion (filter_search f));
      repeat rewrite filter_and;
      first [ symmetry; apply filter_all
            | apply List.filter_ext; intros site; cbn [andb];
              repeat rewrite andb_assoc; repeat rewrite andb_true_r;
              reflexivity ]. }
  split; [apply Heq|]. split; [rewrite Heq; apply filter_sublist|].
  split; rewrite Heq; apply filter_all.
Qed.

End SearchProperties.

Section ProcessedStatistics.
Context `{Collaborators} `{Turf}.

Lemma mapM_processDetectedSite_levels
    (layers : gmap string FeatureCollection) (found : list Change) :
  forall (idx : nat) (w w' : World) (sites : list Site),
    mapM (fun change => processDetectedSite change layers) found idx w =
      (inr sites, w') ->
    length sites = length found /\
    Forall (fun s => status s = "PENDING" /\
                     riskLevel s ∈ ["HIGH"; "MEDIUM"; "LOW"]) sites.
Proof.
  induction found as [|c rest IH]; intros idx w w' sites.
  - cbn. intros [= <- _]. split; [reflexivity | constructor].
  - cbn [mapM]. unfold processDetectedSite at 1. run_world.
    match goal with
    | |- context [mapM ?f rest ?k ?w1] =>
        destruct (mapM f rest k w1) as [[e|sites1] w2] eqn:Hrest
    end; [discriminate|].
    intros [= <- _]. destruct (IH _ _ _ _ Hrest) as [Hlen Hall].
    split; [cbn [length]; rewrite Hlen; reflexivity|].
    constructor; [|exact Hall]. cbn [status riskLevel].
    split; [reflexivity|]. rewrite calculateRiskLevel_eq. cbn [level].
    unfold levelOf.
    destruct (10 <=? _); [left|]. destruct (5 <=? _); [right; left|].
    right; right; left.
Qed.

(** X21.  The sites assembled from the changes of one analysis, once stored,
    count as one PENDING site a change in the statistics, each under one
    of the three levels. *)
Theorem processed_sites_statistics
    (layers : gmap string FeatureCollection) (found : list Change)
    (idx : nat) (w w' : World) (sites : list Site) :
  mapM (fun change => processDetectedSite change layers) found idx w =
    (inr sites, w') ->
  let stats := getStatistics (Some (asStored <$> sites)) in
  total stats = Z.of_nat (length found) /\
  PENDING (byStatus stats) = total stats /\
  HIGH (byRiskLevel stats) + MEDIUM (byRiskLevel stats) +
    LOW (byRiskLevel stats) = total stats.
Proof.
  intros Hrun. apply mapM_processDetectedSite_levels in Hrun as [Hlen Hall].
  unfold getStatistics. cbv zeta.
  cbn [total byRiskLevel byStatus HIGH MEDIUM LOW PENDING].
  unfold sitesOf, default. cbn [from_option]. unfold Datatypes.id.
  split; [rewrite length_fmap, Hlen; reflexivity|]. split.
  - apply countWhere_pending, Forall_fmap.
    eapply Forall_impl; [exact Hall|]. intros s [Hs _]. exact Hs.
  - apply countWhere_levels, Forall_fmap.
    eapply Forall_impl; [exact Hall|]. intros s [_ Hs]. exact Hs.
Qed.

End ProcessedStatistics.

Lemma processed_sites_statistics_witness :
  exists sites w',
    mapM (fun change =>
            processDetectedSite
              (H := desk (fun _ _ => inr stripPrediction)
                         (fun _ => inr stripBuildings))
              (H0 := gridTurf) change lakeLayers)
         [shed; shed] 0%nat startWorld = (inr sites, w') /\
    total (getStatistics (Some (asStored <$> sites))) = 2.
Proof.
  destruct (mapM (fun change =>
                    processDetectedSite
                      (H := desk (fun _ _ => inr stripPrediction)
                                 (fun _ => inr stripBuildings))
                      (H0 := gridTurf) change lakeLayers)
                 [shed; shed] 0%nat startWorld) as [[e | sites] w'] eqn:Hrun;
    [vm_compute in Hrun; discriminate Hrun|].
  exists sites, w'. split; [reflexivity|].
  apply (processed_sites_statistics
           (H := desk (fun _ _ => inr stripPrediction)
                      (fun _ => inr stripBuildings))
           (H0 := gridTurf) lakeLayers [shed; shed] 0%nat startWorld w' sites
           Hrun).
Defined.

(** ** The cells of the extracted regions *)

Lemma skipCell_false (maskData : list Q) (visited : gset Z)
    (width height px py : Z) :
  skipCell maskData visited width height px py = false ->
  0 <= px < width /\ 0 <= py < height /\
  (py * width + px ∉ visited) /\
  exists v, maskData !! Z.to_nat (py * width + px) = Some v /\ (0.5 <= v)%Q.
Proof.
  unfold skipCell. cbv zeta. rewrite !orb_false_iff.
  intros [[[[[[Hx0 Hx1] Hy0] Hy1] Hlen] Hvis] Hval].
  apply Z.ltb_ge in Hx0, Hy0.
  rewrite Z.geb_leb in Hx1, Hy1, Hlen. apply Z.leb_gt in Hx1, Hy1, Hlen.
  apply bool_decide_eq_false in Hvis. apply lt_false in Hval.
  repeat split; try lia; try assumption.
  unfold maskAt in Hval.
  destruct (maskData !! Z.to_nat (py * width + px)) as [v|] eqn:Hv.
  - exists v. split; [reflexivity | exact Hval].
  - apply lookup_ge_None in Hv.
    assert (0 <= py * width) by (apply Z.mul_nonneg_nonneg; lia). lia.
Qed.

Lemma tightBox_addPixel (region : Region) (px py : Z) :
  tightBox region -> tightBox (addPixel region px py).
Proof.
  unfold tightBox, addPixel. cbn [pixels bbox x y x2 y2].
  intros ((a & Ha & Hxa) & (b & Hb & Hyb) & (c & Hc & Hxc) & (d & Hd & Hyd)).
  repeat split.
  - destruct (Z.min_spec (x (bbox region)) px) as [[_ ->] | [_ ->]].
    + exists a. split; [apply elem_of_app; left; exact Ha | exact Hxa].
    + exists (px, py). split; [apply elem_of_app; right; left | reflexivity].
  - destruct (Z.min_spec (y (bbox region)) py) as [[_ ->] | [_ ->]].
    + exists b. split; [apply elem_of_app; left; exact Hb | exact Hyb].
    + exists (px, py). split; [apply elem_of_app; right; left | reflexivity].
  - destruct (Z.max_spec (x2 (bbox region)) px) as [[_ ->] | [_ ->]].
    + exists (px, py). split; [apply elem_of_app; right; left | reflexivity].
    + exists c. split; [apply elem_of_app; left; exact Hc | exact Hxc].
  - destruct (Z.max_spec (y2 (bbox region)) py) as [[_ ->] | [_ ->]].
    + exists (px, py). split; [apply elem_of_app; right; left | reflexivity].
    + exists d. split; [apply elem_of_app; left; exact Hd | exact Hyd].
Qed.

#[local] Opaque maxPixels.

(** The run of the flood fill, entry by entry: what it adds is a list of
    distinct cells that were not visited, each in the mask with a value of
    at least 0.5 and on the grid of the stack; they are what it adds to
    the visited set; a tight bounding box stays tight. *)
Lemma fillLoop_trace (maskData : list Q) (width height rate : Z)
    (stack : list (Z * Z)) (visited : gset Z) (region : Region) :
  Forall (fun q => Z.divide rate (fst q) /\ Z.divide rate (snd q)) stack ->
  let run := fillLoop maskData width height rate stack visited region in
  exists added,
    pixels run.2 = pixels region ++ added /\
    NoDup added /\
    Forall (fun p =>
              0 <= fst p < width /\ 0 <= snd p < height /\
              (Z.divide rate (fst p) /\ Z.divide rate (snd p)) /\
              (cellIdx width p ∉ visited) /\
              exists v, maskData !! Z.to_nat (cellIdx width p) = Some v /\
                        (0.5 <= v)%Q) added /\
    run.1 = visited ∪ list_to_set (cellIdx width <$> added) /\
    (tightBox region -> tightBox run.2).
Proof.
  funelim (fillLoop maskData width height rate stack visited region);
    intros Hgrid; cbv zeta; try rewrite <- Heqcall; try clear Heqcall;
    cbn [fst snd].
  - exists []. rewrite app_nil_r. split; [reflexivity|].
    split; [constructor|]. split; [constructor|].
    split; [cbn; rewrite (right_id_L ∅ (∪)); reflexivity | auto].
  - exists []. rewrite app_nil_r. split; [reflexivity|].
    split; [constructor|]. split; [constructor|].
    split; [cbn; rewrite (right_id_L ∅ (∪)); reflexivity | auto].
  - apply H. apply Forall_cons in Hgrid as [_ Hgrid]. exact Hgrid.
  - apply Forall_cons in Hgrid as [Hp Hgrid]. cbn [fst snd] in Hp.
    destruct Hp as [Hpx Hpy].
    assert (Hpush : Forall (fun q => Z.divide rate (fst q) /\
                                     Z.divide rate (snd q))
                      (pushNeighbours rest px py rate)).
    { unfold pushNeighbours.
      repeat (apply List.Forall_cons;
              [cbn [fst snd]; split;
               first [ assumption
                     | apply Z.divide_sub_r; [assumption | apply Z.divide_refl]
                     | apply Z.divide_add_r; [assumption | apply Z.divide_refl]
                     ]|]).
      exact Hgrid. }
    destruct (H Hpush) as (added & Hadd & Hnodup & Hall & Hseen & Htight).
    destruct (skipCell_false _ _ _ _ _ _ Heq) as (Hx & Hy & Hfresh & Hval).
    exists ((px, py) :: added). split; [|split; [|split; [|split]]].
    + rewrite Hadd. unfold addPixel. cbn [pixels].
      rewrite <- app_assoc. reflexivity.
    + constructor; [|exact Hnodup].
      intros Hin. rewrite Forall_forall in Hall.
      destruct (Hall _ Hin) as (_ & _ & _ & Hnot & _).
      apply Hnot. unfold cellIdx. cbn [fst snd].
      apply elem_of_union. left. apply elem_of_singleton. reflexivity.
    + constructor.
      * unfold cellIdx. cbn [fst snd].
        split; [exact Hx|]. split; [exact Hy|]. split; [split; assumption|].
        split; [exact Hfresh | exact Hval].
      * eapply Forall_impl; [exact Hall|].
        intros p (Hp1 & Hp2 & Hp3 & Hnot & Hv).
        split; [exact Hp1|]. split; [exact Hp2|]. split; [exact Hp3|].
        split; [|exact Hv].
        intros Hvis. apply Hnot. apply elem_of_union. right. exact Hvis.
    + rewrite Hseen. rewrite fmap_cons. cbn [list_to_set].
      unfold cellIdx at 2. cbn [fst snd].
      rewrite (assoc_L (∪)), (comm_L (∪) visited). reflexivity.
    + intros Ht. apply Htight. apply tightBox_addPixel. exact Ht.
Qed.

Lemma rangeStep_aligned (stop v : Z) :
  v ∈ rangeStep stop sampleRate -> Z.divide sampleRate v.
Proof.
  unfold rangeStep. intros Hin.
  apply list_elem_of_fmap in Hin as (k & -> & _).
  exists (Z.of_nat k). reflexivity.
Qed.

Lemma scanOrder_aligned (width height : Z) (c : Z * Z) :
  c ∈ scanOrder width height ->
  Z.divide sampleRate (fst c) /\ Z.divide sampleRate (snd c).
Proof.
  unfold scanOrder. intros Hin.
  apply list_elem_of_bind in Hin as (py & Hin & Hpy).
  apply list_elem_of_bind in Hin as (px & Hin & Hpx).
  apply list_elem_of_singleton in Hin as ->.
  apply rangeStep_aligned in Hpx, Hpy. cbn [fst snd]. auto.
Qed.

Lemma wellScanned_grow (maskData : list Q) (width height : Z)
    (regions : list Region) (visited seen : gset Z) :
  visited ⊆ seen ->
  wellScanned maskData width height (regions, visited) ->
  wellScanned maskData width height (regions, seen).
Proof.
  intros Hsub (Ha & Hb & Hc). cbn [fst snd] in *.
  split; [|split]; cbn [fst snd].
  - intros r p Hr Hp. destruct (Ha r p Hr Hp) as [Hcell Hvis].
    split; [exact Hcell | apply Hsub; exact Hvis].
  - exact Hb.
  - exact Hc.
Qed.

(** One cell of the scan keeps the state well scanned. *)
Lemma scanCell_well (maskData : list Q) (width height : Z)
    (st : list Region * gset Z) (px py : Z) :
  0 <= px < width -> 0 <= py < height ->
  Z.divide sampleRate px -> Z.divide sampleRate py ->
  wellScanned maskData width height st ->
  wellScanned maskData width height
    (scanCell maskData width height st px py).
Proof.
  intros Hx Hy Hdx Hdy Hwell. unfold scanCell. cbv zeta.
  destruct ((py * width + px <? Z.of_nat (length maskData)) &&
            Js.gt (default 0%Q (maskAt maskData (py * width + px))) 0.5 &&
            negb (bool_decide (py * width + px ∈ st.2))) eqn:Hcond;
    [|exact Hwell].
  apply andb_true_iff in Hcond as [Hcond Hfresh].
  apply andb_true_iff in Hcond as [Hidx Hmask].
  unfold floodFill.
  set (region0 := mkRegion (Z.of_nat (length st.1)) [(px, py)]
                    (mkBBox px py px py)).
  assert (Hskip : skipCell maskData st.2 width height px py = false).
  { unfold skipCell. cbv zeta.
    apply negb_true_iff in Hfresh. rewrite Hfresh, (gt_not_lt _ _ Hmask).
    apply Z.ltb_lt in Hidx.
    replace (px <? 0) with false by (symmetry; apply Z.ltb_ge; lia).
    replace (py <? 0) with false by (symmetry; apply Z.ltb_ge; lia).
    replace (px >=? width) with false
      by (symmetry; rewrite Z.geb_leb; apply Z.leb_gt; lia).
    replace (py >=? height) with false
      by (symmetry; rewrite Z.geb_leb; apply Z.leb_gt; lia).
    replace (py * width + px >=? Z.of_nat (length maskData)) with false
      by (symmetry; rewrite Z.geb_leb; apply Z.leb_gt; lia).
    reflexivity. }
  assert (Hone : (length (pixels region0) < maxPixels)%nat)
    by (cbn [region0 pixels length]; rewrite maxPixels_value; lia).
  pose proof (fillLoop_cons maskData width height sampleRate px py []
                st.2 region0 Hone Hskip) as Hcons.
  pose proof (fillLoop_keeps maskData width height sampleRate
                (pushNeighbours [] px py sampleRate)
                ({[py * width + px]} ∪ st.2) (addPixel region0 px py))
    as Hkeep.
  cbv zeta in Hkeep. rewrite <- Hcons in Hkeep.
  destruct Hkeep as (_ & (added2 & Hadd2) & _).
  pose proof (fillLoop_trace maskData width height sampleRate [(px, py)]
                st.2 region0) as Htrace.
  cbv zeta in Htrace.
  destruct Htrace as (added & Hadd & Hnodup & Hall & Hseen & Htight).
  { constructor; [cbn [fst snd]; auto | constructor]. }
  destruct (fillLoop maskData width height sampleRate [(px, py)] st.2 region0)
    as [seen filled].
  cbn [fst snd] in *.
  unfold addPixel in Hadd2. cbn [region0 pixels app] in Hadd, Hadd2.
  assert (Hadded : added = (px, py) :: added2) by congruence.
  assert (Hsub : st.2 ⊆ seen).
  { rewrite Hseen. apply union_subseteq_l. }
  destruct st as [regions visited]. cbn [fst snd] in *.
  destruct (10 <=? length (pixels filled))%nat;
    [|apply (wellScanned_grow _ _ _ _ visited seen Hsub Hwell)].
  assert (Hin : forall p, p ∈ pixels filled -> p ∈ added).
  { intros p Hp. rewrite Hadd in Hp.
    apply elem_of_cons in Hp as [-> | Hp]; [|exact Hp].
    rewrite Hadded. left. }
  rewrite Forall_forall in Hall.
  destruct Hwell as (Ha & Hb & Hc). cbn [fst snd] in *.
  split; [|split]; cbn [fst snd].
  - intros r p Hr Hp. apply elem_of_app in Hr as [Hr | Hr].
    + destruct (Ha r p Hr Hp) as [Hcell Hvis]. split; [exact Hcell|].
      apply Hsub. exact Hvis.
    + apply list_elem_of_singleton in Hr as ->. apply Hin in Hp.
      destruct (Hall p Hp) as (Hp1 & Hp2 & Hp3 & _ & Hv). split.
      * destruct Hp3 as [Hd1 Hd2]. unfold sampleCell.
        split; [exact Hp1|]. split; [exact Hp2|]. split; [exact Hd1|].
        split; [exact Hd2 | exact Hv].
      * rewrite Hseen. apply elem_of_union. right.
        apply elem_of_list_to_set, list_elem_of_fmap. exists p. auto.
  - intros r Hr. apply elem_of_app in Hr as [Hr | Hr]; [exact (Hb r Hr)|].
    apply list_elem_of_singleton in Hr as ->. split.
    + rewrite Hadd. cbn [tail]. exact Hnodup.
    + apply Htight. unfold tightBox. cbn [region0 pixels bbox x y x2 y2].
      repeat split; exists (px, py); (split; [left | reflexivity]).
  - intros i r Hi.
    destruct (decide (i < length regions)%nat) as [Hlt | Hge].
    + rewrite lookup_app_l in Hi by exact Hlt.
      rewrite take_app_le by lia. exact (Hc i r Hi).
    + rewrite lookup_app_r in Hi by lia.
      destruct (i - length regions)%nat as [|k] eqn:Hk; [|destruct k; discriminate].
      injection Hi as <-.
      assert (i = length regions) as -> by lia.
      rewrite take_app_length.
      intros r' p Hr' Hp Hp'. destruct (Ha r' p Hr' Hp) as [_ Hvis].
      apply Hin in Hp'. destruct (Hall p Hp') as (_ & _ & _ & Hnot & _).
      apply Hnot. exact Hvis.
Qed.

Lemma scanCells_well (maskData : list Q) (width height : Z)
    (cells : list (Z * Z)) :
  (forall c, c ∈ cells ->
     (0 <= fst c < width /\ 0 <= snd c < height) /\
     Z.divide sampleRate (fst c) /\ Z.divide sampleRate (snd c)) ->
  forall st,
    wellScanned maskData width height st ->
    wellScanned maskData width height
      (scanCells maskData width height cells st).
Proof.
  unfold scanCells. induction cells as [|c cells IH]; intros Hcells st Hwell;
    [exact Hwell|].
  cbn [fold_left]. apply IH.
  - intros c' Hc'. apply Hcells. right. exact Hc'.
  - destruct (Hcells c ltac:(left)) as [[Hx Hy] [Hdx Hdy]].
    apply scanCell_well; assumption.
Qed.

Lemma scanMask_well (maskData : list Q) (width height : Z) :
  wellScanned maskData width height (scanMask maskData width height).
Proof.
  rewrite scanMask_cells. apply scanCells_well.
  - intros c Hc. split;
      [exact (scanOrder_bounds width height c Hc)
      |exact (scanOrder_aligned width height c Hc)].
  - split; [|split]; cbn [fst snd].
    + intros r p Hr. apply elem_of_nil in Hr. destruct Hr.
    + intros r Hr. apply elem_of_nil in Hr. destruct Hr.
    + intros i r Hi. destruct i; discriminate.
Qed.

(** X22.  The entries of a region after its first one, the seed, are
    distinct, and every entry is a cell of the sampling grid inside the
    mask whose value is at least 0.5. *)
Theorem findChangeRegions_cells (maskData : list Q) (width height : Z) :
  Forall (fun r =>
            NoDup (tail (pixels r)) /\
            Forall (sampleCell maskData width height) (pixels r))
         (findChangeRegions maskData width height).
Proof.
  unfold findChangeRegions.
  destruct (scanMask_well maskData width height) as (Ha & Hb & _).
  apply Forall_take, Forall_forall. intros r Hr. split.
  - apply (Hb r Hr).
  - apply Forall_forall. intros p Hp. apply (Ha r p Hr Hp).
Qed.

(** X23.  No cell belongs to two of the regions returned. *)
Theorem findChangeRegions_apart (maskData : list Q) (width height : Z)
    (i j : nat) (ri rj : Region) (p : Z * Z) :
  (i < j)%nat ->
  findChangeRegions maskData width height !! i = Some ri ->
  findChangeRegions maskData width height !! j = Some rj ->
  p ∈ pixels ri -> p ∉ pixels rj.
Proof.
  unfold findChangeRegions. intros Hij Hi Hj Hp.
  destruct (scanMask_well maskData width height) as (_ & _ & Hc).
  apply lookup_take_Some in Hi as [Hi _], Hj as [Hj _].
  apply (Hc j rj Hj ri p); [|exact Hp].
  apply list_elem_of_lookup. exists i. rewrite lookup_take_lt by exact Hij.
  exact Hi.
Qed.

Lemma findChangeRegions_apart_witness :
  exists first second,
    findChangeRegions twoStrips 73 1 = [first; second] /\
    (0, 0) ∈ pixels first /\ (0, 0) ∉ pixels second.
Proof.
  destruct (findChangeRegions twoStrips 73 1) as [|first [|second rest]]
    eqn:Hfound; try (vm_compute in Hfound; discriminate Hfound).
  assert (Hrest : rest = [])
    by (vm_compute in Hfound; injection Hfound as _ _ <-; reflexivity).
  subst rest. exists first, second. split; [reflexivity|].
  assert (Hin : (0, 0) ∈ pixels first).
  { vm_compute in Hfound. injection Hfound as <- _. left. }
  split; [exact Hin|].
  apply (findChangeRegions_apart twoStrips 73 1 0 1 first second (0, 0)).
  - lia.
  - rewrite Hfound. reflexivity.
  - rewrite Hfound. reflexivity.
  - exact Hin.
Defined.

(** X24.  The bounding box of a region is the smallest box around its
    entries: every entry lies inside, and each side is met by an entry. *)
Theorem findChangeRegions_tight (maskData : list Q) (width height : Z) :
  Forall (fun r => Forall (inBox (bbox r)) (pixels r) /\ tightBox r)
         (findChangeRegions maskData width height).
Proof.
  destruct (findChangeRegions_invariants maskData width height)
    as (_ & Hbox & _).
  cbv zeta in Hbox. rewrite Forall_forall in Hbox.
  apply Forall_forall. intros r Hr. split; [apply (Hbox r Hr)|].
  unfold findChangeRegions in Hr.
  destruct (scanMask_well maskData width height) as (_ & Hb & _).
  apply elem_of_take in Hr as (i & Hi & _).
  apply (Hb r). apply list_elem_of_lookup. exists i. exact Hi.
Qed.

(** ** What the parser hands to the checks *)

Section ParsedInput.
Context `{Collaborators} `{Turf}.

(** X25.  The parser returns both numbers or neither: never a latitude
    without a longitude.  When it returns them, the input has exactly two parts
    between commas, and the numbers are what [parseFloat] reads in the
    trimmed parts. *)
Theorem parseCoordinates_both_or_neither (input : option string) :
  parseCoordinates input = (None, None) \/
  exists s first second lat lng,
    input = Some s /\ split s = [first; second] /\
    parseFloat (trim first) = Some lat /\
    parseFloat (trim second) = Some lng /\
    parseCoordinates input = (Some lat, Some lng).
Proof.
  destruct input as [s|]; [|left; reflexivity].
  destruct (split s) as [|first [|second [|third rest]]] eqn:Hsplit;
    try (left; apply parseCoordinates_bad_parts; rewrite Hsplit;
         cbn [length]; lia).
  rewrite (parseCoordinates_parts s first second Hsplit).
  destruct (parseFloat (trim first)) as [lat|] eqn:Hlat; [|left; reflexivity].
  destruct (parseFloat (trim second)) as [lng|] eqn:Hlng;
    [|left; reflexivity].
  right. exists s, first, second, lat, lng. auto.
Qed.

(** X26.  A coordinate that reads as 0 is reported as a format error,
    although the input is well formed: the test on the parsed numbers is [!lat],
    which holds for 0 as it does for null.  The region is not consulted
    and nothing runs. *)
Theorem analyzeSite_zero_coordinate (s first second : string)
    (lat lng radius : Q) (historicalDate : option string) (w : World) :
  split s = [first; second] ->
  parseFloat (trim first) = Some lat ->
  parseFloat (trim second) = Some lng ->
  (lat == 0 \/ lng == 0)%Q ->
  analyzeSite (Some s) radius historicalDate w = (inl invalidFormat, w).
Proof.
  intros Hsplit Hlat Hlng Hzero. unfold analyzeSite.
  rewrite (parseCoordinates_parts s first second Hsplit), Hlat, Hlng.
  unfold falsy.
  destruct Hzero as [Hz | Hz]; apply Qeq_bool_iff in Hz; rewrite Hz.
  - reflexivity.
  - rewrite orb_true_r. reflexivity.
Qed.

End ParsedInput.

Lemma analyzeSite_zero_coordinate_witness :
  analyzeSite
    (H := desk (fun _ _ => inr stripPrediction) (fun _ => inr stripBuildings))
    (H0 := gridTurf) (Some "0, 78.5") 2 None startWorld
  = (inl invalidFormat, startWorld).
Proof.
  apply (analyzeSite_zero_coordinate
           (H := desk (fun _ _ => inr stripPrediction)
                      (fun _ => inr stripBuildings))
           (H0 := gridTurf) "0, 78.5" "0" " 78.5" 0 78.5 2 None startWorld).
  - reflexivity.
  - reflexivity.
  - reflexivity.
  - left. reflexivity.
Defined.
